(** * Tensor encoding pipeline of [tensor_visualizer.py]

    A shallow embedding of [dtype_mapping], [tensor_to_numpy],
    [tensor_to_json] and [apply_permute], together with the parts of
    NumPy, [base64] and [zlib] those functions call, and the properties
    the specification states about them.

    Conventions.
    - A Python call either returns or raises: [outcome].
    - An array element is its bit pattern, an integer in
      [0, 2^(8*itemsize)); signed integers are two's complement and
      floating-point numbers are IEEE 754 interchange encodings.
    - A byte buffer ([bytes]) is a [list byte]. *)

From Stdlib Require Import ZArith QArith Lia List Permutation.
From Stdlib.Strings Require Import Ascii String Byte.
From stdpp Require Import gmap strings list.

Local Open Scope string_scope.
Local Open Scope list_scope.
Local Open Scope Z_scope.

(** ** Python outcomes *)

Module Py.

(** The exceptions the modelled code can raise.  [AxisError] and
    [UnicodeDecodeError] are subclasses of [ValueError] in Python; they are
    kept apart here so that each raise site stays recognisable.
    [TypeError] and [RuntimeError] are what a library's conversion of a
    tensor to NumPy raises when it cannot be done. *)
Inductive exn : Type :=
| ValueError (msg : string)
| AxisError (axis : Z) (ndim : nat)
| IndexError (msg : string)
| UnicodeDecodeError
| TypeError (msg : string)
| RuntimeError (msg : string).

(** [OutOfModel] marks what this development does not describe: an
    [astype] between two element types that the dtype table never pairs
    (which [tensor_to_json] never asks for, see
    [TensorVisualizerFacts.astype_table_defined]), and a record of more
    dimensions than an array can have.  It is not a Python outcome. *)
Inductive outcome (A : Type) : Type :=
| Ok (a : A)
| Raise (e : exn)
| OutOfModel (what : string).

Arguments Ok {A} a.
Arguments Raise {A} e.
Arguments OutOfModel {A} what.

Definition bind {A B} (m : outcome A) (k : A -> outcome B) : outcome B :=
  match m with
  | Ok a => k a
  | Raise e => Raise e
  | OutOfModel w => OutOfModel w
  end.

End Py.

Import Py.

Notation "'let!' x ':=' m 'in' k" := (Py.bind m (fun x => k))
  (at level 10, x name, m at level 100, k at level 200).

(** ** Bytes *)

Module Bytes.

Definition Z_of_byte (b : byte) : Z := Z.of_N (Byte.to_N b).

Definition byte_of_Z (z : Z) : byte :=
  match Byte.of_N (Z.to_N (z mod 256)) with
  | Some b => b
  | None => "000"%byte
  end.

(** The [n] low-order bytes of [x], least significant first. *)
Fixpoint le_bytes (n : nat) (x : Z) : list byte :=
  match n with
  | O => []
  | S k => byte_of_Z x :: le_bytes k (x / 256)
  end.

Fixpoint of_le_bytes (bs : list byte) : Z :=
  match bs with
  | [] => 0
  | b :: rest => Z_of_byte b + 256 * of_le_bytes rest
  end.

(** [sys.byteorder]: the byte order of native NumPy dtypes. *)
Inductive byteorder : Type := LittleEndian | BigEndian.

Definition elem_to_bytes (order : byteorder) (width : nat) (x : Z) : list byte :=
  match order with
  | LittleEndian => le_bytes width x
  | BigEndian => rev (le_bytes width x)
  end.

Definition elem_of_bytes (order : byteorder) (bs : list byte) : Z :=
  match order with
  | LittleEndian => of_le_bytes bs
  | BigEndian => of_le_bytes (rev bs)
  end.

(** Cut a buffer into consecutive pieces of [width] bytes; [fuel] bounds the
    number of pieces. *)
Fixpoint chunks (fuel width : nat) (bs : list byte) : list (list byte) :=
  match fuel with
  | O => []
  | S k => take width bs :: chunks k width (drop width bs)
  end.

End Bytes.

Import Bytes.

(** ** base64 (RFC 4648, standard alphabet, with padding) *)

Module Base64.

Definition alphabet : list byte :=
  list_byte_of_string
    "ABCDEFGHIJKLMNOPQRSTUVWXYZabcdefghijklmnopqrstuvwxyz0123456789+/".

Definition pad : byte := "="%byte.

Definition sextet_char (s : Z) : byte := nth (Z.to_nat s) alphabet pad.

(** [base64.b64encode]: three bytes become four characters; a final group of
    one or two bytes is padded with [=]. *)
Fixpoint b64encode (bs : list byte) : list byte :=
  match bs with
  | [] => []
  | [a] =>
      let n := Z_of_byte a in
      [sextet_char (n / 4); sextet_char (n mod 4 * 16); pad; pad]
  | [a; b] =>
      let n := Z_of_byte a * 256 + Z_of_byte b in
      [sextet_char (n / 1024); sextet_char (n / 16 mod 64);
       sextet_char (n mod 16 * 4); pad]
  | a :: b :: c :: rest =>
      let n := Z_of_byte a * 65536 + Z_of_byte b * 256 + Z_of_byte c in
      sextet_char (n / 262144) :: sextet_char (n / 4096 mod 64)
        :: sextet_char (n / 64 mod 64) :: sextet_char (n mod 64)
        :: b64encode rest
  end.

(** [bytes.decode("ascii")]: fails on a byte above 127. *)
Definition decode_ascii (bs : list byte) : outcome string :=
  if forallb (fun b => Z_of_byte b <? 128) bs
  then Ok (string_of_list_byte bs)
  else Raise UnicodeDecodeError.

Fixpoint index_from (i : Z) (c : byte) (l : list byte) : option Z :=
  match l with
  | [] => None
  | x :: rest => if Byte.eqb x c then Some i else index_from (i + 1) c rest
  end.

Definition char_sextet (c : byte) : option Z := index_from 0 c alphabet.

(** Modelled from the spec: the base64 decoding step of the renderer
    ("base64-decode the data field"); the decoder is not part of the Python
    sources.  It inverts [b64encode] group by group. *)
Fixpoint b64decode (cs : list byte) : option (list byte) :=
  match cs with
  | [] => Some []
  | c0 :: c1 :: c2 :: c3 :: rest =>
      match char_sextet c0, char_sextet c1 with
      | Some s0, Some s1 =>
          match rest, Byte.eqb c3 pad, Byte.eqb c2 pad with
          | [], true, true => Some [byte_of_Z (s0 * 4 + s1 / 16)]
          | [], true, false =>
              match char_sextet c2 with
              | Some s2 =>
                  let n := s0 * 4096 + s1 * 64 + s2 in
                  Some [byte_of_Z (n / 1024); byte_of_Z (n / 4)]
              | None => None
              end
          | _, _, _ =>
              match char_sextet c2, char_sextet c3, b64decode rest with
              | Some s2, Some s3, Some tl =>
                  let n := s0 * 262144 + s1 * 4096 + s2 * 64 + s3 in
                  Some (byte_of_Z (n / 65536) :: byte_of_Z (n / 256)
                          :: byte_of_Z n :: tl)
              | _, _, _ => None
              end
          end
      | _, _ => None
      end
  | _ => None
  end.

End Base64.

(** ** IEEE 754 interchange formats, as far as the pipeline needs them *)

Module IEEE754.

(** The value an encoding denotes.  Finite values carry their sign apart
    (so that [-0] and [+0] differ) and a reduced rational magnitude. *)
Inductive fval : Type :=
| NaN
| Inf (neg : bool)
| Fin (neg : bool) (mag : Q).

Definition pow2 (e : Z) : Q :=
  if 0 <=? e then inject_Z (2 ^ e) else (1 # Z.to_pos (2 ^ (- e)))%Q.

(** Value of the encoding [x] in the binary format with [ebits] exponent
    bits and [mbits] trailing significand bits (IEEE 754-2008, 3.4). *)
Definition decode_float (ebits mbits : Z) (x : Z) : fval :=
  let m := x mod 2 ^ mbits in
  let e := (x / 2 ^ mbits) mod 2 ^ ebits in
  let s := Z.testbit x (ebits + mbits) in
  let bias := 2 ^ (ebits - 1) - 1 in
  if e =? 2 ^ ebits - 1 then (if m =? 0 then Inf s else NaN)
  else if e =? 0 then Fin s (Qred (inject_Z m * pow2 (1 - bias - mbits)))
  else Fin s (Qred (inject_Z (2 ^ mbits + m) * pow2 (e - bias - mbits))).

(** Equality of values, as a test. *)
Definition fval_eqb (x y : fval) : bool :=
  match x, y with
  | NaN, NaN => true
  | Inf a, Inf b => Bool.eqb a b
  | Fin a p, Fin b q =>
      Bool.eqb a b && (Qnum p =? Qnum q) && (Qden p =? Qden q)%positive
  | _, _ => false
  end.

Definition float16_value : Z -> fval := decode_float 5 10.
Definition float32_value : Z -> fval := decode_float 8 23.
Definition float64_value : Z -> fval := decode_float 11 52.

(** The loop of NumPy's [npy_halfbits_to_floatbits] that normalises a
    subnormal significand:
    [while ((h_sig & 0x0400) == 0) { h_sig <<= 1; h_exp++; }]
    on 16-bit unsigned variables.  Ten iterations always suffice. *)
Fixpoint normalize_subnormal (fuel : nat) (h_sig h_exp : Z) : Z * Z :=
  match fuel with
  | O => (h_sig, h_exp)
  | S k =>
      if Z.land h_sig 0x0400 =? 0
      then normalize_subnormal k (Z.shiftl h_sig 1 mod 65536) (h_exp + 1)
      else (h_sig, h_exp)
  end.

(** NumPy's conversion of a binary16 encoding to a binary32 encoding
    ([npy_halfbits_to_floatbits]), which [astype(float32)] applies to each
    element of a [float16] array. *)
Definition half_to_float_bits (h : Z) : Z :=
  let h_exp := Z.land h 0x7c00 in
  let f_sgn := Z.shiftl (Z.land h 0x8000) 16 in
  if h_exp =? 0x0000 then
    let h_sig := Z.land h 0x03ff in
    if h_sig =? 0 then f_sgn
    else
      let '(h_sig, h_exp) :=
        normalize_subnormal 16 (Z.shiftl h_sig 1 mod 65536) h_exp in
      let f_exp := Z.shiftl (127 - 15 - h_exp) 23 in
      let f_sig := Z.shiftl (Z.land h_sig 0x03ff) 13 in
      f_sgn + f_exp + f_sig
  else if h_exp =? 0x7c00 then
    f_sgn + 0x7f800000 + Z.shiftl (Z.land h 0x03ff) 13
  else
    f_sgn + Z.shiftl (Z.land h 0x7fff + 0x1c000) 13.

End IEEE754.

(** ** The part of NumPy the pipeline uses *)

Module Numpy.

Inductive dtype : Type :=
| bool_ | int8 | uint8 | int16 | uint16 | int32 | uint32 | int64 | uint64
| float16 | float32 | float64 | complex64 | complex128.

#[global] Instance dtype_eq_dec : EqDecision dtype.
Proof. solve_decision. Defined.

Definition dtype_code (d : dtype) : nat :=
  match d with
  | bool_ => 0 | int8 => 1 | uint8 => 2 | int16 => 3 | uint16 => 4
  | int32 => 5 | uint32 => 6 | int64 => 7 | uint64 => 8
  | float16 => 9 | float32 => 10 | float64 => 11
  | complex64 => 12 | complex128 => 13
  end%nat.

Definition dtype_of_code (n : nat) : option dtype :=
  nth_error
    [bool_; int8; uint8; int16; uint16; int32; uint32; int64; uint64;
     float16; float32; float64; complex64; complex128] n.

#[global] Program Instance dtype_countable : Countable dtype :=
  inj_countable dtype_code dtype_of_code _.
Next Obligation. by intros []. Qed.

(** [dtype.itemsize], in bytes. *)
Definition itemsize (d : dtype) : nat :=
  match d with
  | bool_ | int8 | uint8 => 1
  | int16 | uint16 | float16 => 2
  | int32 | uint32 | float32 => 4
  | int64 | uint64 | float64 | complex64 => 8
  | complex128 => 16
  end%nat.

(** [str(dtype)]. *)
Definition dtype_name (d : dtype) : string :=
  match d with
  | bool_ => "bool" | int8 => "int8" | uint8 => "uint8"
  | int16 => "int16" | uint16 => "uint16"
  | int32 => "int32" | uint32 => "uint32"
  | int64 => "int64" | uint64 => "uint64"
  | float16 => "float16" | float32 => "float32" | float64 => "float64"
  | complex64 => "complex64" | complex128 => "complex128"
  end.

(** An array: element type, dimensions, and the elements in row-major (C)
    order of its indices, each as a bit pattern of [8 * itemsize] bits.
    The memory layout (strides, views) is not part of the value: every use
    in the pipeline reads the array through [flatten], which copies in
    row-major order. *)
Record ndarray : Type := {
  arr_dtype : dtype;
  arr_shape : list nat;
  arr_items : list Z
}.

Definition prod (dims : list nat) : nat := foldr Nat.mul 1%nat dims.

Definition ndim (a : ndarray) : nat := length (arr_shape a).

(** Row-major strides, counted in elements. *)
Fixpoint c_strides (dims : list nat) : list nat :=
  match dims with
  | [] => []
  | _ :: ds => prod ds :: c_strides ds
  end.

(** [np.unravel_index]: the index tuple of the [f]-th element in row-major
    order. *)
Fixpoint unravel_index (dims : list nat) (f : nat) : list nat :=
  match dims with
  | [] => []
  | _ :: ds => (f / prod ds)%nat :: unravel_index ds (f mod prod ds)%nat
  end.

Definition offset (idx strides : list nat) : nat :=
  sum_list (zip_with Nat.mul idx strides).

(** [a[idx]] for an index tuple within bounds. *)
Definition getitem (a : ndarray) (idx : list nat) : option Z :=
  if bool_decide (Forall2 lt idx (arr_shape a))
  then arr_items a !! offset idx (c_strides (arr_shape a))
  else None.

(** The array whose [k]-th axis is axis [perm[k]] of [a]: NumPy permutes the
    dimensions and strides (a view); reading that view in row-major order
    gives the elements below. *)
Definition permute_axes (a : ndarray) (perm : list nat) : ndarray :=
  let dims := map (fun p => nth p (arr_shape a) 0%nat) perm in
  let strides := map (fun p => nth p (c_strides (arr_shape a)) 0%nat) perm in
  {| arr_dtype := arr_dtype a;
     arr_shape := dims;
     arr_items :=
       map (fun f => nth (offset (unravel_index dims f) strides) (arr_items a) 0)
           (seq 0 (prod dims)) |}.

(** An array has at most [NPY_MAXDIMS] dimensions (64 since NumPy 2). *)
Definition NPY_MAXDIMS : nat := 64.

(** The integers an [npy_intp] holds (64 bits). *)
Definition fits_intp (x : Z) : bool := (- 2 ^ 63 <=? x) && (x <? 2 ^ 63).

(** An [npy_intp] narrowed to a C [int] (32 bits, two's complement): the
    low 32 bits, read as a signed number. *)
Definition c_int (x : Z) : Z := (x + 2 ^ 31) mod 2 ^ 32 - 2 ^ 31.

(** [PyArray_IntpConverter] on a list of Python integers: at most
    [NPY_MAXDIMS] of them, each an [npy_intp].  NumPy's first message also
    names the two lengths. *)
Definition intp_converter (axes : list Z) : outcome (list Z) :=
  if bool_decide (NPY_MAXDIMS < length axes)%nat
  then Raise (ValueError "maximum supported dimension for an ndarray exceeded")
  else if forallb fits_intp axes then Ok axes
  else Raise (ValueError "Maximum allowed dimension exceeded").

(** [check_and_adjust_axis] on a C [int]: negative axes count from the
    end. *)
Definition check_and_adjust_axis (axis : Z) (nd : nat) : outcome nat :=
  if (axis <? - Z.of_nat nd) || (Z.of_nat nd <=? axis)
  then Raise (AxisError axis nd)
  else Ok (Z.to_nat (if axis <? 0 then axis + Z.of_nat nd else axis)).

(** The loop of [PyArray_Transpose] over the requested axes.  Each is
    narrowed to a C [int] before it is checked ([int axis = axes[i]]);
    [seen] holds the axes already used
    ([reverse_permutation[axis] != -1]). *)
Fixpoint adjust_axes (nd : nat) (axes : list Z) (seen : list nat)
  : outcome (list nat) :=
  match axes with
  | [] => Ok []
  | ax :: rest =>
      let! axis := check_and_adjust_axis (c_int ax) nd in
      if bool_decide (axis ∈ seen)
      then Raise (ValueError "repeated axis in transpose")
      else
        let! perm := adjust_axes nd rest (axis :: seen) in
        Ok (axis :: perm)
  end.

(** [np.transpose(a, axes)] for a given list of axes: the list is
    converted to [npy_intp]s, then [PyArray_Transpose] runs. *)
Definition transpose (a : ndarray) (axes : list Z) : outcome ndarray :=
  let! axes := intp_converter axes in
  if bool_decide (length axes = ndim a) then
    let! perm := adjust_axes (ndim a) axes [] in
    Ok (permute_axes a perm)
  else Raise (ValueError "axes don't match array").

(** [a.T]: the axes reversed. *)
Definition T (a : ndarray) : ndarray :=
  permute_axes a (rev (seq 0 (ndim a))).

(** The element conversions [astype] performs between the pairs of types
    the dtype table relates: a copy between equal types, and the widening
    of [float16] to [float32].  Other pairs are outside this model. *)
Definition cast_elem (src tgt : dtype) : option (Z -> Z) :=
  if bool_decide (src = tgt) then Some (fun x => x)
  else
    match src, tgt with
    | float16, float32 => Some IEEE754.half_to_float_bits
    | _, _ => None
    end.

Definition astype (a : ndarray) (tgt : dtype) : outcome ndarray :=
  match cast_elem (arr_dtype a) tgt with
  | Some f =>
      Ok {| arr_dtype := tgt;
            arr_shape := arr_shape a;
            arr_items := map f (arr_items a) |}
  | None => OutOfModel "astype"
  end.

(** [a.flatten()]: a one-dimensional copy in row-major order. *)
Definition flatten (a : ndarray) : ndarray :=
  {| arr_dtype := arr_dtype a;
     arr_shape := [length (arr_items a)];
     arr_items := arr_items a |}.

(** [a.tobytes()]: the elements in row-major order, each in the machine's
    byte order. *)
Definition tobytes (order : byteorder) (a : ndarray) : list byte :=
  flat_map (elem_to_bytes order (itemsize (arr_dtype a))) (arr_items a).

(** [np.frombuffer(buf, dtype=d)]: a one-dimensional array over the
    buffer. *)
Definition frombuffer (order : byteorder) (buf : list byte) (d : dtype)
  : outcome ndarray :=
  if (length buf mod itemsize d =? 0)%nat then
    let n := (length buf / itemsize d)%nat in
    Ok {| arr_dtype := d;
          arr_shape := [n];
          arr_items := map (elem_of_bytes order) (chunks n (itemsize d) buf) |}
  else Raise (ValueError "buffer size must be a multiple of element size").

(** [a.reshape(-1, cols)]: the row count is inferred.  NumPy's message also
    names the sizes involved. *)
Definition reshape_rows (a : ndarray) (cols : Z) : outcome ndarray :=
  let n := length (arr_items a) in
  if (cols <=? 0) || negb (Z.of_nat n mod cols =? 0)
  then Raise (ValueError "cannot reshape array")
  else
    Ok {| arr_dtype := arr_dtype a;
          arr_shape := [(n / Z.to_nat cols)%nat; Z.to_nat cols];
          arr_items := arr_items a |}.

(** [a.reshape(rows, -1)]: the column count is inferred. *)
Definition reshape_cols (a : ndarray) (rows : Z) : outcome ndarray :=
  let n := length (arr_items a) in
  if (rows <=? 0) || negb (Z.of_nat n mod rows =? 0)
  then Raise (ValueError "cannot reshape array")
  else
    Ok {| arr_dtype := arr_dtype a;
          arr_shape := [Z.to_nat rows; (n / Z.to_nat rows)%nat];
          arr_items := arr_items a |}.

(** [a.reshape(dims)] for explicit dimensions. *)
Definition reshape (a : ndarray) (dims : list nat) : outcome ndarray :=
  if bool_decide (prod dims = length (arr_items a))
  then Ok {| arr_dtype := arr_dtype a;
             arr_shape := dims;
             arr_items := arr_items a |}
  else Raise (ValueError "cannot reshape array").

(** An array value is well formed when it has as many elements as its
    dimensions say and every element fits its type. *)
Definition wf_ndarray (a : ndarray) : Prop :=
  length (arr_items a) = prod (arr_shape a) /\
  Forall (fun x => 0 <= x < 2 ^ (8 * Z.of_nat (itemsize (arr_dtype a))))
         (arr_items a).

End Numpy.

Import Numpy.

(** ** [tensor_visualizer.py] *)

Module TensorVisualizer.

(** [dtype_mapping]: source element type to (transmission element type,
    its name, compression kind, shuffle stride). *)
Definition dtype_mapping : gmap dtype (dtype * string * string * option Z) :=
  list_to_map
    [ (float16, (float32, "float32", "zlib", Some 4));
      (float32, (float32, "float32", "zlib", Some 4));
      (float64, (float64, "float64", "zlib", Some 8));
      (int8, (int8, "int8", "zlib", None));
      (uint8, (uint8, "uint8", "zlib", None));
      (int16, (int16, "int16", "zlib", Some 2));
      (int32, (int32, "int32", "zlib", Some 4));
      (int64, (int64, "int64", "zlib", Some 8)) ].

(** The libraries whose tensors [tensor_to_numpy] converts, and the key of
    [sys.modules] each is looked up under. *)
Inductive library : Type := Torch | Mlx | Tensorflow.

#[global] Instance library_eq_dec : EqDecision library.
Proof. solve_decision. Defined.

Definition module_name (lib : library) : string :=
  match lib with
  | Torch => "torch"
  | Mlx => "mlx.core"
  | Tensorflow => "tensorflow"
  end.

(** What the conversion of a tensor ends in when it does not give an
    array: another value (the NumPy scalar [numpy()] gives for a
    [tf.Tensor] of rank 0), or an exception (the [TypeError] of [numpy()]
    on a bfloat16 [torch.Tensor]). *)
Inductive no_array : Type :=
| Value (repr : string)
| Raises (e : exn).

(** The values [tensor_to_json] can be handed.  [TorchTensor a],
    [MlxArray a] and [TfTensor a] are the tensors whose conversion
    ([detach().cpu().numpy()] for [torch.Tensor], [np.array(_)] for
    [mx.array], [numpy()] for [tf.Tensor]) gives the array [a];
    [LibraryTensor lib r] is a tensor of [lib] whose conversion ends in
    [r]. *)
Inductive pyobj : Type :=
| PyNone
| NdArray (a : ndarray)
| TorchTensor (a : ndarray)
| MlxArray (a : ndarray)
| TfTensor (a : ndarray)
| PyOther (repr : string)
| LibraryTensor (lib : library) (r : no_array).

(** [if isinstance(tensor, T): tensor = conversion] for the tensor type
    [T] of [lib]. *)
Definition convert (lib : library) (tensor : pyobj) : outcome pyobj :=
  match lib, tensor with
  | Torch, TorchTensor a => Ok (NdArray a)
  | Mlx, MlxArray a => Ok (NdArray a)
  | Tensorflow, TfTensor a => Ok (NdArray a)
  | _, LibraryTensor lib' r =>
      if bool_decide (lib' = lib) then
        match r with
        | Value repr => Ok (PyOther repr)
        | Raises e => Raise e
        end
      else Ok tensor
  | _, _ => Ok tensor
  end.

(** [tensor_to_numpy]; [modules] is the set of keys of [sys.modules].  A
    record of more than [NPY_MAXDIMS] dimensions is no array, and the
    model says nothing about it. *)
Definition tensor_to_numpy (modules : gset string) (tensor : pyobj)
  : outcome ndarray :=
  let! tensor :=
    if bool_decide ("torch" ∈ modules) then convert Torch tensor
    else Ok tensor in
  let! tensor :=
    if bool_decide ("mlx.core" ∈ modules) then convert Mlx tensor
    else Ok tensor in
  let! tensor :=
    if bool_decide ("tensorflow" ∈ modules) then convert Tensorflow tensor
    else Ok tensor in
  match tensor with
  | NdArray a =>
      if bool_decide (ndim a <= NPY_MAXDIMS)%nat then Ok a
      else OutOfModel "ndim"
  | _ => Raise (ValueError "expect input to be numpy array or torch tensor")
  end.

(** The wire artifact returned by [tensor_to_json]. *)
Record envelope : Type := {
  shape : list Z;
  compression : string;
  shuffle : option Z;
  dtype_ : string;
  data : string
}.

Definition Z_BEST_SPEED : Z := 1.

Section Pipeline.

(** The machine's byte order, and [zlib.compress(data, level)].  The bytes a
    given zlib build emits are not fixed by the format, so the compressor is
    a parameter of the model. *)
Variable native : byteorder.
Variable zlib_compress : Z -> list byte -> list byte.

(** Lines 62-66 of [tensor_to_json]: conversion to an array and the
    optional reordering of its axes. *)
Definition normalize (modules : gset string) (input : pyobj)
    (permute : option (list Z)) : outcome ndarray :=
  let! input := tensor_to_numpy modules input in
  match permute with
  | Some permute =>
      if bool_decide (length permute ≠ length (arr_shape input))
      then Raise (ValueError
                    "permute must be the same length as the tensor's shape")
      else transpose input permute
  | None => Ok input
  end.

(** Lines 73-78: [np.frombuffer(binary_data, dtype=np.byte)
    .reshape(-1, shuffle).T.flatten().tobytes()]. *)
Definition byte_shuffle (stride : Z) (binary_data : list byte)
  : outcome (list byte) :=
  let! buf := frombuffer native binary_data int8 in
  let! grid := reshape_rows buf stride in
  Ok (tobytes native (flatten (T grid))).

(** Lines 67-87 of [tensor_to_json]: dtype lookup, cast, serialisation,
    shuffle, compression, base64 and the envelope. *)
Definition encode (input : ndarray) : outcome envelope :=
  match dtype_mapping !! arr_dtype input with
  | Some (target_dtype, dtype, compression, shuffle) =>
      let! cast := astype input target_dtype in
      let binary_data := tobytes native (flatten cast) in
      let! binary_data :=
        match shuffle with
        | Some stride => byte_shuffle stride binary_data
        | None => Ok binary_data
        end in
      let binary_data :=
        if bool_decide (compression = "zlib")
        then zlib_compress Z_BEST_SPEED binary_data
        else binary_data in
      let! text := Base64.decode_ascii (Base64.b64encode binary_data) in
      Ok {| shape := map Z.of_nat (arr_shape input);
            compression := compression;
            shuffle := shuffle;
            dtype_ := dtype;
            data := text |}
  | None =>
      Raise (ValueError ("unsupported dtype " +:+ dtype_name (arr_dtype input)))
  end.

Definition tensor_to_json (modules : gset string) (input : pyobj)
    (permute : option (list Z)) : outcome (option envelope) :=
  match input with
  | PyNone => Ok None
  | _ =>
      let! input := normalize modules input permute in
      let! env := encode input in
      Ok (Some env)
  end.

(** Modelled from the spec: the inverse of the shuffle ("inverse
    transpose"), which the renderer applies; it is not part of the Python
    sources.  The buffer is read as a grid of [stride] rows, transposed and
    flattened. *)
Definition byte_unshuffle (stride : Z) (buf : list byte)
  : outcome (list byte) :=
  let! arr := frombuffer native buf int8 in
  let! grid := reshape_cols arr stride in
  Ok (tobytes native (flatten (T grid))).

Variable zlib_decompress : list byte -> option (list byte).

Definition to_option {A} (o : outcome A) : option A :=
  match o with Ok a => Some a | _ => None end.

(** Modelled from the spec: the wire names of section 6. *)
Definition dtype_of_name (name : string) : option dtype :=
  if bool_decide (name = "float32") then Some float32
  else if bool_decide (name = "float64") then Some float64
  else if bool_decide (name = "int8") then Some int8
  else if bool_decide (name = "uint8") then Some uint8
  else if bool_decide (name = "int16") then Some int16
  else if bool_decide (name = "int32") then Some int32
  else if bool_decide (name = "int64") then Some int64
  else None.

(** Modelled from the spec: the decoder of an envelope (base64, inflate,
    un-shuffle with the envelope's stride, reinterpret as the envelope's
    dtype, reshape to the envelope's shape); it is not part of the Python
    sources. *)
Definition decode (env : envelope) : option ndarray :=
  raw ← Base64.b64decode (list_byte_of_string (data env));
  inflated ← (if bool_decide (compression env = "zlib")
              then zlib_decompress raw else Some raw);
  buf ← match shuffle env with
        | Some stride => to_option (byte_unshuffle stride inflated)
        | None => Some inflated
        end;
  d ← dtype_of_name (dtype_ env);
  flat ← to_option (frombuffer native buf d);
  to_option (reshape flat (map Z.to_nat (shape env))).

End Pipeline.

(** Python's [l[i]] on a list: a negative index counts from the end. *)
Definition list_getitem {A} (l : list A) (i : Z) : outcome A :=
  let j := if i <? 0 then i + Z.of_nat (length l) else i in
  match (if 0 <=? j then l !! Z.to_nat j else None) with
  | Some x => Ok x
  | None => Raise (IndexError "list index out of range")
  end.

(** A list comprehension whose element expression may raise. *)
Fixpoint comprehension {A B} (f : A -> outcome B) (l : list A)
  : outcome (list B) :=
  match l with
  | [] => Ok []
  | x :: rest =>
      let! y := f x in
      let! ys := comprehension f rest in
      Ok (y :: ys)
  end.

(** [apply_permute]; the result elements are [Some x] for an entry of
    [array] and [None] for Python's [None]. *)
Definition apply_permute {A} (array : option (list A)) (permute : list Z)
  : outcome (option (list (option A))) :=
  match array with
  | None => Ok None
  | Some array =>
      let! out :=
        comprehension
          (fun i =>
             if i <? Z.of_nat (length array)
             then let! x := list_getitem array i in Ok (Some x)
             else Ok None)
          permute in
      Ok (Some out)
  end.

End TensorVisualizer.

(** ** A zlib codec restricted to stored blocks

    One implementation of the contract assumed of [zlib.compress] and of
    the renderer's inflate: the stream has the zlib header, DEFLATE blocks
    of type 00 (stored, RFC 1951 section 3.2.4) of at most 65535 bytes, and
    the Adler-32 check value (RFC 1950).  It instantiates the compressor
    wherever a concrete one is needed. *)

Module StoredZlib.

Definition adler32 (bs : list byte) : Z :=
  let '(a, b) :=
    fold_left
      (fun '(a, b) x =>
         let a' := (a + Z_of_byte x) mod 65521 in (a', (b + a') mod 65521))
      bs (1, 0) in
  b * 65536 + a.

(** The check value is stored as a 32-bit number, most significant byte
    first. *)
Definition be32 (x : Z) : list byte := rev (le_bytes 4 x).

Definition block_limit : nat := Z.to_nat 65535.

(** A stored block: [BFINAL] and [BTYPE = 00] in one byte, [LEN], its one's
    complement [NLEN], and the bytes. *)
Definition stored_block (final : bool) (chunk : list byte) : list byte :=
  let len := Z.of_nat (length chunk) in
  byte_of_Z (if final then 1 else 0)
    :: le_bytes 2 len ++ le_bytes 2 (65535 - len) ++ chunk.

Fixpoint deflate_stored (fuel : nat) (bs : list byte) : list byte :=
  match fuel with
  | O => stored_block true bs
  | S k =>
      if (length bs <=? block_limit)%nat then stored_block true bs
      else stored_block false (take block_limit bs)
             ++ deflate_stored k (drop block_limit bs)
  end.

Definition compress (level : Z) (bs : list byte) : list byte :=
  byte_of_Z 0x78 :: byte_of_Z 0x01
    :: deflate_stored (length bs) bs ++ be32 (adler32 bs).

(** Reads stored blocks up to the final one; returns the bytes and what
    follows the final block. *)
Fixpoint inflate_stored (fuel : nat) (bs : list byte)
  : option (list byte * list byte) :=
  match fuel with
  | O => None
  | S k =>
      match bs with
      | hdr :: len0 :: len1 :: nlen0 :: nlen1 :: rest =>
          let len := of_le_bytes [len0; len1] in
          let nlen := of_le_bytes [nlen0; nlen1] in
          if (len + nlen =? 65535) && (len <=? Z.of_nat (length rest))
             && (Z_of_byte hdr <=? 1)
          then
            let chunk := take (Z.to_nat len) rest in
            let remaining := drop (Z.to_nat len) rest in
            if Z_of_byte hdr =? 1 then Some (chunk, remaining)
            else
              match inflate_stored k remaining with
              | Some (more, tail) => Some (chunk ++ more, tail)
              | None => None
              end
          else None
      | _ => None
      end
  end.

Definition decompress (bs : list byte) : option (list byte) :=
  match bs with
  | cmf :: flg :: body =>
      if (Z_of_byte cmf =? 0x78)
         && ((Z_of_byte cmf * 256 + Z_of_byte flg) mod 31 =? 0)
      then
        match inflate_stored (length body) body with
        | Some (out, trailer) =>
            if (length trailer =? 4)%nat
               && (of_le_bytes (rev trailer) =? adler32 out mod 2 ^ 32)
            then Some out
            else None
        | None => None
        end
      else None
  | _ => None
  end.

End StoredZlib.

(** ** Notions used to state the properties *)

Import TensorVisualizer.

Module Spec.

(** An axis list that is a rearrangement of [0 .. nd-1]: the
    specification's permutation. *)
Definition is_permutation (axes : list Z) (nd : nat) : Prop :=
  Permutation axes (map Z.of_nat (seq 0 nd)).

(** [None] for no permutation; otherwise a rearrangement of the axes. *)
Definition valid_permute (permute : option (list Z)) (nd : nat) : Prop :=
  match permute with
  | None => True
  | Some p => is_permutation p nd
  end.

Definition permuted (a : ndarray) (permute : option (list Z)) : ndarray :=
  match permute with
  | None => a
  | Some p => permute_axes a (map Z.to_nat p)
  end.

(** Whether [tensor_to_numpy] recognises a value: an array, or a tensor of
    a library that is loaded. *)
Definition recognized (modules : gset string) (tensor : pyobj) : bool :=
  match tensor with
  | NdArray _ => true
  | TorchTensor _ => bool_decide ("torch" ∈ modules)
  | MlxArray _ => bool_decide ("mlx.core" ∈ modules)
  | TfTensor _ => bool_decide ("tensorflow" ∈ modules)
  | LibraryTensor lib _ => bool_decide (module_name lib ∈ modules)
  | PyNone | PyOther _ => false
  end.

(** The array a value stands for: itself, or the array its conversion
    gives; none when the conversion does not give an array. *)
Definition payload (tensor : pyobj) : option ndarray :=
  match tensor with
  | NdArray a | TorchTensor a | MlxArray a | TfTensor a => Some a
  | PyNone | PyOther _ | LibraryTensor _ _ => None
  end.

(** The transmission type of a source type, and the stride its entry
    carries: the byte width of the transmission type, or none for one-byte
    types. *)
Definition wire_dtype (d : dtype) : dtype :=
  match d with float16 => float32 | _ => d end.

Definition wire_stride (d : dtype) : option Z :=
  match itemsize (wire_dtype d) with
  | 1%nat => None
  | n => Some (Z.of_nat n)
  end.

(** What [astype] makes of an array on its way to the wire. *)
Definition wire_array (a : ndarray) : ndarray :=
  {| arr_dtype := wire_dtype (arr_dtype a);
     arr_shape := arr_shape a;
     arr_items :=
       match arr_dtype a with
       | float16 => map IEEE754.half_to_float_bits (arr_items a)
       | _ => arr_items a
       end |}.

(** The buffer read as a grid of [rows] rows and [cols] columns and written
    out column by column: position [c * rows + r] of the result holds
    position [r * cols + c] of the buffer. *)
Definition grid_transpose (rows cols : nat) (b : list byte) : list byte :=
  map (fun f => nth ((f mod rows) * cols + f / rows)%nat b "000"%byte)
      (seq 0 (cols * rows)).

(** The byte buffer handed to the compressor. *)
Definition wire_bytes (order : byteorder) (a : ndarray) : list byte :=
  let raw := tobytes order (flatten (wire_array a)) in
  match wire_stride (arr_dtype a) with
  | Some _ =>
      grid_transpose (length (arr_items a))
                     (itemsize (wire_dtype (arr_dtype a))) raw
  | None => raw
  end.

(** The 2x3 [float32] array [[1,2,3],[4,5,6]]: each element is the binary32
    encoding of its value. *)
Definition example_2x3 : ndarray :=
  {| arr_dtype := float32;
     arr_shape := [2; 3]%nat;
     arr_items := [0x3F800000; 0x40000000; 0x40400000;
                   0x40800000; 0x40A00000; 0x40C00000] |}.

(** The 2x2 [float16] array [[1, 2], [0.5, -2]]. *)
Definition example_half_2x2 : ndarray :=
  {| arr_dtype := float16;
     arr_shape := [2; 2]%nat;
     arr_items := [0x3C00; 0x4000; 0x3800; 0xC000] |}.

Definition example_uint8 : ndarray :=
  {| arr_dtype := uint8; arr_shape := [3]%nat; arr_items := [0; 127; 255] |}.

Definition example_complex : ndarray :=
  {| arr_dtype := complex64; arr_shape := [1]%nat; arr_items := [0] |}.

(** An [int16] array of rank 3 holding 1, 2, -1, 4. *)
Definition example_rank3 : ndarray :=
  {| arr_dtype := int16;
     arr_shape := [2; 1; 2]%nat;
     arr_items := [1; 2; 65535; 4] |}.

End Spec.

Import Spec.

(** ** The widget of [tensor_visualizer.py] *)

Module Widget.

(** A value of a decoded JSON message.  Numbers are integers or binary64
    encodings. *)
#[warnings="-register-all"]
Inductive json : Type :=
| JNull
| JBool (b : bool)
| JInt (n : Z)
| JFloat (bits : Z)
| JStr (s : string)
| JList (items : list json)
| JObj (fields : gmap string json).

(** The attributes of a [TensorVisualizer]: its traits and [tensor_data].
    A [List] trait holds [None] or a list, a [Unicode] trait [None] or a
    string.  An entry of a metadata list is a value or [None]. *)
Record widget : Type := {
  names : option (list (option string));
  labels : option (list (option (list string)));
  scale_domain : option (list json);
  scale_type : option string;
  scale_scheme : option string;
  default_views : option (list (option string));
  current_scale_domain : option (list json);
  current_scale_type : option string;
  current_scale_scheme : option string;
  tensor_data : option envelope
}.

(** A metadata list as passed by the caller, every entry present. *)
Definition as_given {A} (array : option (list A)) : option (list (option A)) :=
  map Some <$> array.

Section Init.

Variable native : byteorder.
Variable zlib_compress : Z -> list byte -> list byte.

(** [TensorVisualizer.__init__].  The traits not passed to
    [super().__init__] keep their default, [None]. *)
Definition init (modules : gset string) (tensor : pyobj)
    (names : option (list string)) (labels : option (list (list string)))
    (default_views : option (list string))
    (scale_domain : option (list json))
    (scale_type scale_scheme : option string)
    (permute : option (list Z)) : outcome widget :=
  let! tensor_data :=
    tensor_to_json native zlib_compress modules tensor permute in
  let! metadata :=
    match permute with
    | Some permute =>
        let! names := apply_permute names permute in
        let! labels := apply_permute labels permute in
        let! default_views := apply_permute default_views permute in
        Ok (names, labels, default_views)
    | None => Ok (as_given names, as_given labels, as_given default_views)
    end in
  let '(names, labels, default_views) := metadata in
  Ok {| names := names;
        labels := labels;
        scale_domain := scale_domain;
        scale_type := scale_type;
        scale_scheme := scale_scheme;
        default_views := default_views;
        current_scale_domain := None;
        current_scale_type := None;
        current_scale_scheme := None;
        tensor_data := tensor_data |}.

End Init.

(** The exceptions [_handle_custom_msg] can raise. *)
Inductive msg_exn : Type :=
| KeyError (key : string)
| AttributeError (attribute : string)
| TraitError (trait : string).

(** The dictionary passed to [self.send]. *)
Record custom_message : Type := {
  msg_type : string;
  msg_valueType : string;
  msg_name : string;
  msg_value : option envelope
}.

(** What handling a message leaves behind: the attributes of the widget
    (as they are when the handler returns or raises), the dictionaries
    passed to [self.send], and the exception raised, if any. *)
Record reaction : Type := {
  state : widget;
  outbox : list custom_message;
  raised : option msg_exn
}.

(** [v == s] for a string literal [s]. *)
Definition is_str (v : json) (s : string) : bool :=
  match v with
  | JStr t => bool_decide (t = s)
  | _ => false
  end.

(** [d.get(key)]. *)
Definition dict_get (d : gmap string json) (key : string) : json :=
  default JNull (d !! key).

(** Assignment to a [List] trait with [allow_none=True]: [None] and lists
    pass, and [List.set] wraps a string into a list of one element; any
    other value is refused. *)
Definition validate_list (v : json) : option (option (list json)) :=
  match v with
  | JNull => Some None
  | JList l => Some (Some l)
  | JStr s => Some (Some [JStr s])
  | _ => None
  end.

(** Validation by a [Unicode] trait with [allow_none=True]. *)
Definition validate_unicode (v : json) : option (option string) :=
  match v with
  | JNull => Some None
  | JStr s => Some (Some s)
  | _ => None
  end.

Definition set_current_scale_domain (self : widget) v : widget :=
  {| names := names self; labels := labels self;
     scale_domain := scale_domain self; scale_type := scale_type self;
     scale_scheme := scale_scheme self; default_views := default_views self;
     current_scale_domain := v;
     current_scale_type := current_scale_type self;
     current_scale_scheme := current_scale_scheme self;
     tensor_data := tensor_data self |}.

Definition set_current_scale_type (self : widget) v : widget :=
  {| names := names self; labels := labels self;
     scale_domain := scale_domain self; scale_type := scale_type self;
     scale_scheme := scale_scheme self; default_views := default_views self;
     current_scale_domain := current_scale_domain self;
     current_scale_type := v;
     current_scale_scheme := current_scale_scheme self;
     tensor_data := tensor_data self |}.

Definition set_current_scale_scheme (self : widget) v : widget :=
  {| names := names self; labels := labels self;
     scale_domain := scale_domain self; scale_type := scale_type self;
     scale_scheme := scale_scheme self; default_views := default_views self;
     current_scale_domain := current_scale_domain self;
     current_scale_type := current_scale_type self;
     current_scale_scheme := v;
     tensor_data := tensor_data self |}.

Definition returns (self : widget) (sent : list custom_message) : reaction :=
  {| state := self; outbox := sent; raised := None |}.

Definition raises (self : widget) (e : msg_exn) : reaction :=
  {| state := self; outbox := []; raised := Some e |}.

(** The three assignments of the [scale] branch, in order; an assignment a
    trait refuses raises and leaves the earlier ones in place. *)
Definition assign_scale (self : widget) (scale : gmap string json) : reaction :=
  match validate_list (dict_get scale "domain") with
  | None => raises self (TraitError "current_scale_domain")
  | Some domain =>
      let self := set_current_scale_domain self domain in
      match validate_unicode (dict_get scale "type") with
      | None => raises self (TraitError "current_scale_type")
      | Some type =>
          let self := set_current_scale_type self type in
          match validate_unicode (dict_get scale "scheme") with
          | None => raises self (TraitError "current_scale_scheme")
          | Some scheme => returns (set_current_scale_scheme self scheme) []
          end
      end
  end.

(** [TensorVisualizer._handle_custom_msg]; [buffers] is not used. *)
Definition handle_custom_msg (self : widget) (content : gmap string json)
  : reaction :=
  match content !! "type" with
  | None => raises self (KeyError "type")
  | Some type =>
      let is_tensor_request :=
        if is_str type "prop" then
          match content !! "name" with
          | Some name => Some (is_str name "tensor")
          | None => None
          end
        else Some false in
      match is_tensor_request with
      | None => raises self (KeyError "name")
      | Some true =>
          returns self [ {| msg_type := "prop";
                            msg_valueType := "Tensor";
                            msg_name := "tensor";
                            msg_value := tensor_data self |} ]
      | Some false =>
          if is_str type "scale" then
            match dict_get content "scale" with
            | JObj scale => assign_scale self scale
            | _ => raises self (AttributeError "get")
            end
          else returns self []
      end
  end.

End Widget.

(** ** Notions used to state the further properties *)

Module Axes.

(** The axis a possibly negative axis number denotes in an array of [nd]
    dimensions. *)
Definition axis_index (nd : nat) (axis : Z) : nat :=
  Z.to_nat (if axis <? 0 then axis + Z.of_nat nd else axis).

Definition in_range (nd : nat) (axis : Z) : Prop :=
  - Z.of_nat nd <= axis < Z.of_nat nd.

(** The dimension an axis number of an axis list denotes, once NumPy has
    narrowed it to a C [int]. *)
Definition denoted (nd : nat) (axis : Z) : nat := axis_index nd (c_int axis).

(** The axis lists [np.transpose] accepts for an array of [nd] dimensions:
    one axis number per dimension, each an [npy_intp] and, narrowed to a C
    [int], within range, no dimension twice. *)
Definition accepted (nd : nat) (axes : list Z) : Prop :=
  length axes = nd
  /\ Forall (fun x => - 2 ^ 63 <= x < 2 ^ 63) axes
  /\ Forall (fun x => in_range nd (c_int x)) axes
  /\ NoDup (map (denoted nd) axes).

(** The axes a permutation argument selects; all of them, in order, when
    there is none. *)
Definition selected (nd : nat) (permute : option (list Z)) : list nat :=
  match permute with
  | None => seq 0 nd
  | Some p => map (denoted nd) p
  end.

End Axes.

Module Notions.

(** A character of base64 text. *)
Definition base64_char (c : byte) : Prop :=
  c ∈ Base64.alphabet \/ c = Base64.pad.

(** The element expression of the comprehension of [apply_permute]. *)
Definition entry {A} (array : list A) (i : Z) : outcome (option A) :=
  if i <? Z.of_nat (length array)
  then let! x := list_getitem array i in Ok (Some x)
  else Ok None.

End Notions.

(** ** Messages to a widget, and sample values *)

Module Session.

Import Widget.

(** The widget after a series of messages, each handled in turn; a
    message whose handling raises leaves the widget as it is at the
    raise. *)
Definition after (self : widget) (messages : list (gmap string json)) : widget :=
  foldl (fun w content => state (handle_custom_msg w content)) self messages.

Definition tensor_request : gmap string json :=
  {[ "type" := JStr "prop"; "name" := JStr "tensor" ]}.

End Session.

Module Samples.

(** The envelope of [example_uint8] on a little-endian machine. *)
Definition example_envelope : envelope :=
  {| shape := [3];
     compression := "zlib";
     shuffle := None;
     dtype_ := "uint8";
     data := string_of_list_byte
               (Base64.b64encode
                  (StoredZlib.compress Z_BEST_SPEED
                     (tobytes LittleEndian (flatten example_uint8)))) |}.

(** A widget as the constructor leaves it, and two messages. *)
Definition example_widget : Widget.widget :=
  {| Widget.names := Some [Some "x"];
     Widget.labels := None;
     Widget.scale_domain := None;
     Widget.scale_type := Some "log";
     Widget.scale_scheme := None;
     Widget.default_views := None;
     Widget.current_scale_domain := None;
     Widget.current_scale_type := None;
     Widget.current_scale_scheme := None;
     Widget.tensor_data := Some example_envelope |}.

Definition example_scale : gmap string Widget.json :=
  {[ "domain" := Widget.JList [Widget.JInt 0; Widget.JInt 1];
     "type" := Widget.JStr "linear" ]}.

Definition example_scale_message : gmap string Widget.json :=
  {[ "type" := Widget.JStr "scale"; "scale" := Widget.JObj example_scale ]}.

Definition example_bad_scale_message : gmap string Widget.json :=
  {[ "type" := Widget.JStr "scale";
     "scale" := Widget.JObj {[ "domain" := Widget.JList [Widget.JInt 0];
                               "type" := Widget.JInt 7 ]} ]}.

End Samples.

Import Samples.

(** * Properties *)

(** ** Bytes *)

Module BytesFacts.

Lemma Z_of_byte_range (b : byte) : 0 <= Z_of_byte b < 256.
Proof.
  unfold Z_of_byte. pose proof (Byte.to_N_bounded b). lia.
Qed.

Lemma byte_of_Z_of_byte (b : byte) : byte_of_Z (Z_of_byte b) = b.
Proof.
  unfold byte_of_Z. pose proof (Z_of_byte_range b) as Hr.
  rewrite Z.mod_small by exact Hr.
  unfold Z_of_byte. rewrite N2Z.id, Byte.of_to_N. reflexivity.
Qed.

Lemma Z_of_byte_of_Z (z : Z) : Z_of_byte (byte_of_Z z) = z mod 256.
Proof.
  unfold byte_of_Z, Z_of_byte.
  pose proof (Z.mod_pos_bound z 256 eq_refl) as Hr.
  destruct (Byte.of_N (Z.to_N (z mod 256))) as [b|] eqn:E.
  - apply Byte.to_of_N in E. rewrite E. lia.
  - pose proof (Byte.to_of_N_option_map (Z.to_N (z mod 256))) as H.
    rewrite E in H. simpl in H.
    destruct (N.leb_spec (Z.to_N (z mod 256)) 255); [discriminate | lia].
Qed.

Lemma byte_of_Z_small (z : Z) (b : byte) : z = Z_of_byte b -> byte_of_Z z = b.
Proof. intros ->. apply byte_of_Z_of_byte. Qed.

Lemma byte_of_Z_mod (z : Z) : byte_of_Z (z mod 256) = byte_of_Z z.
Proof. unfold byte_of_Z. rewrite Z.mod_mod by lia. reflexivity. Qed.

Lemma length_le_bytes (n : nat) (x : Z) : length (le_bytes n x) = n.
Proof. revert x. induction n as [|n IH]; intros x; simpl; [|rewrite IH]; reflexivity. Qed.

Lemma of_le_bytes_le_bytes (n : nat) (x : Z) :
  of_le_bytes (le_bytes n x) = x mod 2 ^ (8 * Z.of_nat n).
Proof.
  revert x. induction n as [|n IH]; intros x.
  - simpl. rewrite Z.mod_1_r. reflexivity.
  - cbn [le_bytes of_le_bytes]. rewrite IH, Z_of_byte_of_Z.
    replace (8 * Z.of_nat (S n)) with (8 + 8 * Z.of_nat n) by lia.
    rewrite Z.pow_add_r by lia. change (2 ^ 8) with 256.
    rewrite Z.rem_mul_r by lia. reflexivity.
Qed.

Lemma length_elem_to_bytes (order : byteorder) (n : nat) (x : Z) :
  length (elem_to_bytes order n x) = n.
Proof.
  destruct order; simpl; [|rewrite length_rev]; apply length_le_bytes.
Qed.

(** Reading back the bytes of an element that fits its width gives the
    element, in either byte order. *)
Lemma elem_of_to_bytes (order : byteorder) (n : nat) (x : Z) :
  0 <= x < 2 ^ (8 * Z.of_nat n) ->
  elem_of_bytes order (elem_to_bytes order n x) = x.
Proof.
  intros Hx. destruct order; simpl; [|rewrite rev_involutive];
    rewrite of_le_bytes_le_bytes; apply Z.mod_small; exact Hx.
Qed.

(** Cutting a serialised element list into pieces of the element width
    gives back the serialisation of each element. *)
Lemma chunks_flat_map (order : byteorder) (n : nat) (xs : list Z) :
  chunks (length xs) n (flat_map (elem_to_bytes order n) xs)
  = map (elem_to_bytes order n) xs.
Proof.
  induction xs as [|x xs IH]; [reflexivity|].
  cbn [length chunks flat_map map].
  rewrite take_app_length', drop_app_length'
    by (symmetry; apply length_elem_to_bytes).
  rewrite IH. reflexivity.
Qed.

Lemma length_flat_map_bytes (order : byteorder) (n : nat) (xs : list Z) :
  length (flat_map (elem_to_bytes order n) xs) = (length xs * n)%nat.
Proof.
  induction xs as [|x xs IH]; [reflexivity|].
  cbn [flat_map length]. rewrite length_app, IH, length_elem_to_bytes. lia.
Qed.

(** Bounded universal quantification over an interval of [Z], decided by
    evaluation. *)
Fixpoint all_from (P : Z -> bool) (n : nat) (z : Z) : bool :=
  match n with
  | O => true
  | S k => P z && all_from P k (z + 1)
  end.

Lemma all_from_spec (P : Z -> bool) (n : nat) (z : Z) :
  all_from P n z = true ->
  forall x, z <= x < z + Z.of_nat n -> P x = true.
Proof.
  revert z. induction n as [|n IH]; intros z H x Hx; [lia|].
  cbn [all_from] in H. apply andb_prop in H as [Hz Hrest].
  destruct (Z.eq_dec x z) as [->|Hne]; [exact Hz|].
  apply (IH (z + 1) Hrest). lia.
Qed.

Lemma forall_below (P : Z -> bool) (n : Z) :
  all_from P (Z.to_nat n) 0 = true ->
  forall z, 0 <= z < n -> P z = true.
Proof.
  intros H z Hz. apply (all_from_spec P (Z.to_nat n) 0 H). lia.
Qed.

End BytesFacts.

(** ** base64 *)

Module Base64Facts.

Import BytesFacts Base64.

Lemma byte_of_Z_eq (z : Z) (b : byte) : z mod 256 = Z_of_byte b -> byte_of_Z z = b.
Proof.
  intros H. rewrite <- byte_of_Z_mod, H. apply byte_of_Z_of_byte.
Qed.

(** Each of the 64 sextets has its own character, which is ASCII and is not
    the padding character. *)
Lemma sextet_char_spec (s : Z) :
  0 <= s < 64 ->
  char_sextet (sextet_char s) = Some s /\
  Byte.eqb (sextet_char s) pad = false /\
  (Z_of_byte (sextet_char s) <? 128) = true.
Proof.
  intros Hs.
  pose (check := fun s =>
    match char_sextet (sextet_char s) with
    | Some s' => s' =? s
    | None => false
    end && negb (Byte.eqb (sextet_char s) pad)
        && (Z_of_byte (sextet_char s) <? 128)).
  assert (Hc : check s = true)
    by (apply (forall_below check 64); [vm_compute; reflexivity | exact Hs]).
  unfold check in Hc.
  destruct (char_sextet (sextet_char s)) as [s'|]; [|discriminate].
  apply andb_prop in Hc as [Hc H3]. apply andb_prop in Hc as [H1 H2].
  apply Z.eqb_eq in H1. apply negb_true_iff in H2. subst s'. auto.
Qed.

Lemma pad_is_pad : Byte.eqb pad pad = true.
Proof. reflexivity. Qed.

Ltac sextets :=
  repeat match goal with
  | |- context [char_sextet (sextet_char ?s)] =>
      let H := fresh in
      assert (H : 0 <= s < 64) by (Z.div_mod_to_equations; lia);
      destruct (sextet_char_spec s H) as (-> & ? & ?); clear H
  end.

Ltac no_pad :=
  repeat match goal with
  | H : Byte.eqb (sextet_char ?s) pad = false |- _ => rewrite H; clear H
  end.

Lemma decode_one (a : byte) : b64decode (b64encode [a]) = Some [a].
Proof.
  pose proof (Z_of_byte_range a) as Ha.
  cbn [b64encode b64decode]. sextets. rewrite pad_is_pad.
  f_equal. f_equal. apply byte_of_Z_eq.
  Z.div_mod_to_equations; lia.
Qed.

Lemma decode_two (a b : byte) : b64decode (b64encode [a; b]) = Some [a; b].
Proof.
  pose proof (Z_of_byte_range a) as Ha. pose proof (Z_of_byte_range b) as Hb.
  cbn [b64encode b64decode]. sextets. rewrite pad_is_pad. no_pad.
  f_equal. f_equal; [|f_equal]; apply byte_of_Z_eq;
    Z.div_mod_to_equations; lia.
Qed.

Lemma decode_three (a b c : byte) (rest : list byte) :
  b64decode (b64encode rest) = Some rest ->
  b64decode (b64encode (a :: b :: c :: rest)) = Some (a :: b :: c :: rest).
Proof.
  intros IH.
  pose proof (Z_of_byte_range a) as Ha. pose proof (Z_of_byte_range b) as Hb.
  pose proof (Z_of_byte_range c) as Hc.
  cbn [b64encode]. cbn [b64decode]. sextets. no_pad.
  fold b64decode. rewrite IH.
  destruct (b64encode rest);
    (f_equal; f_equal; [|f_equal; [|f_equal]]; apply byte_of_Z_eq;
     Z.div_mod_to_equations; lia).
Qed.

(** Decoding an encoded buffer gives the buffer. *)
Lemma b64decode_b64encode (bs : list byte) : b64decode (b64encode bs) = Some bs.
Proof.
  enough (H : b64decode (b64encode bs) = Some bs /\
              (forall a, b64decode (b64encode (a :: bs)) = Some (a :: bs)) /\
              (forall a b, b64decode (b64encode (a :: b :: bs))
                           = Some (a :: b :: bs)))
    by apply H.
  induction bs as [|x bs (IH0 & IH1 & IH2)].
  - split; [reflexivity|]. split; [apply decode_one | apply decode_two].
  - split; [apply IH1|]. split; [intros a; apply IH2|].
    intros a b. apply decode_three, IH0.
Qed.

(** The encoder emits ASCII only, so [decode("ascii")] cannot fail. *)
Lemma b64encode_ascii (bs : list byte) :
  forallb (fun b => Z_of_byte b <? 128) (b64encode bs) = true.
Proof.
  enough (H : forallb (fun b => Z_of_byte b <? 128) (b64encode bs) = true /\
              (forall a, forallb (fun b => Z_of_byte b <? 128)
                           (b64encode (a :: bs)) = true) /\
              (forall a b, forallb (fun b => Z_of_byte b <? 128)
                             (b64encode (a :: b :: bs)) = true))
    by apply H.
  assert (Hch : forall s, 0 <= s < 64 -> (Z_of_byte (sextet_char s) <? 128) = true)
    by (intros s Hs; apply sextet_char_spec, Hs).
  induction bs as [|x bs (IH0 & IH1 & IH2)].
  - split; [reflexivity|]. split.
    + intros a. pose proof (Z_of_byte_range a). cbn [b64encode forallb].
      rewrite !Hch by (Z.div_mod_to_equations; lia). reflexivity.
    + intros a b. pose proof (Z_of_byte_range a). pose proof (Z_of_byte_range b).
      cbn [b64encode forallb].
      rewrite !Hch by (Z.div_mod_to_equations; lia). reflexivity.
  - split; [apply IH1|]. split; [intros a; apply IH2|].
    intros a b. pose proof (Z_of_byte_range a). pose proof (Z_of_byte_range b).
    pose proof (Z_of_byte_range x).
    cbn [b64encode forallb].
    rewrite !Hch by (Z.div_mod_to_equations; lia). rewrite IH0. reflexivity.
Qed.

Lemma decode_ascii_b64encode (bs : list byte) :
  decode_ascii (b64encode bs) = Ok (string_of_list_byte (b64encode bs)).
Proof. unfold decode_ascii. rewrite b64encode_ascii. reflexivity. Qed.

(** The text of an envelope decodes to the bytes that were encoded. *)
Lemma b64_text_roundtrip (bs : list byte) :
  b64decode (list_byte_of_string (string_of_list_byte (b64encode bs))) = Some bs.
Proof.
  rewrite list_byte_of_string_of_list_byte. apply b64decode_b64encode.
Qed.

(** The test vectors of RFC 4648, section 10. *)
Example b64encode_rfc4648 :
  map (fun s => string_of_list_byte (b64encode (list_byte_of_string s)))
      [""; "f"; "fo"; "foo"; "foob"; "fooba"; "foobar"]
  = [""; "Zg=="; "Zm8="; "Zm9v"; "Zm9vYg=="; "Zm9vYmE="; "Zm9vYmFy"].
Proof. reflexivity. Qed.

End Base64Facts.

(** ** The widening of binary16 to binary32 *)

Module IEEE754Facts.

Import BytesFacts IEEE754.

Lemma fval_eqb_eq (x y : fval) : fval_eqb x y = true -> x = y.
Proof.
  destruct x as [|a|a [p1 p2]], y as [|b|b [q1 q2]]; simpl; try discriminate.
  - reflexivity.
  - intros H. apply Bool.eqb_prop in H. congruence.
  - intros H. apply andb_prop in H as [H H3]. apply andb_prop in H as [H1 H2].
    apply Bool.eqb_prop in H1. apply Z.eqb_eq in H2. apply Pos.eqb_eq in H3.
    congruence.
Qed.

(** Every binary16 encoding is sent to a binary32 encoding of the same
    value: the conversion is exact, for normal and subnormal numbers, both
    zeros, both infinities and NaN.  Checked on all 65536 encodings. *)
Lemma half_to_float_bits_exact (h : Z) :
  0 <= h < 65536 ->
  float32_value (half_to_float_bits h) = float16_value h /\
  0 <= half_to_float_bits h < 2 ^ 32.
Proof.
  intros Hh.
  pose (check := fun h =>
    fval_eqb (float32_value (half_to_float_bits h)) (float16_value h)
    && (0 <=? half_to_float_bits h) && (half_to_float_bits h <? 2 ^ 32)).
  assert (Hc : check h = true)
    by (apply (forall_below check 65536); [vm_compute; reflexivity | exact Hh]).
  unfold check in Hc.
  apply andb_prop in Hc as [Hc H3]. apply andb_prop in Hc as [H1 H2].
  split; [apply fval_eqb_eq, H1 | lia].
Qed.

(** 1.0, the smallest subnormal, -0, infinity and a NaN. *)
Example half_to_float_bits_samples :
  map half_to_float_bits [0x3C00; 0x0001; 0x8000; 0x7C00; 0x7E00]
  = [0x3F800000; 0x33800000; 0x80000000; 0x7F800000; 0x7FC00000].
Proof. reflexivity. Qed.

Example float16_value_samples :
  map float16_value [0x3C00; 0x0001; 0x8000; 0x7C00; 0x7E00; 0xC000]
  = [Fin false 1; Fin false (1 # 16777216); Fin true 0; Inf false; NaN;
     Fin true 2].
Proof. reflexivity. Qed.

End IEEE754Facts.

(** ** NumPy: indices, strides and transposition *)

Module NumpyFacts.

Import BytesFacts.

Lemma is_permutation_length axes nd : is_permutation axes nd -> length axes = nd.
Proof.
  intros H. apply Permutation_length in H.
  rewrite length_map, length_seq in H. exact H.
Qed.

Lemma is_permutation_to_nat axes nd :
  is_permutation axes nd -> Permutation (map Z.to_nat axes) (seq 0 nd).
Proof.
  intros H.
  replace (seq 0 nd) with (map Z.to_nat (map Z.of_nat (seq 0 nd))).
  - apply Permutation_map, H.
  - rewrite map_map. rewrite <- (map_id (seq 0 nd)) at 2.
    apply map_ext. intros k. apply Nat2Z.id.
Qed.

Lemma is_permutation_range axes nd :
  is_permutation axes nd -> Forall (fun x => 0 <= x < Z.of_nat nd) axes.
Proof.
  intros H. apply Forall_forall. intros x Hx.
  apply list_elem_of_In in Hx.
  apply (Permutation_in _ H) in Hx. apply in_map_iff in Hx as (k & <- & Hk).
  apply in_seq in Hk. lia.
Qed.

Lemma check_and_adjust_axis_nonneg (x : Z) (nd : nat) :
  0 <= x < Z.of_nat nd -> check_and_adjust_axis x nd = Ok (Z.to_nat x).
Proof.
  intros Hx. unfold check_and_adjust_axis.
  destruct (Z.ltb_spec x (- Z.of_nat nd)); [lia|].
  destruct (Z.leb_spec (Z.of_nat nd) x); [lia|].
  destruct (Z.ltb_spec x 0); [lia|]. reflexivity.
Qed.

(** Narrowing keeps an integer that fits a C [int], so every axis number
    within the range of an array. *)
Lemma c_int_fits (x : Z) : - 2 ^ 31 <= x < 2 ^ 31 -> c_int x = x.
Proof. intros H. unfold c_int. rewrite Z.mod_small; lia. Qed.

Lemma c_int_axis (nd : nat) (x : Z) :
  (nd <= NPY_MAXDIMS)%nat -> - Z.of_nat nd <= x < Z.of_nat nd -> c_int x = x.
Proof. unfold NPY_MAXDIMS. intros Hnd Hx. apply c_int_fits. lia. Qed.

Lemma fits_intp_axis (nd : nat) (x : Z) :
  (nd <= NPY_MAXDIMS)%nat -> - Z.of_nat nd <= x < Z.of_nat nd ->
  fits_intp x = true.
Proof.
  unfold NPY_MAXDIMS, fits_intp. intros Hnd Hx.
  apply andb_true_intro. split; [apply Z.leb_le | apply Z.ltb_lt]; lia.
Qed.

Lemma intp_converter_axes (nd : nat) (axes : list Z) :
  (nd <= NPY_MAXDIMS)%nat -> length axes = nd ->
  Forall (fun x => - Z.of_nat nd <= x < Z.of_nat nd) axes ->
  intp_converter axes = Ok axes.
Proof.
  intros Hnd Hlen Hall. unfold intp_converter.
  rewrite bool_decide_eq_false_2 by lia.
  replace (forallb fits_intp axes) with true; [reflexivity|].
  symmetry. apply forallb_forall. intros x Hx.
  rewrite Forall_forall in Hall.
  apply (fits_intp_axis nd); [exact Hnd|]. apply Hall, list_elem_of_In, Hx.
Qed.

Lemma adjust_axes_nodup (nd : nat) (axes : list Z) (seen : list nat) :
  (nd <= NPY_MAXDIMS)%nat ->
  Forall (fun x => 0 <= x < Z.of_nat nd) axes ->
  NoDup (map Z.to_nat axes) ->
  (forall k, k ∈ map Z.to_nat axes -> k ∉ seen) ->
  adjust_axes nd axes seen = Ok (map Z.to_nat axes).
Proof.
  intros Hmax. revert seen.
  induction axes as [|x axes IH]; intros seen Hr Hnd Hseen.
  - reflexivity.
  - inversion Hr as [|? ? Hx Hr']; subst.
    cbn [map] in Hnd. apply NoDup_cons in Hnd as [Hnotin Hnd'].
    cbn [adjust_axes]. rewrite (c_int_axis nd) by (exact Hmax || lia).
    rewrite check_and_adjust_axis_nonneg by exact Hx.
    cbn [Py.bind]. rewrite bool_decide_eq_false_2.
    + rewrite IH; [reflexivity | exact Hr' | exact Hnd' |].
      intros k Hk Hin. apply elem_of_cons in Hin as [->|Hin].
      * exact (Hnotin Hk).
      * apply (Hseen k); [cbn [map]; right; exact Hk | exact Hin].
    + apply Hseen. cbn [map]. left.
Qed.

(** NumPy accepts every permutation of the specification, and then permutes
    the axes as listed. *)
Lemma transpose_permutation (a : ndarray) (axes : list Z) :
  (ndim a <= NPY_MAXDIMS)%nat ->
  is_permutation axes (ndim a) ->
  transpose a axes = Ok (permute_axes a (map Z.to_nat axes)).
Proof.
  intros Hmax H. unfold transpose.
  rewrite (intp_converter_axes (ndim a));
    [| exact Hmax | apply is_permutation_length, H |].
  2:{ eapply Forall_impl; [apply is_permutation_range, H|].
      intros x Hx. cbn beta in Hx. lia. }
  cbn [Py.bind].
  rewrite bool_decide_eq_true_2 by (apply is_permutation_length, H).
  rewrite adjust_axes_nodup; [reflexivity | exact Hmax | | |].
  - apply is_permutation_range, H.
  - apply is_permutation_to_nat in H. rewrite H. apply NoDup_seq.
  - intros k _ Hk. inversion Hk.
Qed.

(** Whatever the axes, a transposition that succeeds keeps the element type
    and takes its dimensions from the input's. *)
Lemma transpose_dtype (a b : ndarray) (axes : list Z) :
  transpose a axes = Ok b -> arr_dtype b = arr_dtype a.
Proof.
  unfold transpose.
  destruct (intp_converter axes) as [axes'| |]; cbn [Py.bind];
    try discriminate.
  destruct (bool_decide _); [|discriminate].
  destruct (adjust_axes _ _ _); cbn [Py.bind]; try discriminate.
  intros [= <-]. reflexivity.
Qed.

Lemma sum_list_permutation (l1 l2 : list nat) :
  Permutation l1 l2 -> sum_list l1 = sum_list l2.
Proof.
  induction 1; cbn [sum_list sum_list_with]; lia.
Qed.

Lemma offset_nth (idx strides : list nat) :
  length idx = length strides ->
  offset idx strides
  = sum_list (map (fun p => nth p idx 0 * nth p strides 0)%nat
                  (seq 0 (length idx))).
Proof.
  unfold offset. revert strides.
  induction idx as [|i idx IH]; intros [|s strides] Hlen;
    try discriminate; [reflexivity|].
  cbn [length seq map zip_with sum_list sum_list_with nth].
  rewrite <- seq_shift, map_map. cbn [nth].
  rewrite <- IH by (simpl in Hlen; lia). reflexivity.
Qed.

Lemma offset_map_nth (idx strides perm : list nat) :
  offset (map (fun p => nth p idx 0%nat) perm)
         (map (fun p => nth p strides 0%nat) perm)
  = sum_list (map (fun p => nth p idx 0 * nth p strides 0)%nat perm).
Proof.
  unfold offset. induction perm as [|p perm IH]; [reflexivity|].
  cbn [map zip_with sum_list sum_list_with]. rewrite <- IH. reflexivity.
Qed.

(** Permuting an index tuple and the strides alike does not change the
    element addressed. *)
Lemma offset_permuted (idx strides perm : list nat) :
  length idx = length strides ->
  Permutation perm (seq 0 (length idx)) ->
  offset (map (fun p => nth p idx 0%nat) perm)
         (map (fun p => nth p strides 0%nat) perm)
  = offset idx strides.
Proof.
  intros Hlen Hperm. rewrite offset_map_nth, (offset_nth idx strides Hlen).
  apply sum_list_permutation, Permutation_map, Hperm.
Qed.

Lemma length_c_strides (dims : list nat) : length (c_strides dims) = length dims.
Proof. induction dims; simpl; congruence. Qed.

Lemma offset_lt (idx dims : list nat) :
  Forall2 lt idx dims -> (offset idx (c_strides dims) < prod dims)%nat.
Proof.
  unfold offset. induction 1 as [|i d idx dims Hi _ IH].
  - simpl. lia.
  - cbn [c_strides zip_with sum_list sum_list_with prod foldr].
    fold (prod dims). unfold sum_list, id in *.
    pose proof (Nat.mul_le_mono_r (i + 1) d (prod dims) ltac:(lia)). lia.
Qed.

Lemma unravel_offset (idx dims : list nat) :
  Forall2 lt idx dims ->
  unravel_index dims (offset idx (c_strides dims)) = idx.
Proof.
  induction 1 as [|i d idx dims Hi Hrest IH]; [reflexivity|].
  pose proof (offset_lt idx dims Hrest) as Hlt.
  assert (Hcons : offset (i :: idx) (c_strides (d :: dims))
                  = (offset idx (c_strides dims) + i * prod dims)%nat)
    by (unfold offset, sum_list; cbn [c_strides zip_with sum_list_with];
        unfold id; lia).
  rewrite Hcons. cbn [unravel_index].
  set (r := offset idx (c_strides dims)) in *. set (P := prod dims) in *.
  assert (HP : (0 < P)%nat) by lia.
  f_equal.
  - rewrite Nat.div_add by lia.
    rewrite Nat.div_small by exact Hlt. reflexivity.
  - rewrite Nat.Div0.mod_add.
    rewrite Nat.mod_small by exact Hlt. exact IH.
Qed.

Lemma Forall2_lt_permuted (idx dims perm : list nat) :
  Forall2 lt idx dims ->
  Forall (fun p => p < length idx)%nat perm ->
  Forall2 lt (map (fun p => nth p idx 0%nat) perm)
             (map (fun p => nth p dims 0%nat) perm).
Proof.
  intros H Hperm. induction Hperm as [|p perm Hp _ IH]; cbn [map].
  - constructor.
  - constructor; [|exact IH].
    pose proof (Forall2_length _ _ _ H) as Hlen.
    destruct (lookup_lt_is_Some_2 idx p Hp) as [i Hi].
    destruct (lookup_lt_is_Some_2 dims p ltac:(lia)) as [d Hd].
    rewrite (nth_lookup_Some _ _ _ _ Hi), (nth_lookup_Some _ _ _ _ Hd).
    exact (Forall2_lookup_lr _ _ _ _ _ _ H Hi Hd).
Qed.

(** Reordering the axes moves the element at index [idx] of [a] to the
    index whose [k]-th component is component [perm[k]] of [idx]. *)
Lemma permute_axes_getitem (a : ndarray) (perm idx : list nat) :
  Permutation perm (seq 0 (ndim a)) ->
  length (arr_items a) = prod (arr_shape a) ->
  Forall2 lt idx (arr_shape a) ->
  getitem (permute_axes a perm) (map (fun p => nth p idx 0%nat) perm)
  = getitem a idx.
Proof.
  intros Hperm Hwf Hidx.
  pose proof (Forall2_length _ _ _ Hidx) as Hlen. unfold ndim in Hperm.
  assert (Hin : Forall (fun p => p < length idx)%nat perm).
  { apply Forall_forall. intros p Hp. apply list_elem_of_In in Hp.
    apply (Permutation_in _ Hperm), in_seq in Hp. lia. }
  pose proof (Forall2_lt_permuted idx (arr_shape a) perm Hidx Hin) as Hidx'.
  unfold getitem. cbn [permute_axes arr_shape arr_items].
  rewrite !bool_decide_eq_true_2 by assumption.
  set (dims' := map (fun p => nth p (arr_shape a) 0%nat) perm) in *.
  set (idx' := map (fun p => nth p idx 0%nat) perm) in *.
  pose proof (offset_lt idx' dims' Hidx') as Hlt.
  rewrite list_lookup_fmap, lookup_seq_lt by exact Hlt.
  cbn [fmap option_fmap option_map Nat.add].
  rewrite unravel_offset by exact Hidx'.
  unfold idx'. rewrite offset_permuted.
  - pose proof (offset_lt idx (arr_shape a) Hidx) as Hlt0.
    rewrite <- Hwf in Hlt0.
    destruct (lookup_lt_is_Some_2 _ _ Hlt0) as [x Hx].
    rewrite Hx. f_equal. apply nth_lookup_Some with (d := 0). exact Hx.
  - rewrite length_c_strides. exact Hlen.
  - rewrite Hlen. exact Hperm.
Qed.

(** [np.transpose] on the 2x3 array [[1,2,3],[4,5,6]] (as [int32]): axes
    [1, 0] and [-1, 0] both give [[1,4],[2,5],[3,6]]; a repeated or
    out-of-range axis is refused. *)
Example transpose_samples :
  let a := {| arr_dtype := int32; arr_shape := [2; 3]%nat;
              arr_items := [1; 2; 3; 4; 5; 6] |} in
  let t := {| arr_dtype := int32; arr_shape := [3; 2]%nat;
              arr_items := [1; 4; 2; 5; 3; 6] |} in
  transpose a [1; 0] = Ok t
  /\ transpose a [-1; 0] = Ok t
  /\ T a = t
  /\ transpose a [0; 0] = Raise (ValueError "repeated axis in transpose")
  /\ transpose a [0; 2] = Raise (AxisError 2 2)
  /\ transpose a [0] = Raise (ValueError "axes don't match array").
Proof. repeat split; reflexivity. Qed.

(** An axis number is narrowed to a C [int] before it is checked: 2^32 + 1
    stands for 1, and 2^31 for -2^31; an axis number that is no [npy_intp]
    is refused before any other is looked at. *)
Example transpose_narrows :
  let a := {| arr_dtype := int32; arr_shape := [2; 3]%nat;
              arr_items := [1; 2; 3; 4; 5; 6] |} in
  transpose a [4294967297; 0] = transpose a [1; 0]
  /\ transpose a [0; 2147483648] = Raise (AxisError (-2147483648) 2)
  /\ transpose a [5; 2 ^ 70]
     = Raise (ValueError "Maximum allowed dimension exceeded").
Proof. repeat split; reflexivity. Qed.

End NumpyFacts.

(** ** The byte shuffle *)

Module ShuffleFacts.

Import BytesFacts.

Lemma length_grid_transpose rows cols b :
  length (grid_transpose rows cols b) = (cols * rows)%nat.
Proof. unfold grid_transpose. rewrite length_map, length_seq. reflexivity. Qed.

Lemma grid_transpose_lookup (rows cols : nat) (b : list byte) (r c : nat) :
  length b = (rows * cols)%nat -> (r < rows)%nat -> (c < cols)%nat ->
  grid_transpose rows cols b !! (c * rows + r)%nat = b !! (r * cols + c)%nat.
Proof.
  intros Hlen Hr Hc. unfold grid_transpose.
  assert (Hlt : (c * rows + r < cols * rows)%nat).
  { pose proof (Nat.mul_le_mono_r (c + 1) cols rows ltac:(lia)). lia. }
  rewrite list_lookup_fmap, lookup_seq_lt by exact Hlt.
  cbn [fmap option_fmap option_map Nat.add].
  replace ((c * rows + r) mod rows)%nat with r
    by (rewrite (Nat.add_comm (c * rows)), Nat.Div0.mod_add;
        symmetry; apply Nat.mod_small, Hr).
  replace ((c * rows + r) / rows)%nat with c
    by (rewrite (Nat.add_comm (c * rows)), Nat.div_add by lia;
        rewrite Nat.div_small by exact Hr; reflexivity).
  assert (Hin : (r * cols + c < length b)%nat).
  { pose proof (Nat.mul_le_mono_r (r + 1) rows cols ltac:(lia)). lia. }
  destruct (lookup_lt_is_Some_2 _ _ Hin) as [x Hx].
  rewrite Hx. f_equal. apply nth_lookup_Some with (d := "000"%byte). exact Hx.
Qed.

(** Transposing back restores the buffer. *)
Lemma grid_transpose_involutive (rows cols : nat) (b : list byte) :
  length b = (rows * cols)%nat ->
  grid_transpose cols rows (grid_transpose rows cols b) = b.
Proof.
  intros Hlen. apply list_eq. intros i.
  destruct (Nat.lt_ge_cases i (rows * cols)) as [Hi|Hi].
  - assert (Hc : (0 < cols)%nat) by (destruct cols; lia).
    pose proof (Nat.Div0.div_lt_upper_bound i cols rows ltac:(lia)) as Hq.
    pose proof (Nat.mod_upper_bound i cols ltac:(lia)) as Hm.
    pose proof (Nat.div_mod_eq i cols) as Hdm.
    replace i with ((i / cols) * cols + i mod cols)%nat at 2 by lia.
    rewrite <- (grid_transpose_lookup rows cols b (i / cols) (i mod cols))
      by assumption.
    unfold grid_transpose at 1.
    rewrite list_lookup_fmap, lookup_seq_lt by exact Hi.
    cbn [fmap option_fmap option_map Nat.add].
    set (k := ((i mod cols) * rows + i / cols)%nat).
    assert (Hk : (k < length (grid_transpose rows cols b))%nat).
    { rewrite length_grid_transpose. unfold k.
      pose proof (Nat.mul_le_mono_r (i mod cols + 1) cols rows ltac:(lia)).
      lia. }
    destruct (lookup_lt_is_Some_2 _ _ Hk) as [x Hx].
    rewrite Hx. f_equal. apply nth_lookup_Some with (d := "000"%byte). exact Hx.
  - rewrite !lookup_ge_None_2; [reflexivity | lia |].
    rewrite length_grid_transpose. lia.
Qed.

Lemma chunks_one (b : list byte) :
  chunks (length b) 1 b = map (fun x => [x]) b.
Proof.
  induction b as [|x b IH]; [reflexivity|].
  cbn [length chunks map].
  change (take 1 (x :: b)) with [x]. change (drop 1 (x :: b)) with b.
  rewrite IH. reflexivity.
Qed.

(** [np.frombuffer(buf, dtype=np.byte)] has one element per byte. *)
Lemma frombuffer_bytes (order : byteorder) (b : list byte) :
  frombuffer order b int8
  = Ok {| arr_dtype := int8; arr_shape := [length b];
          arr_items := map Z_of_byte b |}.
Proof.
  unfold frombuffer. cbn [itemsize].
  rewrite Nat.mod_1_r, Nat.div_1_r. cbn [Nat.eqb].
  rewrite chunks_one, map_map. f_equal. f_equal.
  apply map_ext. intros x. destruct order; cbn; lia.
Qed.

Lemma tobytes_bytes (order : byteorder) (shp : list nat) (items : list Z) :
  tobytes order {| arr_dtype := int8; arr_shape := shp; arr_items := items |}
  = map byte_of_Z items.
Proof.
  unfold tobytes. cbn [arr_dtype arr_items itemsize].
  induction items as [|x items IH]; [reflexivity|].
  cbn [flat_map map]. rewrite IH. destruct order; reflexivity.
Qed.

(** The elements of the transpose of a two-dimensional array. *)
Lemma T_grid_items (d : dtype) (rows cols : nat) (items : list Z) :
  arr_items (T {| arr_dtype := d; arr_shape := [rows; cols];
                  arr_items := items |})
  = map (fun f => nth ((f mod rows) * cols + f / rows)%nat items 0)
        (seq 0 (cols * rows)).
Proof.
  unfold T, permute_axes, ndim.
  cbn [arr_shape arr_items arr_dtype length seq rev app map nth c_strides
       prod foldr].
  rewrite !Nat.mul_1_r. apply map_ext. intros f.
  unfold offset, sum_list.
  cbn [unravel_index prod foldr zip_with sum_list_with]. unfold id.
  rewrite !Nat.mul_1_r, Nat.div_1_r. f_equal. lia.
Qed.

Lemma transposed_bytes (order : byteorder) (rows cols : nat) (b : list byte) :
  tobytes order
    (flatten (T {| arr_dtype := int8; arr_shape := [rows; cols];
                   arr_items := map Z_of_byte b |}))
  = grid_transpose rows cols b.
Proof.
  unfold flatten. rewrite T_grid_items.
  cbn [arr_dtype T permute_axes]. rewrite tobytes_bytes, map_map.
  apply map_ext. intros f.
  change 0 with (Z_of_byte "000"%byte). rewrite map_nth.
  apply byte_of_Z_of_byte.
Qed.

(** The shuffle of [tensor_to_json] on a buffer of [rows] elements of
    [cols] bytes. *)
Lemma byte_shuffle_spec (order : byteorder) (rows cols : nat) (b : list byte) :
  (0 < cols)%nat -> length b = (rows * cols)%nat ->
  byte_shuffle order (Z.of_nat cols) b = Ok (grid_transpose rows cols b).
Proof.
  intros Hc Hlen. unfold byte_shuffle. rewrite frombuffer_bytes.
  cbn [Py.bind]. unfold reshape_rows. cbn [arr_items arr_dtype].
  rewrite length_map, Hlen, Nat2Z.inj_mul, Z_mod_mult, Nat2Z.id.
  destruct (Z.leb_spec (Z.of_nat cols) 0); [lia|].
  cbn [orb negb Z.eqb Py.bind]. rewrite Nat.div_mul by lia.
  f_equal. apply transposed_bytes.
Qed.

(** The inverse shuffle on a buffer of [cols] planes of [rows] bytes. *)
Lemma byte_unshuffle_spec (order : byteorder) (rows cols : nat) (b : list byte) :
  (0 < cols)%nat -> length b = (cols * rows)%nat ->
  byte_unshuffle order (Z.of_nat cols) b = Ok (grid_transpose cols rows b).
Proof.
  intros Hc Hlen. unfold byte_unshuffle. rewrite frombuffer_bytes.
  cbn [Py.bind]. unfold reshape_cols. cbn [arr_items arr_dtype].
  rewrite length_map, Hlen, Nat2Z.inj_mul, Z.mul_comm, Z_mod_mult, Nat2Z.id.
  destruct (Z.leb_spec (Z.of_nat cols) 0); [lia|].
  cbn [orb negb Z.eqb Py.bind].
  rewrite Nat.mul_comm, Nat.div_mul by lia.
  f_equal. apply transposed_bytes.
Qed.

Lemma unshuffle_shuffle (order : byteorder) (rows cols : nat) (b out : list byte) :
  (0 < cols)%nat -> length b = (rows * cols)%nat ->
  byte_shuffle order (Z.of_nat cols) b = Ok out ->
  byte_unshuffle order (Z.of_nat cols) out = Ok b.
Proof.
  intros Hc Hlen. rewrite (byte_shuffle_spec order rows cols b Hc Hlen).
  intros [= <-].
  rewrite (byte_unshuffle_spec order rows cols)
    by (rewrite ?length_grid_transpose; lia).
  f_equal. apply grid_transpose_involutive, Hlen.
Qed.

End ShuffleFacts.

(** ** The encoder *)

Module TensorVisualizerFacts.

Import BytesFacts Base64Facts IEEE754Facts NumpyFacts ShuffleFacts.

(** The table, entry by entry. *)
Lemma dtype_mapping_lookup (d : dtype) :
  dtype_mapping !! d
  = match d with
    | float16 | float32 | float64 | int8 | uint8 | int16 | int32 | int64 =>
        Some (wire_dtype d, dtype_name (wire_dtype d), "zlib", wire_stride d)
    | _ => None
    end.
Proof. destruct d; vm_compute; reflexivity. Qed.

Lemma dtype_mapping_entry (d : dtype) e :
  dtype_mapping !! d = Some e ->
  e = (wire_dtype d, dtype_name (wire_dtype d), "zlib", wire_stride d).
Proof.
  rewrite dtype_mapping_lookup. destruct d; congruence.
Qed.

Lemma wire_dtype_name (d : dtype) :
  is_Some (dtype_mapping !! d) ->
  dtype_of_name (dtype_name (wire_dtype d)) = Some (wire_dtype d).
Proof.
  rewrite dtype_mapping_lookup.
  destruct d; intros [e He]; try discriminate; reflexivity.
Qed.

Lemma wire_stride_itemsize (d : dtype) (s : Z) :
  wire_stride d = Some s -> s = Z.of_nat (itemsize (wire_dtype d)).
Proof. destruct d; cbn; congruence. Qed.

Lemma wire_stride_none (d : dtype) :
  wire_stride d = None -> itemsize (wire_dtype d) = 1%nat.
Proof. destruct d; cbn; congruence. Qed.

Lemma itemsize_pos (d : dtype) : (0 < itemsize d)%nat.
Proof. destruct d; cbn; lia. Qed.

(** [astype] towards the table's transmission type is within the model for
    every source type. *)
Lemma astype_table_defined (a : ndarray) :
  astype a (wire_dtype (arr_dtype a)) = Ok (wire_array a).
Proof.
  destruct a as [d shp items]. unfold astype, wire_array.
  cbn [arr_dtype arr_shape arr_items].
  destruct d; unfold wire_dtype, cast_elem;
    ((rewrite bool_decide_eq_true_2 by reflexivity)
     || (rewrite bool_decide_eq_false_2 by discriminate));
    rewrite ?map_id; reflexivity.
Qed.

Lemma wire_array_same (a : ndarray) :
  arr_dtype a <> float16 -> wire_array a = a.
Proof.
  destruct a as [[] shp items]; intros H; try reflexivity.
  exfalso. apply H. reflexivity.
Qed.

Lemma length_wire_items (a : ndarray) :
  length (arr_items (wire_array a)) = length (arr_items a).
Proof.
  unfold wire_array. cbn. destruct (arr_dtype a); rewrite ?length_map; reflexivity.
Qed.

Lemma length_raw_bytes (order : byteorder) (a : ndarray) :
  length (tobytes order (flatten (wire_array a)))
  = (length (arr_items a) * itemsize (wire_dtype (arr_dtype a)))%nat.
Proof.
  unfold tobytes, flatten. cbn [arr_dtype arr_items].
  rewrite length_flat_map_bytes, length_wire_items. reflexivity.
Qed.

Section Encoder.

Variable native : byteorder.
Variable zlib_compress : Z -> list byte -> list byte.

(** The envelope of an array of a supported type, field by field. *)
Lemma encode_spec (a : ndarray) :
  is_Some (dtype_mapping !! arr_dtype a) ->
  encode native zlib_compress a
  = Ok {| shape := map Z.of_nat (arr_shape a);
          compression := "zlib";
          shuffle := wire_stride (arr_dtype a);
          dtype_ := dtype_name (wire_dtype (arr_dtype a));
          data := string_of_list_byte
                    (Base64.b64encode
                       (zlib_compress Z_BEST_SPEED (wire_bytes native a))) |}.
Proof.
  intros [e He]. pose proof (dtype_mapping_entry _ _ He) as ->.
  unfold encode. rewrite He, astype_table_defined. cbn [Py.bind].
  unfold wire_bytes.
  destruct (wire_stride (arr_dtype a)) as [s|] eqn:Hs.
  - apply wire_stride_itemsize in Hs as ->.
    rewrite (byte_shuffle_spec native (length (arr_items a)))
      by (apply itemsize_pos || apply length_raw_bytes).
    cbn [Py.bind]. rewrite bool_decide_eq_true_2 by reflexivity.
    rewrite decode_ascii_b64encode. reflexivity.
  - cbn [Py.bind]. rewrite bool_decide_eq_true_2 by reflexivity.
    rewrite decode_ascii_b64encode. reflexivity.
Qed.

Lemma encode_unsupported (a : ndarray) :
  dtype_mapping !! arr_dtype a = None ->
  encode native zlib_compress a
  = Raise (ValueError ("unsupported dtype " +:+ dtype_name (arr_dtype a))).
Proof. intros H. unfold encode. rewrite H. reflexivity. Qed.

Lemma tensor_to_json_unfold modules input permute :
  input <> PyNone ->
  tensor_to_json native zlib_compress modules input permute
  = (let! a := normalize modules input permute in
     let! env := encode native zlib_compress a in
     Ok (Some env)).
Proof. destruct input; intros H; [congruence | reflexivity ..]. Qed.

Variable zlib_decompress : list byte -> option (list byte).
Hypothesis zlib_inflate_deflate :
  forall b, zlib_decompress (zlib_compress Z_BEST_SPEED b) = Some b.

Lemma wire_items_range (a : ndarray) :
  wf_ndarray a ->
  Forall (fun x => 0 <= x < 2 ^ (8 * Z.of_nat (itemsize (wire_dtype (arr_dtype a)))))
         (arr_items (wire_array a)).
Proof.
  intros [_ Hr]. destruct a as [d shp items]. cbn [arr_dtype arr_items] in *.
  unfold wire_array. cbn [arr_dtype arr_items].
  destruct d; try exact Hr.
  apply Forall_map. eapply Forall_impl; [exact Hr|].
  intros x Hx. cbn beta. apply half_to_float_bits_exact. exact Hx.
Qed.

Lemma elems_of_bytes_roundtrip (n : nat) (xs : list Z) :
  Forall (fun x => 0 <= x < 2 ^ (8 * Z.of_nat n)) xs ->
  map (elem_of_bytes native) (map (elem_to_bytes native n) xs) = xs.
Proof.
  induction 1 as [|x xs Hx _ IH]; [reflexivity|].
  cbn [map]. rewrite IH, elem_of_to_bytes by exact Hx. reflexivity.
Qed.

(** Decoding the envelope of a well-formed array of a supported type gives
    the array, as cast for transmission. *)
Lemma decode_encode (a : ndarray) env :
  wf_ndarray a ->
  is_Some (dtype_mapping !! arr_dtype a) ->
  encode native zlib_compress a = Ok env ->
  decode native zlib_decompress env = Some (wire_array a).
Proof.
  intros Hwf Hsup. rewrite (encode_spec a Hsup). intros [= <-].
  unfold decode. cbn [data compression shuffle dtype_ shape].
  rewrite b64_text_roundtrip. cbn [mbind option_bind].
  rewrite bool_decide_eq_true_2 by reflexivity.
  rewrite zlib_inflate_deflate. cbn [mbind option_bind].
  pose proof (length_raw_bytes native a) as Hlen.
  assert (Hbuf :
    match wire_stride (arr_dtype a) with
    | Some stride => to_option (byte_unshuffle native stride (wire_bytes native a))
    | None => Some (wire_bytes native a)
    end = Some (tobytes native (flatten (wire_array a)))).
  { unfold wire_bytes.
    destruct (wire_stride (arr_dtype a)) as [s|] eqn:Hs; [|reflexivity].
    apply wire_stride_itemsize in Hs as ->.
    rewrite (byte_unshuffle_spec native (length (arr_items a)))
      by (apply itemsize_pos || (rewrite length_grid_transpose; lia)).
    cbn [to_option]. f_equal. apply grid_transpose_involutive, Hlen. }
  rewrite Hbuf. cbn [mbind option_bind].
  rewrite (wire_dtype_name _ Hsup). cbn [mbind option_bind].
  unfold frombuffer. rewrite Hlen, Nat.Div0.mod_mul, Nat.div_mul
    by (pose proof (itemsize_pos (wire_dtype (arr_dtype a))); lia).
  cbn [Nat.eqb to_option mbind option_bind].
  unfold tobytes, flatten. cbn [arr_dtype arr_items].
  rewrite <- (length_wire_items a), chunks_flat_map.
  rewrite elems_of_bytes_roundtrip by (apply wire_items_range, Hwf).
  unfold reshape. cbn [arr_items arr_dtype].
  rewrite map_map. erewrite map_ext by (intros; apply Nat2Z.id).
  rewrite map_id, length_wire_items.
  rewrite bool_decide_eq_true_2 by (symmetry; apply Hwf).
  reflexivity.
Qed.

End Encoder.

End TensorVisualizerFacts.

(** ** The normalizer *)

Module NormalizerFacts.

Import NumpyFacts.

(** What [tensor_to_numpy] makes of each kind of value. *)
Lemma tensor_to_numpy_spec modules tensor :
  tensor_to_numpy modules tensor
  = if recognized modules tensor then
      match tensor with
      | NdArray a | TorchTensor a | MlxArray a | TfTensor a =>
          if bool_decide (ndim a <= NPY_MAXDIMS)%nat then Ok a
          else OutOfModel "ndim"
      | LibraryTensor _ (Raises e) => Raise e
      | _ => Raise (ValueError "expect input to be numpy array or torch tensor")
      end
    else Raise (ValueError "expect input to be numpy array or torch tensor").
Proof.
  unfold tensor_to_numpy, recognized.
  destruct tensor as [| | | | | |lib r]; try destruct lib; try destruct r;
    cbn [module_name convert];
    repeat (destruct (bool_decide (_ ∈ modules)); cbn [Py.bind convert]);
    reflexivity.
Qed.

Lemma tensor_to_numpy_payload modules tensor (a : ndarray) :
  recognized modules tensor = true ->
  payload tensor = Some a ->
  tensor_to_numpy modules tensor
  = if bool_decide (ndim a <= NPY_MAXDIMS)%nat then Ok a
    else OutOfModel "ndim".
Proof.
  intros Hr Hp. rewrite tensor_to_numpy_spec, Hr.
  destruct tensor; try discriminate; injection Hp as ->; reflexivity.
Qed.

Lemma tensor_to_numpy_recognized modules tensor (a : ndarray) :
  recognized modules tensor = true ->
  payload tensor = Some a ->
  (ndim a <= NPY_MAXDIMS)%nat ->
  tensor_to_numpy modules tensor = Ok a.
Proof.
  intros Hr Hp Hmax. rewrite (tensor_to_numpy_payload _ _ _ Hr Hp).
  rewrite bool_decide_eq_true_2 by exact Hmax. reflexivity.
Qed.

Lemma tensor_to_numpy_unrecognized modules tensor :
  recognized modules tensor = false ->
  tensor_to_numpy modules tensor
  = Raise (ValueError "expect input to be numpy array or torch tensor").
Proof.
  intros Hr. rewrite tensor_to_numpy_spec, Hr. reflexivity.
Qed.

(** A value [tensor_to_numpy] returns is an array: it has at most
    [NPY_MAXDIMS] dimensions. *)
Lemma tensor_to_numpy_ndim modules tensor (a : ndarray) :
  tensor_to_numpy modules tensor = Ok a -> (ndim a <= NPY_MAXDIMS)%nat.
Proof.
  rewrite tensor_to_numpy_spec.
  destruct (recognized modules tensor); [|discriminate].
  destruct tensor as [|b|b|b|b| |lib [repr|e]]; try discriminate;
    (destruct (bool_decide (ndim b <= NPY_MAXDIMS)%nat) eqn:Hb;
     [|discriminate]);
    intros [= <-]; apply bool_decide_eq_true_1 in Hb; exact Hb.
Qed.

(** Whether a value is recognised, and the array it stands for, are read
    off what [tensor_to_numpy] returns. *)
Lemma tensor_to_numpy_ok_iff modules tensor (a : ndarray) :
  tensor_to_numpy modules tensor = Ok a
  <-> recognized modules tensor = true /\ payload tensor = Some a
      /\ (ndim a <= NPY_MAXDIMS)%nat.
Proof.
  split.
  - intros H. pose proof (tensor_to_numpy_ndim _ _ _ H) as Hmax.
    rewrite tensor_to_numpy_spec in H.
    destruct (recognized modules tensor); [|discriminate].
    split; [reflexivity|]. split; [|exact Hmax].
    destruct tensor as [|b|b|b|b| |lib [repr|e]]; try discriminate;
      (destruct (bool_decide (ndim b <= NPY_MAXDIMS)%nat); [|discriminate]);
      injection H as <-; reflexivity.
  - intros (Hr & Hp & Hmax). apply tensor_to_numpy_recognized; assumption.
Qed.

Lemma normalize_valid modules input permute (a : ndarray) :
  tensor_to_numpy modules input = Ok a ->
  valid_permute permute (ndim a) ->
  normalize modules input permute = Ok (permuted a permute).
Proof.
  intros Ha Hp. unfold normalize. rewrite Ha. cbn [Py.bind].
  destruct permute as [p|]; [|reflexivity].
  cbn [valid_permute permuted] in *.
  rewrite bool_decide_eq_false_2
    by (intros Hne; apply Hne, is_permutation_length, Hp).
  apply transpose_permutation; [exact (tensor_to_numpy_ndim _ _ _ Ha) | exact Hp].
Qed.

Lemma normalize_mismatch modules input (p : list Z) (a : ndarray) :
  tensor_to_numpy modules input = Ok a ->
  length p <> ndim a ->
  normalize modules input (Some p)
  = Raise (ValueError "permute must be the same length as the tensor's shape").
Proof.
  intros Ha Hp. unfold normalize. rewrite Ha. cbn [Py.bind].
  rewrite bool_decide_eq_true_2 by exact Hp. reflexivity.
Qed.

Lemma permuted_dtype (a : ndarray) permute :
  arr_dtype (permuted a permute) = arr_dtype a.
Proof. destruct permute; reflexivity. Qed.

Lemma permuted_shape (a : ndarray) permute :
  arr_shape (permuted a permute)
  = match permute with
    | None => arr_shape a
    | Some p => map (fun i => nth (Z.to_nat i) (arr_shape a) 0%nat) p
    end.
Proof.
  destruct permute as [p|]; [|reflexivity].
  cbn [permuted permute_axes arr_shape]. apply map_map.
Qed.

(** Normalisation only ever changes the order of the elements. *)
Lemma normalize_dtype modules input permute (a b : ndarray) :
  tensor_to_numpy modules input = Ok a ->
  normalize modules input permute = Ok b ->
  arr_dtype b = arr_dtype a.
Proof.
  intros Ha. unfold normalize. rewrite Ha. cbn [Py.bind].
  destruct permute as [p|]; [|intros [= <-]; reflexivity].
  destruct (bool_decide _); [discriminate|]. apply transpose_dtype.
Qed.

Lemma normalize_not_none modules permute (a : ndarray) :
  normalize modules PyNone permute <> Ok a.
Proof.
  unfold normalize.
  rewrite (tensor_to_numpy_unrecognized modules PyNone eq_refl).
  discriminate.
Qed.

(** [apply_permute] indexes the metadata as Python does: an index past the
    end gives [None], a negative index counts from the end, and an index
    below minus the length raises. *)
Example apply_permute_samples :
  apply_permute (Some ["x"; "y"]) [2; 0; 1]
  = Ok (Some [None; Some "x"; Some "y"])
  /\ apply_permute (Some ["x"; "y"]) [-1; -2]
     = Ok (Some [Some "y"; Some "x"])
  /\ apply_permute (Some ["x"; "y"]) [-3; 0]
     = Raise (IndexError "list index out of range")
  /\ apply_permute (None : option (list string)) [1; 0] = Ok None.
Proof. repeat split; reflexivity. Qed.

End NormalizerFacts.

(** ** The stored-block codec inflates what it deflates *)

Module StoredZlibFacts.

Import BytesFacts StoredZlib.

Lemma inflate_stored_block (fuel : nat) (final : bool) (chunk tail : list byte) :
  (length chunk <= block_limit)%nat ->
  inflate_stored (S fuel) (stored_block final chunk ++ tail)
  = if final then Some (chunk, tail)
    else match inflate_stored fuel tail with
         | Some (more, rest) => Some (chunk ++ more, rest)
         | None => None
         end.
Proof.
  intros Hlen. unfold block_limit in Hlen.
  assert (Hl : 0 <= Z.of_nat (length chunk) <= 65535) by lia.
  unfold stored_block.
  cbn [le_bytes app inflate_stored].
  set (len := Z.of_nat (length chunk)) in *.
  assert (H1 : of_le_bytes [byte_of_Z len; byte_of_Z (len / 256)] = len).
  { change [byte_of_Z len; byte_of_Z (len / 256)] with (le_bytes 2 len).
    rewrite of_le_bytes_le_bytes. apply Z.mod_small.
    change (2 ^ (8 * Z.of_nat 2)) with 65536. lia. }
  assert (H2 : of_le_bytes [byte_of_Z (65535 - len);
                            byte_of_Z ((65535 - len) / 256)] = 65535 - len).
  { change [byte_of_Z (65535 - len); byte_of_Z ((65535 - len) / 256)]
      with (le_bytes 2 (65535 - len)).
    rewrite of_le_bytes_le_bytes. apply Z.mod_small.
    change (2 ^ (8 * Z.of_nat 2)) with 65536. lia. }
  rewrite H1, H2.
  replace (len + (65535 - len) =? 65535) with true by (symmetry; lia).
  rewrite length_app.
  replace (len <=? Z.of_nat (length chunk + length tail)) with true
    by (symmetry; apply Z.leb_le; lia).
  unfold len. rewrite Nat2Z.id, take_app_length, drop_app_length.
  destruct final; reflexivity.
Qed.

Lemma inflate_deflate_stored (fuel dfuel : nat) (bs tail : list byte) :
  (length bs <= fuel)%nat -> (length bs < dfuel)%nat ->
  inflate_stored dfuel (deflate_stored fuel bs ++ tail) = Some (bs, tail).
Proof.
  revert dfuel bs. induction fuel as [|fuel IH]; intros dfuel bs Hf Hd.
  - destruct dfuel as [|dfuel]; [lia|]. cbn [deflate_stored].
    rewrite inflate_stored_block by lia. reflexivity.
  - destruct dfuel as [|dfuel]; [lia|]. cbn [deflate_stored].
    destruct (Nat.leb_spec (length bs) block_limit) as [Hle|Hgt].
    + rewrite inflate_stored_block by exact Hle. reflexivity.
    + assert (Hpos : (0 < block_limit)%nat) by (unfold block_limit; lia).
      rewrite <- app_assoc, inflate_stored_block
        by (rewrite length_take; lia).
      rewrite IH by (rewrite length_drop; lia).
      rewrite take_drop. reflexivity.
Qed.

Lemma length_deflate_stored (fuel : nat) (bs : list byte) :
  (length bs < length (deflate_stored fuel bs))%nat.
Proof.
  revert bs. induction fuel as [|fuel IH]; intros bs; cbn [deflate_stored].
  - unfold stored_block. cbn [length]. rewrite !length_app. lia.
  - destruct (Nat.leb_spec (length bs) block_limit) as [Hle|Hgt].
    + unfold stored_block. cbn [length]. rewrite !length_app. lia.
    + rewrite length_app. pose proof (IH (drop block_limit bs)) as H.
      rewrite length_drop in H.
      unfold stored_block. cbn [length]. rewrite !length_app, length_take.
      lia.
Qed.

(** The contract of the compressor parameter holds of this codec, at every
    level. *)
Lemma decompress_compress (level : Z) (bs : list byte) :
  decompress (compress level bs) = Some bs.
Proof.
  unfold compress, decompress.
  rewrite !Z_of_byte_of_Z.
  change ((0x78 mod 256 =? 0x78)
          && ((0x78 mod 256 * 256 + 0x01 mod 256) mod 31 =? 0)) with true.
  cbn match.
  rewrite inflate_deflate_stored.
  - unfold be32. rewrite length_rev, length_le_bytes, rev_involutive.
    rewrite of_le_bytes_le_bytes. change (8 * Z.of_nat 4) with 32.
    rewrite Z.eqb_refl. reflexivity.
  - lia.
  - rewrite length_app. pose proof (length_deflate_stored (length bs) bs). lia.
Qed.

(** The stream for "abc" is the one zlib itself emits at level 0. *)
Example compress_abc :
  map Z_of_byte (compress 0 (list_byte_of_string "abc"))
  = [0x78; 0x01; 0x01; 0x03; 0x00; 0xfc; 0xff; 0x61; 0x62; 0x63;
     0x02; 0x4d; 0x01; 0x27].
Proof. reflexivity. Qed.

End StoredZlibFacts.

(** * The properties of the specification *)

Import BytesFacts Base64Facts IEEE754Facts NumpyFacts ShuffleFacts
       TensorVisualizerFacts NormalizerFacts.

Section Claims.

Variable native : byteorder.
Variable zlib_compress : Z -> list byte -> list byte.
Variable zlib_decompress : list byte -> option (list byte).
Hypothesis zlib_inflate_deflate :
  forall b, zlib_decompress (zlib_compress Z_BEST_SPEED b) = Some b.

Lemma tensor_to_json_normalized modules input permute (a : ndarray) :
  normalize modules input permute = Ok a ->
  is_Some (dtype_mapping !! arr_dtype a) ->
  exists env,
    tensor_to_json native zlib_compress modules input permute = Ok (Some env)
    /\ encode native zlib_compress a = Ok env.
Proof.
  intros Hn Hsup. eexists. split; [|apply encode_spec, Hsup].
  rewrite tensor_to_json_unfold
    by (intros ->; exact (normalize_not_none _ _ _ Hn)).
  rewrite Hn. cbn [Py.bind]. rewrite (encode_spec _ _ _ Hsup). reflexivity.
Qed.

(** C1. Whenever normalisation yields a well-formed array [a] of a
    supported element type, [tensor_to_json] returns an envelope, and
    decoding it (base64, inflate, un-shuffle, reinterpret, reshape) gives
    an array of the same shape with the same elements: the array itself
    for every type but [float16], and for [float16] the [float32] array
    whose elements denote exactly the values of the originals.  For the
    2x3 [float32] array [[1,2,3],[4,5,6]] without permutation the envelope
    has shape [2,3], dtype "float32", compression "zlib", shuffle 4, and
    its data decodes to the values 1 .. 6 in row-major order. *)
Theorem decode_recovers_values :
  (forall modules input permute (a : ndarray),
      normalize modules input permute = Ok a ->
      wf_ndarray a ->
      is_Some (dtype_mapping !! arr_dtype a) ->
      exists env out,
        tensor_to_json native zlib_compress modules input permute
        = Ok (Some env)
        /\ decode native zlib_decompress env = Some out
        /\ arr_shape out = arr_shape a
        /\ (arr_dtype a <> float16 -> out = a)
        /\ (arr_dtype a = float16 ->
            arr_dtype out = float32 /\
            map IEEE754.float32_value (arr_items out)
            = map IEEE754.float16_value (arr_items a)))
  /\ (forall modules,
        exists env out,
          tensor_to_json native zlib_compress modules (NdArray example_2x3) None
          = Ok (Some env)
          /\ shape env = [2; 3]
          /\ dtype_ env = "float32"
          /\ compression env = "zlib"
          /\ shuffle env = Some 4
          /\ decode native zlib_decompress env = Some out
          /\ arr_dtype out = float32
          /\ arr_shape out = [2; 3]%nat
          /\ map IEEE754.float32_value (arr_items out)
             = map (IEEE754.Fin false) [1; 2; 3; 4; 5; 6]%Q).
Proof.
  assert (General : forall modules input permute (a : ndarray),
      normalize modules input permute = Ok a ->
      wf_ndarray a ->
      is_Some (dtype_mapping !! arr_dtype a) ->
      exists env,
        tensor_to_json native zlib_compress modules input permute
        = Ok (Some env)
        /\ encode native zlib_compress a = Ok env
        /\ decode native zlib_decompress env = Some (wire_array a)).
  { intros modules input permute a Hn Hwf Hsup.
    destruct (tensor_to_json_normalized modules input permute a Hn Hsup)
      as (env & Hjson & Henc).
    exists env. repeat split; try assumption.
    eapply decode_encode; eassumption. }
  split.
  - intros modules input permute a Hn Hwf Hsup.
    destruct (General modules input permute a Hn Hwf Hsup)
      as (env & Hjson & _ & Hdec).
    exists env, (wire_array a). repeat split; try assumption.
    + apply wire_array_same.
    + unfold wire_array. cbn [arr_dtype]. rewrite H. reflexivity.
    + unfold wire_array. cbn [arr_items]. rewrite H, map_map.
      destruct Hwf as [_ Hr]. rewrite H in Hr.
      apply map_ext_Forall. eapply Forall_impl; [exact Hr|].
      intros h Hh. apply half_to_float_bits_exact. exact Hh.
  - intros modules.
    destruct (General modules (NdArray example_2x3) None example_2x3)
      as (env & Hjson & Henc & Hdec).
    + unfold normalize, tensor_to_numpy.
      repeat destruct (bool_decide _); reflexivity.
    + split; [reflexivity|]. cbn. repeat constructor; lia.
    + rewrite dtype_mapping_lookup. eexists. reflexivity.
    + exists env, example_2x3.
      rewrite encode_spec in Henc
        by (rewrite dtype_mapping_lookup; eexists; reflexivity).
      injection Henc as <-.
      repeat split; try assumption; try reflexivity.
Qed.

(** C2. For a positive stride [s] (in particular 2, 4 and 8) and a buffer
    whose length is a multiple of [s], the shuffle of [tensor_to_json]
    succeeds; it reads the buffer as a grid of [length / s] rows of [s]
    bytes and writes it column by column, so byte [c] of element [r] lands
    at position [c * (length / s) + r]; and the inverse transpose gives back
    the buffer. *)
Theorem byte_shuffle_roundtrip (s : Z) (buf : list byte) :
  0 < s ->
  Z.of_nat (length buf) mod s = 0 ->
  exists out,
    byte_shuffle native s buf = Ok out
    /\ length out = length buf
    /\ (forall r c : nat,
          (r < length buf / Z.to_nat s)%nat -> (c < Z.to_nat s)%nat ->
          out !! (c * (length buf / Z.to_nat s) + r)%nat
          = buf !! (r * Z.to_nat s + c)%nat)
    /\ byte_unshuffle native s out = Ok buf.
Proof.
  intros Hs Hmod.
  set (cols := Z.to_nat s). set (rows := (length buf / cols)%nat).
  assert (Hc : (0 < cols)%nat) by (unfold cols; lia).
  assert (Hlen : length buf = (rows * cols)%nat).
  { unfold rows.
    assert (Hm : (length buf mod cols = 0)%nat).
    { apply Nat2Z.inj. rewrite Nat2Z.inj_mod. unfold cols.
      rewrite Z2Nat.id by lia. exact Hmod. }
    pose proof (Nat.div_mod_eq (length buf) cols). lia. }
  replace s with (Z.of_nat cols) by (unfold cols; lia).
  exists (grid_transpose rows cols buf).
  split; [apply byte_shuffle_spec; assumption|].
  split; [rewrite length_grid_transpose; lia|].
  split.
  - intros r c Hr Hcc. apply grid_transpose_lookup; assumption.
  - rewrite (byte_unshuffle_spec native rows cols)
      by (rewrite ?length_grid_transpose; lia).
    f_equal. apply grid_transpose_involutive, Hlen.
Qed.

(** C3. For an input that [tensor_to_numpy] converts to an array [a] of a
    supported element type, and no permutation or a permutation of the
    axes of [a], the envelope's shape is the list of the dimensions of the
    normalised array: the dimensions of [a] itself, or dimension
    [permute[k]] of [a] at position [k]. *)
Theorem envelope_shape_is_permuted_shape modules input permute (a : ndarray) :
  tensor_to_numpy modules input = Ok a ->
  is_Some (dtype_mapping !! arr_dtype a) ->
  valid_permute permute (ndim a) ->
  exists b env,
    normalize modules input permute = Ok b
    /\ tensor_to_json native zlib_compress modules input permute
       = Ok (Some env)
    /\ shape env = map Z.of_nat (arr_shape b)
    /\ arr_shape b
       = match permute with
         | None => arr_shape a
         | Some p => map (fun i => nth (Z.to_nat i) (arr_shape a) 0%nat) p
         end.
Proof.
  intros Ha Hsup Hp.
  pose proof (normalize_valid modules input permute a Ha Hp) as Hn.
  assert (Hsup' : is_Some (dtype_mapping !! arr_dtype (permuted a permute)))
    by (rewrite permuted_dtype; exact Hsup).
  destruct (tensor_to_json_normalized modules input permute _ Hn Hsup')
    as (env & Hjson & Henc).
  exists (permuted a permute), env.
  rewrite encode_spec in Henc by exact Hsup'. injection Henc as <-.
  repeat split; try assumption. apply permuted_shape.
Qed.

(** C4. For an input converted to an array [a], with no permutation or a
    permutation of its axes: if the element type of [a] is not a key of the
    table ([complex64] is not), [tensor_to_json] raises the "unsupported
    dtype" error and returns no envelope; if it is a key, [tensor_to_json]
    returns an envelope. *)
Theorem unsupported_dtype_raises modules input permute (a : ndarray) :
  tensor_to_numpy modules input = Ok a ->
  valid_permute permute (ndim a) ->
  (dtype_mapping !! arr_dtype a = None ->
   tensor_to_json native zlib_compress modules input permute
   = Raise (ValueError ("unsupported dtype " +:+ dtype_name (arr_dtype a))))
  /\ (is_Some (dtype_mapping !! arr_dtype a) ->
      exists env,
        tensor_to_json native zlib_compress modules input permute
        = Ok (Some env))
  /\ dtype_mapping !! complex64 = None.
Proof.
  intros Ha Hp.
  pose proof (normalize_valid modules input permute a Ha Hp) as Hn.
  split; [|split].
  - intros Hnone.
    rewrite tensor_to_json_unfold
      by (intros ->; exact (normalize_not_none _ _ _ Hn)).
    rewrite Hn. cbn [Py.bind].
    rewrite encode_unsupported by (rewrite permuted_dtype; exact Hnone).
    rewrite permuted_dtype. reflexivity.
  - intros Hsup.
    assert (Hsup' : is_Some (dtype_mapping !! arr_dtype (permuted a permute)))
      by (rewrite permuted_dtype; exact Hsup).
    destruct (tensor_to_json_normalized modules input permute _ Hn Hsup')
      as (env & Hjson & _).
    exists env. exact Hjson.
  - apply dtype_mapping_lookup.
Qed.

(** C5. For an input converted to an array [a] and a permutation [p]: if
    the length of [p] is not the rank of [a], [tensor_to_json] raises the
    length error and returns no envelope; if [p] is a permutation of the
    axes of [a], normalisation yields the array whose [k]-th dimension is
    dimension [p[k]] of [a] and whose element at an index is the element of
    [a] at the index with the components put back in the order of [a]. *)
Theorem permutation_length_checked modules input (p : list Z) (a : ndarray) :
  tensor_to_numpy modules input = Ok a ->
  (length p <> ndim a ->
   tensor_to_json native zlib_compress modules input (Some p)
   = Raise (ValueError
              "permute must be the same length as the tensor's shape"))
  /\ (is_permutation p (ndim a) ->
      exists b,
        normalize modules input (Some p) = Ok b
        /\ arr_dtype b = arr_dtype a
        /\ arr_shape b = map (fun i => nth (Z.to_nat i) (arr_shape a) 0%nat) p
        /\ (length (arr_items a) = prod (arr_shape a) ->
            forall idx,
              Forall2 lt idx (arr_shape a) ->
              getitem b (map (fun i => nth (Z.to_nat i) idx 0%nat) p)
              = getitem a idx)).
Proof.
  intros Ha. split.
  - intros Hlen.
    rewrite tensor_to_json_unfold.
    + rewrite (normalize_mismatch modules input p a Ha Hlen). reflexivity.
    + intros ->. pose proof (tensor_to_numpy_unrecognized modules PyNone eq_refl).
      congruence.
  - intros Hp. exists (permute_axes a (map Z.to_nat p)).
    split; [exact (normalize_valid modules input (Some p) a Ha Hp)|].
    split; [reflexivity|].
    split; [exact (permuted_shape a (Some p))|].
    intros Hwf idx Hidx.
    rewrite <- (permute_axes_getitem a (map Z.to_nat p) idx)
      by (try apply is_permutation_to_nat; assumption).
    rewrite map_map. reflexivity.
Qed.

(** C6. [tensor_to_numpy] raises its [ValueError] on every value that is
    neither an array nor a tensor of a loaded library ([None] included),
    and returns the array for an array and for a tensor of a loaded library
    whose conversion gives an array.  A tensor whose conversion gives
    another value (a [tf.Tensor] of rank 0 converts to a NumPy scalar)
    makes it raise that same [ValueError], whether or not its library is
    loaded; and a conversion that raises passes its exception on. *)
Theorem tensor_to_numpy_raises_unless_array modules (tensor : pyobj) :
  (recognized modules tensor = false ->
   tensor_to_numpy modules tensor
   = Raise (ValueError "expect input to be numpy array or torch tensor"))
  /\ (forall a : ndarray,
        recognized modules tensor = true ->
        payload tensor = Some a ->
        (ndim a <= NPY_MAXDIMS)%nat ->
        tensor_to_numpy modules tensor = Ok a)
  /\ (forall lib repr,
        tensor = LibraryTensor lib (Value repr) ->
        tensor_to_numpy modules tensor
        = Raise (ValueError "expect input to be numpy array or torch tensor"))
  /\ (forall lib e,
        tensor = LibraryTensor lib (Raises e) ->
        recognized modules tensor = true ->
        tensor_to_numpy modules tensor = Raise e).
Proof.
  split; [apply tensor_to_numpy_unrecognized|].
  split; [intros a; apply tensor_to_numpy_recognized|].
  split.
  - intros lib repr ->. rewrite tensor_to_numpy_spec.
    destruct (recognized _ _); reflexivity.
  - intros lib e -> Hr. rewrite tensor_to_numpy_spec, Hr. reflexivity.
Qed.

(** C7. For a metadata list and a permutation of non-negative axis
    indices, [apply_permute] returns a list as long as the permutation
    (it does not raise): position [k] holds the entry at index
    [permute[k]] of the metadata, and [None] when that index is past the
    end of the metadata, whatever the length of the metadata. *)
Theorem apply_permute_pads_with_none {A} (array : list A) (permute : list Z) :
  Forall (fun i => 0 <= i) permute ->
  exists out,
    apply_permute (Some array) permute = Ok (Some out)
    /\ length out = length permute
    /\ (forall (k : nat) (i : Z),
          permute !! k = Some i ->
          out !! k = Some (array !! Z.to_nat i)
          /\ (Z.of_nat (length array) <= i -> out !! k = Some None)).
Proof.
  intros Hnn. exists (map (fun i => array !! Z.to_nat i) permute).
  split; [|split].
  - unfold apply_permute.
    enough (H : comprehension
                  (fun i =>
                     if i <? Z.of_nat (length array)
                     then let! x := list_getitem array i in Ok (Some x)
                     else Ok None) permute
                = Ok (map (fun i => array !! Z.to_nat i) permute))
      by (rewrite H; reflexivity).
    induction Hnn as [|i permute Hi _ IH]; [reflexivity|].
    cbn [comprehension map]. rewrite IH.
    destruct (Z.ltb_spec i (Z.of_nat (length array))) as [Hlt|Hge].
    + unfold list_getitem.
      destruct (Z.ltb_spec i 0); [lia|].
      destruct (Z.leb_spec 0 i); [|lia].
      destruct (lookup_lt_is_Some_2 array (Z.to_nat i) ltac:(lia)) as [x Hx].
      rewrite Hx. reflexivity.
    + rewrite (lookup_ge_None_2 array (Z.to_nat i)) by lia. reflexivity.
  - apply length_map.
  - intros k i Hk.
    rewrite list_lookup_fmap, Hk. cbn [fmap option_fmap option_map].
    split; [reflexivity|].
    intros Hge. rewrite (lookup_ge_None_2 array (Z.to_nat i)) by lia.
    reflexivity.
Qed.

(** C8. For a normalised array of type [int8] or [uint8] the table entry
    has no shuffle stride, and the envelope has shuffle [None],
    compression "zlib", and as data the base64 text of the zlib-compressed
    row-major byte buffer of the array, which holds one byte per element:
    no shuffle is applied. *)
Theorem eight_bit_not_shuffled modules input permute (a : ndarray) :
  normalize modules input permute = Ok a ->
  arr_dtype a = int8 \/ arr_dtype a = uint8 ->
  dtype_mapping !! arr_dtype a
  = Some (arr_dtype a, dtype_name (arr_dtype a), "zlib", None)
  /\ tobytes native (flatten a) = map byte_of_Z (arr_items a)
  /\ tensor_to_json native zlib_compress modules input permute
     = Ok (Some {| shape := map Z.of_nat (arr_shape a);
                   compression := "zlib";
                   shuffle := None;
                   dtype_ := dtype_name (arr_dtype a);
                   data := string_of_list_byte
                             (Base64.b64encode
                                (zlib_compress Z_BEST_SPEED
                                   (tobytes native (flatten a)))) |}).
Proof.
  intros Hn Hd.
  assert (Hl : dtype_mapping !! arr_dtype a
               = Some (arr_dtype a, dtype_name (arr_dtype a), "zlib", None))
    by (rewrite dtype_mapping_lookup; destruct Hd as [-> | ->]; reflexivity).
  assert (Hsup : is_Some (dtype_mapping !! arr_dtype a))
    by (rewrite Hl; eexists; reflexivity).
  split; [exact Hl|]. split.
  - unfold tobytes, flatten. cbn [arr_dtype arr_items].
    assert (Hone : itemsize (arr_dtype a) = 1%nat)
      by (destruct Hd as [-> | ->]; reflexivity).
    rewrite Hone. induction (arr_items a) as [|x xs IH]; [reflexivity|].
    cbn [flat_map map]. rewrite IH. destruct native; reflexivity.
  - destruct (tensor_to_json_normalized modules input permute a Hn Hsup)
      as (env & -> & Henc).
    rewrite (encode_spec _ _ _ Hsup) in Henc. injection Henc as <-.
    unfold wire_bytes.
    rewrite wire_array_same by (destruct Hd as [-> | ->]; discriminate).
    destruct Hd as [-> | ->]; reflexivity.
Qed.

(** C9. For a normalised array of type [float16], [astype] yields the
    [float32] array of the widened elements, and the envelope has dtype
    "float32", shuffle 4, and as data the base64 text of the compressed
    shuffle of the bytes of that [float32] array.  The widening sends every
    binary16 encoding to a binary32 encoding of the same value.  For every
    other entry of the table the transmission type is the source type and
    [astype] returns the array unchanged. *)
Theorem float16_widened_to_float32 :
  (forall modules input permute (a : ndarray),
      normalize modules input permute = Ok a ->
      arr_dtype a = float16 ->
      let widened :=
        {| arr_dtype := float32;
           arr_shape := arr_shape a;
           arr_items := map IEEE754.half_to_float_bits (arr_items a) |} in
      exists env shuffled,
        astype a float32 = Ok widened
        /\ byte_shuffle native 4 (tobytes native (flatten widened))
           = Ok shuffled
        /\ tensor_to_json native zlib_compress modules input permute
           = Ok (Some env)
        /\ dtype_ env = "float32"
        /\ shuffle env = Some 4
        /\ data env
           = string_of_list_byte
               (Base64.b64encode (zlib_compress Z_BEST_SPEED shuffled)))
  /\ (forall h,
        0 <= h < 2 ^ 16 ->
        IEEE754.float32_value (IEEE754.half_to_float_bits h)
        = IEEE754.float16_value h)
  /\ (forall (a : ndarray) target name kind stride,
        dtype_mapping !! arr_dtype a = Some (target, name, kind, stride) ->
        arr_dtype a <> float16 ->
        target = arr_dtype a /\ astype a target = Ok a).
Proof.
  split; [|split].
  - intros modules input permute a Hn Hd widened.
    assert (Hsup : is_Some (dtype_mapping !! arr_dtype a))
      by (rewrite dtype_mapping_lookup, Hd; eexists; reflexivity).
    assert (Hw : wire_array a = widened)
      by (unfold wire_array, widened; rewrite Hd; reflexivity).
    destruct (tensor_to_json_normalized modules input permute a Hn Hsup)
      as (env & Hjson & Henc).
    rewrite (encode_spec _ _ _ Hsup) in Henc. injection Henc as <-.
    eexists _, (wire_bytes native a).
    pose proof (astype_table_defined a) as Hcast.
    rewrite Hd, Hw in Hcast. cbn [wire_dtype] in Hcast.
    split; [exact Hcast|]. split.
    + unfold wire_bytes. rewrite Hw, Hd. cbn [wire_stride wire_dtype itemsize].
      apply (byte_shuffle_spec native (length (arr_items a)) 4); [lia|].
      rewrite <- Hw, length_raw_bytes, Hd. reflexivity.
    + split; [exact Hjson|]. cbn [dtype_ shuffle data]. rewrite Hd.
      repeat split.
  - intros h Hh. apply half_to_float_bits_exact. exact Hh.
  - intros a target name kind stride He Hne.
    apply dtype_mapping_entry in He. injection He as -> -> -> ->.
    assert (Hsame : wire_dtype (arr_dtype a) = arr_dtype a)
      by (destruct (arr_dtype a); try reflexivity; congruence).
    split; [exact Hsame|].
    rewrite astype_table_defined, wire_array_same by exact Hne. reflexivity.
Qed.

(** C10. On [None], [tensor_to_json] returns [None], whatever the
    permutation, the loaded modules, the byte order and the compressor.
    No validation takes place: the normalizer, had it been run on [None],
    would have raised for every permutation and every set of loaded
    modules. *)
Theorem none_input_returns_none modules (permute : option (list Z)) :
  tensor_to_json native zlib_compress modules PyNone permute = Ok None
  /\ normalize modules PyNone permute
     = Raise (ValueError "expect input to be numpy array or torch tensor").
Proof.
  split; [reflexivity|].
  unfold normalize.
  rewrite (tensor_to_numpy_unrecognized modules PyNone eq_refl).
  reflexivity.
Qed.

End Claims.

(** ** The properties at concrete inputs

    The compressor is the stored-block codec, whose inflate undoes its
    deflate; the tensors are those of [Spec]. *)

Lemma decode_recovers_values_witness :
  let modules : gset string := {["torch"]} in
  let input := TorchTensor example_half_2x2 in
  let permute := Some [1; 0] in
  let a := {| arr_dtype := float16; arr_shape := [2; 2]%nat;
              arr_items := [0x3C00; 0x3800; 0x4000; 0xC000] |} in
  (forall b, StoredZlib.decompress (StoredZlib.compress Z_BEST_SPEED b) = Some b)
  /\ normalize modules input permute = Ok a
  /\ wf_ndarray a
  /\ is_Some (dtype_mapping !! arr_dtype a)
  /\ exists env out,
       tensor_to_json BigEndian StoredZlib.compress modules input permute
       = Ok (Some env)
       /\ decode BigEndian StoredZlib.decompress env = Some out
       /\ arr_shape out = arr_shape a
       /\ (arr_dtype a <> float16 -> out = a)
       /\ (arr_dtype a = float16 ->
           arr_dtype out = float32 /\
           map IEEE754.float32_value (arr_items out)
           = map IEEE754.float16_value (arr_items a)).
Proof.
  cbv zeta.
  assert (Hlaw : forall b,
             StoredZlib.decompress (StoredZlib.compress Z_BEST_SPEED b) = Some b)
    by exact (StoredZlibFacts.decompress_compress Z_BEST_SPEED).
  assert (Hn : normalize {["torch"]} (TorchTensor example_half_2x2)
                 (Some [1; 0])
               = Ok {| arr_dtype := float16; arr_shape := [2; 2]%nat;
                       arr_items := [0x3C00; 0x3800; 0x4000; 0xC000] |})
    by (vm_compute; reflexivity).
  assert (Hwf : wf_ndarray
                  {| arr_dtype := float16; arr_shape := [2; 2]%nat;
                     arr_items := [0x3C00; 0x3800; 0x4000; 0xC000] |})
    by (split; [reflexivity | repeat constructor; simpl; lia]).
  assert (Hsup : is_Some (dtype_mapping !! float16))
    by (eexists; vm_compute; reflexivity).
  split; [exact Hlaw|]. split; [exact Hn|]. split; [exact Hwf|].
  split; [exact Hsup|].
  exact (proj1 (decode_recovers_values BigEndian StoredZlib.compress
                  StoredZlib.decompress Hlaw)
               _ _ _ _ Hn Hwf Hsup).
Defined.

Lemma byte_shuffle_roundtrip_witness :
  let buf := list_byte_of_string "a1b2c3d4" in
  0 < 4
  /\ Z.of_nat (length buf) mod 4 = 0
  /\ exists out,
       byte_shuffle LittleEndian 4 buf = Ok out
       /\ length out = length buf
       /\ (forall r c : nat,
             (r < length buf / Z.to_nat 4)%nat -> (c < Z.to_nat 4)%nat ->
             out !! (c * (length buf / Z.to_nat 4) + r)%nat
             = buf !! (r * Z.to_nat 4 + c)%nat)
       /\ byte_unshuffle LittleEndian 4 out = Ok buf.
Proof.
  cbv zeta. split; [lia|]. split; [reflexivity|].
  apply (byte_shuffle_roundtrip LittleEndian 4); [lia | reflexivity].
Defined.

Lemma envelope_shape_is_permuted_shape_witness :
  let input := NdArray example_2x3 in
  let permute := Some [1; 0] in
  tensor_to_numpy ∅ input = Ok example_2x3
  /\ is_Some (dtype_mapping !! arr_dtype example_2x3)
  /\ valid_permute permute (ndim example_2x3)
  /\ exists b env,
       normalize ∅ input permute = Ok b
       /\ tensor_to_json LittleEndian StoredZlib.compress ∅ input permute
          = Ok (Some env)
       /\ shape env = map Z.of_nat (arr_shape b)
       /\ arr_shape b
          = map (fun i => nth (Z.to_nat i) (arr_shape example_2x3) 0%nat)
                [1; 0].
Proof.
  cbv zeta.
  assert (Ha : tensor_to_numpy ∅ (NdArray example_2x3) = Ok example_2x3)
    by (vm_compute; reflexivity).
  assert (Hsup : is_Some (dtype_mapping !! arr_dtype example_2x3))
    by (eexists; vm_compute; reflexivity).
  assert (Hp : valid_permute (Some [1; 0]) (ndim example_2x3))
    by (simpl; apply perm_swap).
  split; [exact Ha|]. split; [exact Hsup|]. split; [exact Hp|].
  exact (envelope_shape_is_permuted_shape LittleEndian StoredZlib.compress
           ∅ (NdArray example_2x3) (Some [1; 0]) example_2x3 Ha Hsup Hp).
Defined.

Lemma unsupported_dtype_raises_witness :
  let input := NdArray example_complex in
  tensor_to_numpy ∅ input = Ok example_complex
  /\ valid_permute None (ndim example_complex)
  /\ dtype_mapping !! arr_dtype example_complex = None
  /\ tensor_to_json LittleEndian StoredZlib.compress ∅ input None
     = Raise (ValueError "unsupported dtype complex64").
Proof.
  cbv zeta.
  assert (Ha : tensor_to_numpy ∅ (NdArray example_complex) = Ok example_complex)
    by (vm_compute; reflexivity).
  assert (Hnone : dtype_mapping !! arr_dtype example_complex = None)
    by (vm_compute; reflexivity).
  split; [exact Ha|]. split; [exact I|]. split; [exact Hnone|].
  exact (proj1 (unsupported_dtype_raises LittleEndian StoredZlib.compress
                  ∅ (NdArray example_complex) None example_complex Ha I)
               Hnone).
Defined.

Lemma permutation_length_checked_witness :
  let input := NdArray example_rank3 in
  tensor_to_numpy ∅ input = Ok example_rank3
  /\ length [1; 0] <> ndim example_rank3
  /\ tensor_to_json LittleEndian StoredZlib.compress ∅ input (Some [1; 0])
     = Raise (ValueError
                "permute must be the same length as the tensor's shape").
Proof.
  cbv zeta.
  assert (Ha : tensor_to_numpy ∅ (NdArray example_rank3) = Ok example_rank3)
    by (vm_compute; reflexivity).
  assert (Hlen : length [1; 0] <> ndim example_rank3)
    by (unfold ndim, example_rank3; simpl; lia).
  split; [exact Ha|]. split; [exact Hlen|].
  exact (proj1 (permutation_length_checked LittleEndian StoredZlib.compress
                  ∅ (NdArray example_rank3) [1; 0] example_rank3 Ha)
               Hlen).
Defined.

(** A [tf.Tensor] of rank 0 is a tensor of a loaded library, and
    [tensor_to_numpy] converts it; what [numpy()] returns is a NumPy
    scalar, no array, and [tensor_to_numpy] raises. *)
Lemma converted_scalar_tensor_raises :
  recognized {["tensorflow"]}
    (LibraryTensor Tensorflow (Value "numpy.float32")) = true
  /\ convert Tensorflow (LibraryTensor Tensorflow (Value "numpy.float32"))
     = Ok (PyOther "numpy.float32")
  /\ tensor_to_numpy {["tensorflow"]}
       (LibraryTensor Tensorflow (Value "numpy.float32"))
     = Raise (ValueError "expect input to be numpy array or torch tensor").
Proof. repeat split; vm_compute; reflexivity. Qed.

Lemma tensor_to_numpy_raises_unless_array_witness :
  let modules : gset string := {["torch"]} in
  let bfloat16 :=
    LibraryTensor Torch
      (Raises (TypeError "Got unsupported ScalarType BFloat16")) in
  (recognized modules (MlxArray example_2x3) = false
   /\ tensor_to_numpy modules (MlxArray example_2x3)
      = Raise (ValueError "expect input to be numpy array or torch tensor"))
  /\ (recognized modules (TorchTensor example_2x3) = true
      /\ payload (TorchTensor example_2x3) = Some example_2x3
      /\ (ndim example_2x3 <= NPY_MAXDIMS)%nat
      /\ tensor_to_numpy modules (TorchTensor example_2x3) = Ok example_2x3)
  /\ (recognized modules bfloat16 = true
      /\ tensor_to_numpy modules bfloat16
         = Raise (TypeError "Got unsupported ScalarType BFloat16")).
Proof.
  cbv zeta.
  assert (H0 : recognized {["torch"]} (MlxArray example_2x3) = false)
    by (vm_compute; reflexivity).
  assert (H1 : recognized {["torch"]} (TorchTensor example_2x3) = true)
    by (vm_compute; reflexivity).
  assert (H2 : (ndim example_2x3 <= NPY_MAXDIMS)%nat)
    by (unfold ndim, NPY_MAXDIMS; simpl; lia).
  assert (H3 : recognized {["torch"]}
                 (LibraryTensor Torch
                    (Raises (TypeError "Got unsupported ScalarType BFloat16")))
               = true)
    by (vm_compute; reflexivity).
  split.
  - split; [exact H0|].
    exact (proj1 (tensor_to_numpy_raises_unless_array
                    {["torch"]} (MlxArray example_2x3)) H0).
  - split.
    + split; [exact H1|]. split; [reflexivity|]. split; [exact H2|].
      exact (proj1 (proj2 (tensor_to_numpy_raises_unless_array
                             {["torch"]} (TorchTensor example_2x3)))
                   example_2x3 H1 eq_refl H2).
    + split; [exact H3|].
      exact (proj2 (proj2 (proj2 (tensor_to_numpy_raises_unless_array
                                    {["torch"]} _)))
                   Torch _ eq_refl H3).
Defined.

Lemma apply_permute_pads_with_none_witness :
  let names := ["batch"; "channel"] in
  let permute := [2; 0; 1] in
  Forall (fun i => 0 <= i) permute
  /\ exists out,
       apply_permute (Some names) permute = Ok (Some out)
       /\ length out = length permute
       /\ (forall (k : nat) (i : Z),
             permute !! k = Some i ->
             out !! k = Some (names !! Z.to_nat i)
             /\ (Z.of_nat (length names) <= i -> out !! k = Some None)).
Proof.
  cbv zeta.
  assert (H : Forall (fun i => 0 <= i) [2; 0; 1])
    by (repeat constructor; lia).
  split; [exact H|].
  exact (apply_permute_pads_with_none ["batch"; "channel"] [2; 0; 1] H).
Defined.

Lemma eight_bit_not_shuffled_witness :
  let input := TfTensor example_uint8 in
  let modules : gset string := {["tensorflow"]} in
  normalize modules input None = Ok example_uint8
  /\ (arr_dtype example_uint8 = int8 \/ arr_dtype example_uint8 = uint8)
  /\ dtype_mapping !! uint8 = Some (uint8, "uint8", "zlib", None)
  /\ tobytes LittleEndian (flatten example_uint8)
     = map byte_of_Z (arr_items example_uint8)
  /\ tensor_to_json LittleEndian StoredZlib.compress modules input None
     = Ok (Some {| shape := [3];
                   compression := "zlib";
                   shuffle := None;
                   dtype_ := "uint8";
                   data := string_of_list_byte
                             (Base64.b64encode
                                (StoredZlib.compress Z_BEST_SPEED
                                   (tobytes LittleEndian
                                      (flatten example_uint8)))) |}).
Proof.
  cbv zeta.
  assert (Hn : normalize {["tensorflow"]} (TfTensor example_uint8) None
               = Ok example_uint8)
    by (vm_compute; reflexivity).
  assert (Hd : arr_dtype example_uint8 = int8 \/ arr_dtype example_uint8 = uint8)
    by (right; reflexivity).
  split; [exact Hn|]. split; [exact Hd|].
  exact (eight_bit_not_shuffled LittleEndian StoredZlib.compress
           {["tensorflow"]} (TfTensor example_uint8) None example_uint8 Hn Hd).
Defined.

Lemma float16_widened_to_float32_witness :
  let input := NdArray example_half_2x2 in
  let widened :=
    {| arr_dtype := float32;
       arr_shape := arr_shape example_half_2x2;
       arr_items := map IEEE754.half_to_float_bits
                        (arr_items example_half_2x2) |} in
  normalize ∅ input None = Ok example_half_2x2
  /\ arr_dtype example_half_2x2 = float16
  /\ exists env shuffled,
       astype example_half_2x2 float32 = Ok widened
       /\ byte_shuffle LittleEndian 4 (tobytes LittleEndian (flatten widened))
          = Ok shuffled
       /\ tensor_to_json LittleEndian StoredZlib.compress ∅ input None
          = Ok (Some env)
       /\ dtype_ env = "float32"
       /\ shuffle env = Some 4
       /\ data env
          = string_of_list_byte
              (Base64.b64encode (StoredZlib.compress Z_BEST_SPEED shuffled)).
Proof.
  cbv zeta.
  assert (Hn : normalize ∅ (NdArray example_half_2x2) None
               = Ok example_half_2x2)
    by (vm_compute; reflexivity).
  split; [exact Hn|]. split; [reflexivity|].
  exact (proj1 (float16_widened_to_float32 LittleEndian StoredZlib.compress)
               ∅ (NdArray example_half_2x2) None example_half_2x2
               Hn eq_refl).
Defined.

(** * Further properties *)

(** ** Axis lists *)

Module AxesFacts.

Import Axes.

Lemma check_and_adjust_axis_spec (nd : nat) (x : Z) :
  check_and_adjust_axis x nd
  = if bool_decide (in_range nd x) then Ok (axis_index nd x)
    else Raise (AxisError x nd).
Proof.
  unfold check_and_adjust_axis, in_range, axis_index.
  destruct (Z.ltb_spec x (- Z.of_nat nd)), (Z.leb_spec (Z.of_nat nd) x);
    cbn [orb];
    (rewrite bool_decide_eq_false_2 by lia) ||
    (rewrite bool_decide_eq_true_2 by lia); reflexivity.
Qed.

Lemma axis_index_lt (nd : nat) (x : Z) :
  in_range nd x -> (axis_index nd x < nd)%nat.
Proof.
  unfold in_range, axis_index. intros H. destruct (Z.ltb_spec x 0); lia.
Qed.

Lemma axis_index_normal (nd : nat) (x : Z) :
  in_range nd x ->
  in_range nd (Z.of_nat (axis_index nd x))
  /\ axis_index nd (Z.of_nat (axis_index nd x)) = axis_index nd x.
Proof.
  intros H. pose proof (axis_index_lt nd x H) as Hlt.
  split; [unfold in_range; lia|].
  unfold axis_index at 1.
  destruct (Z.ltb_spec (Z.of_nat (axis_index nd x)) 0); [lia|].
  apply Nat2Z.id.
Qed.

Lemma axis_index_nonneg (nd : nat) (x : Z) :
  0 <= x -> axis_index nd x = Z.to_nat x.
Proof. intros H. unfold axis_index. destruct (Z.ltb_spec x 0); [lia | reflexivity]. Qed.

Lemma fits_intp_spec (x : Z) :
  fits_intp x = true <-> - 2 ^ 63 <= x < 2 ^ 63.
Proof.
  unfold fits_intp. rewrite andb_true_iff, Z.leb_le, Z.ltb_lt. reflexivity.
Qed.

Lemma forallb_fits_intp (axes : list Z) :
  forallb fits_intp axes = true
  <-> Forall (fun x => - 2 ^ 63 <= x < 2 ^ 63) axes.
Proof.
  rewrite forallb_forall, Forall_forall. split.
  - intros H x Hx. apply fits_intp_spec, H, list_elem_of_In, Hx.
  - intros H x Hx. apply fits_intp_spec, H, list_elem_of_In, Hx.
Qed.

(** The conversion of an axis list that is not too long succeeds exactly
    when every axis number is an [npy_intp]. *)
Lemma intp_converter_spec (axes : list Z) :
  (length axes <= NPY_MAXDIMS)%nat ->
  intp_converter axes
  = if forallb fits_intp axes then Ok axes
    else Raise (ValueError "Maximum allowed dimension exceeded").
Proof.
  intros Hlen. unfold intp_converter.
  rewrite bool_decide_eq_false_2 by lia. reflexivity.
Qed.

(** The loop over the axes succeeds exactly on axes that, narrowed, are
    within range and denote pairwise different dimensions, none of them
    seen before. *)
Lemma adjust_axes_ok_iff (nd : nat) (axes : list Z) (seen perm : list nat) :
  adjust_axes nd axes seen = Ok perm
  <-> Forall (fun x => in_range nd (c_int x)) axes
      /\ NoDup (map (denoted nd) axes)
      /\ (forall k, k ∈ map (denoted nd) axes -> k ∉ seen)
      /\ perm = map (denoted nd) axes.
Proof.
  revert seen perm. induction axes as [|x axes IH]; intros seen perm.
  - cbn. split.
    + intros [= <-]. repeat split; try constructor.
      intros k Hk. inversion Hk.
    + intros (_ & _ & _ & ->). reflexivity.
  - cbn [adjust_axes map]. rewrite check_and_adjust_axis_spec.
    fold (denoted nd x).
    destruct (bool_decide (in_range nd (c_int x))) eqn:Hr.
    + apply bool_decide_eq_true_1 in Hr. cbn [Py.bind].
      destruct (bool_decide (denoted nd x ∈ seen)) eqn:Hs.
      * apply bool_decide_eq_true_1 in Hs. split; [discriminate|].
        intros (_ & _ & Hseen & _). exfalso.
        apply (Hseen (denoted nd x)); [left | exact Hs].
      * apply bool_decide_eq_false_1 in Hs.
        assert (Hrest : forall q,
                  Forall (fun x => in_range nd (c_int x)) (x :: axes)
                  /\ NoDup (denoted nd x :: map (denoted nd) axes)
                  /\ (forall k, k ∈ denoted nd x :: map (denoted nd) axes ->
                                k ∉ seen)
                  /\ q = denoted nd x :: map (denoted nd) axes ->
                  adjust_axes nd axes (denoted nd x :: seen)
                  = Ok (map (denoted nd) axes)).
        { intros q (Hall & Hnd & Hseen & _).
          inversion Hall as [|? ? _ Hall']; subst.
          apply NoDup_cons in Hnd as [Hnotin Hnd].
          apply IH. repeat split; try assumption.
          intros k Hk Hin. apply elem_of_cons in Hin as [->|Hin].
          - exact (Hnotin Hk).
          - apply (Hseen k); [right; exact Hk | exact Hin]. }
        destruct (adjust_axes nd axes (denoted nd x :: seen)) as [q| |]
          eqn:Hrec; cbn [Py.bind].
        -- apply IH in Hrec as (Hall & Hnd & Hseen & ->). split.
           ++ intros [= <-]. split; [constructor; assumption|].
              split.
              ** apply NoDup_cons. split; [|exact Hnd].
                 intros Hin. apply (Hseen _ Hin). left.
              ** split; [|reflexivity].
                 intros k Hk Hin. apply elem_of_cons in Hk as [->|Hk].
                 --- exact (Hs Hin).
                 --- apply (Hseen k Hk). right. exact Hin.
           ++ intros (_ & _ & _ & ->). reflexivity.
        -- split; [discriminate|]. intros H. apply Hrest in H. discriminate.
        -- split; [discriminate|]. intros H. apply Hrest in H. discriminate.
    + apply bool_decide_eq_false_1 in Hr. cbn [Py.bind].
      split; [discriminate|].
      intros (Hall & _). inversion Hall; subst. contradiction.
Qed.

(** Whatever the axes, the loop returns or raises one of NumPy's two
    errors; the axis [AxisError] names is the narrowed one. *)
Lemma adjust_axes_outcome (nd : nat) (axes : list Z) (seen : list nat) :
  (exists perm, adjust_axes nd axes seen = Ok perm)
  \/ adjust_axes nd axes seen = Raise (ValueError "repeated axis in transpose")
  \/ (exists x, x ∈ axes /\ ~ in_range nd (c_int x)
                /\ adjust_axes nd axes seen = Raise (AxisError (c_int x) nd)).
Proof.
  revert seen. induction axes as [|x axes IH]; intros seen.
  - left. eexists. reflexivity.
  - cbn [adjust_axes]. rewrite check_and_adjust_axis_spec.
    destruct (bool_decide (in_range nd (c_int x))) eqn:Hr; cbn [Py.bind].
    + destruct (bool_decide (_ ∈ seen)); [right; left; reflexivity|].
      destruct (IH (axis_index nd (c_int x) :: seen))
        as [[q ->] | [-> | (y & Hy & Hny & ->)]];
        cbn [Py.bind].
      * left. eexists. reflexivity.
      * right. left. reflexivity.
      * right. right. exists y. repeat split; [right; exact Hy | exact Hny].
    + apply bool_decide_eq_false_1 in Hr.
      right. right. exists x. repeat split; [left | exact Hr].
Qed.

Lemma transpose_ok_iff (a b : ndarray) (axes : list Z) :
  (ndim a <= NPY_MAXDIMS)%nat ->
  transpose a axes = Ok b
  <-> accepted (ndim a) axes
      /\ b = permute_axes a (map (denoted (ndim a)) axes).
Proof.
  intros Hmax. unfold transpose, accepted.
  destruct (bool_decide (length axes = ndim a)) eqn:Hlen.
  - apply bool_decide_eq_true_1 in Hlen.
    rewrite intp_converter_spec by lia.
    destruct (forallb fits_intp axes) eqn:Hfits; cbn [Py.bind].
    + apply forallb_fits_intp in Hfits.
      rewrite bool_decide_eq_true_2 by exact Hlen.
      destruct (adjust_axes (ndim a) axes []) as [q| |] eqn:Hadj;
        cbn [Py.bind].
      * apply adjust_axes_ok_iff in Hadj as (Hall & Hnd & _ & ->). split.
        -- intros [= <-]. repeat split; assumption.
        -- intros (_ & ->). reflexivity.
      * split; [discriminate|]. intros ((_ & _ & Hall & Hnd) & _). exfalso.
        assert (Hok : adjust_axes (ndim a) axes []
                      = Ok (map (denoted (ndim a)) axes)).
        { apply adjust_axes_ok_iff. repeat split; try assumption.
          intros k _ Hk. inversion Hk. }
        congruence.
      * split; [discriminate|]. intros ((_ & _ & Hall & Hnd) & _). exfalso.
        assert (Hok : adjust_axes (ndim a) axes []
                      = Ok (map (denoted (ndim a)) axes)).
        { apply adjust_axes_ok_iff. repeat split; try assumption.
          intros k _ Hk. inversion Hk. }
        congruence.
    + split; [discriminate|]. intros ((_ & Hfit & _) & _). exfalso.
      apply forallb_fits_intp in Hfit. congruence.
  - apply bool_decide_eq_false_1 in Hlen. split.
    + destruct (intp_converter axes) as [axes'| |] eqn:Hconv; cbn [Py.bind];
        try discriminate.
      assert (axes' = axes) as ->.
      { unfold intp_converter in Hconv.
        destruct (bool_decide _); [discriminate|].
        destruct (forallb _ _); [|discriminate]. congruence. }
      rewrite bool_decide_eq_false_2 by exact Hlen. discriminate.
    + intros ((Hl & _) & _). contradiction.
Qed.

(** A list of [n] different numbers below [n] lists every number below
    [n]. *)
Lemma nodup_below_permutation (n : nat) (l : list nat) :
  length l = n -> Forall (fun k => k < n)%nat l -> NoDup l ->
  Permutation l (seq 0 n).
Proof.
  intros Hlen Hall Hnd.
  apply submseteq_length_Permutation.
  - apply NoDup_submseteq; [exact Hnd|].
    intros k Hk. rewrite Forall_forall in Hall. apply elem_of_seq.
    specialize (Hall k Hk). lia.
  - rewrite length_seq. lia.
Qed.

Lemma accepted_permutation (nd : nat) (axes : list Z) :
  accepted nd axes -> Permutation (map (denoted nd) axes) (seq 0 nd).
Proof.
  intros (Hlen & _ & Hall & Hnd). apply nodup_below_permutation.
  - rewrite length_map. exact Hlen.
  - apply Forall_map. eapply Forall_impl; [exact Hall|].
    intros x Hx. cbn beta. apply axis_index_lt, Hx.
  - exact Hnd.
Qed.

(** An axis number within the range of an array denotes the dimension it
    names: narrowing does not change it. *)
Lemma denoted_in_range (nd : nat) (x : Z) :
  (nd <= NPY_MAXDIMS)%nat -> in_range nd x -> denoted nd x = axis_index nd x.
Proof.
  intros Hmax Hx. unfold denoted. rewrite (c_int_axis nd) by assumption.
  reflexivity.
Qed.

(** For axis numbers within range, the lists NumPy accepts are those that
    name no dimension twice. *)
Lemma accepted_in_range (nd : nat) (axes : list Z) :
  (nd <= NPY_MAXDIMS)%nat -> Forall (in_range nd) axes ->
  accepted nd axes
  <-> length axes = nd /\ NoDup (map (axis_index nd) axes).
Proof.
  intros Hmax Hall.
  assert (Heq : map (denoted nd) axes = map (axis_index nd) axes).
  { apply map_ext_Forall. eapply Forall_impl; [exact Hall|].
    intros x Hx. apply denoted_in_range; assumption. }
  unfold accepted. rewrite Heq. split.
  - intros (Hlen & _ & _ & Hnd). split; assumption.
  - intros (Hlen & Hnd). repeat split; try assumption.
    + eapply Forall_impl; [exact Hall|]. intros x Hx. cbn beta.
      apply fits_intp_spec, (fits_intp_axis nd); assumption.
    + eapply Forall_impl; [exact Hall|]. intros x Hx. cbn beta.
      rewrite (c_int_axis nd) by assumption. exact Hx.
Qed.

End AxesFacts.

(** ** How [tensor_to_json] answers *)

Module OutcomeFacts.

Import Axes AxesFacts.

Lemma normalize_some_iff modules input (p : list Z) (a b : ndarray) :
  tensor_to_numpy modules input = Ok a ->
  normalize modules input (Some p) = Ok b
  <-> accepted (ndim a) p /\ b = permute_axes a (map (denoted (ndim a)) p).
Proof.
  intros Ha. unfold normalize. rewrite Ha. cbn [Py.bind].
  destruct (bool_decide (length p ≠ length (arr_shape a))) eqn:Hlen.
  - apply bool_decide_eq_true_1 in Hlen. split; [discriminate|].
    intros ((Hl & _) & _). contradiction.
  - apply transpose_ok_iff. exact (tensor_to_numpy_ndim _ _ _ Ha).
Qed.

Lemma map_nth_seq {A} (l : list A) (d : A) :
  map (fun k => nth k l d) (seq 0 (length l)) = l.
Proof.
  induction l as [|x l IH]; [reflexivity|].
  cbn [length seq map nth]. rewrite <- seq_shift, map_map. cbn [nth].
  f_equal. exact IH.
Qed.

Lemma normalize_selected modules input permute (a b : ndarray) :
  tensor_to_numpy modules input = Ok a ->
  normalize modules input permute = Ok b ->
  Permutation (selected (ndim a) permute) (seq 0 (ndim a))
  /\ arr_shape b
     = map (fun k => nth k (arr_shape a) 0%nat) (selected (ndim a) permute)
  /\ arr_dtype b = arr_dtype a.
Proof.
  intros Ha Hn. destruct permute as [p|].
  - apply (normalize_some_iff _ _ _ _ _ Ha) in Hn as [Hacc ->].
    split; [apply accepted_permutation, Hacc|]. split; reflexivity.
  - unfold normalize in Hn. rewrite Ha in Hn. injection Hn as <-.
    split; [reflexivity|]. split; [|reflexivity].
    cbn [selected]. unfold ndim. symmetry. apply map_nth_seq.
Qed.

(** Normalisation leaves the model only on a record of more dimensions
    than an array has. *)
Lemma normalize_out_of_model modules input permute what :
  normalize modules input permute = OutOfModel what ->
  exists a, payload input = Some a /\ (NPY_MAXDIMS < ndim a)%nat.
Proof.
  unfold normalize.
  destruct (tensor_to_numpy modules input) as [a| |w] eqn:Ha; cbn [Py.bind].
  - pose proof (tensor_to_numpy_ndim _ _ _ Ha) as Hmax.
    destruct permute as [p|]; [|discriminate].
    destruct (bool_decide (length p ≠ length (arr_shape a))) eqn:Hlen;
      [discriminate|].
    apply bool_decide_eq_false_1 in Hlen.
    assert (Hl : length p = ndim a)
      by (destruct (decide (length p = ndim a)) as [|Hne];
          [assumption | exfalso; exact (Hlen Hne)]).
    unfold transpose. rewrite intp_converter_spec by lia.
    destruct (forallb fits_intp p); cbn [Py.bind]; [|discriminate].
    destruct (bool_decide _); [|discriminate].
    destruct (adjust_axes_outcome (ndim a) p [])
      as [[q Hq] | [Hq | (x & _ & _ & Hq)]]; rewrite Hq; discriminate.
  - discriminate.
  - intros _. rewrite tensor_to_numpy_spec in Ha.
    destruct (recognized modules input); [|discriminate].
    destruct input as [|b|b|b|b| |lib [repr|e]]; try discriminate;
      (destruct (bool_decide (ndim b <= NPY_MAXDIMS)%nat) eqn:Hb;
       [discriminate|]);
      apply bool_decide_eq_false_1 in Hb;
      (exists b; split; [reflexivity | lia]).
Qed.

Section Outcome.

Variable native : byteorder.
Variable zlib_compress : Z -> list byte -> list byte.

Lemma encode_cases (a : ndarray) :
  (is_Some (dtype_mapping !! arr_dtype a)
   /\ exists env, encode native zlib_compress a = Ok env)
  \/ (dtype_mapping !! arr_dtype a = None
      /\ encode native zlib_compress a
         = Raise (ValueError
                    ("unsupported dtype " +:+ dtype_name (arr_dtype a)))).
Proof.
  destruct (dtype_mapping !! arr_dtype a) as [e|] eqn:He.
  - left. split; [eexists; reflexivity|].
    eexists. apply encode_spec. rewrite He. eexists. reflexivity.
  - right. split; [reflexivity|]. apply encode_unsupported, He.
Qed.

(** X1.  For an input other than [None], [tensor_to_json] returns an
    envelope exactly when the input is an array, or a tensor of a loaded
    library whose conversion gives one; the permutation (if any) is an
    axis list NumPy accepts for the rank of that array: one axis number
    per dimension, each an [npy_intp] that, narrowed to a C [int], lies in
    [-rank, rank), no dimension named twice; and the element type is a key
    of the table.  It never returns [None] for such an input, and the
    model describes its answer on every array.  (That the array has at
    most [NPY_MAXDIMS] dimensions says that it is one.) *)
Theorem envelope_iff modules input permute :
  input <> PyNone ->
  ((exists env,
       tensor_to_json native zlib_compress modules input permute
       = Ok (Some env))
   <-> exists a,
         recognized modules input = true
         /\ payload input = Some a
         /\ (ndim a <= NPY_MAXDIMS)%nat
         /\ match permute with
            | None => True
            | Some p => accepted (ndim a) p
            end
         /\ is_Some (dtype_mapping !! arr_dtype a))
  /\ tensor_to_json native zlib_compress modules input permute <> Ok None
  /\ (forall what,
        tensor_to_json native zlib_compress modules input permute
        = OutOfModel what ->
        exists a, payload input = Some a /\ (NPY_MAXDIMS < ndim a)%nat).
Proof.
  intros Hin. rewrite (tensor_to_json_unfold _ _ _ _ _ Hin).
  destruct (normalize modules input permute) as [b| |w] eqn:Hn; cbn [Py.bind].
  - assert (Hb : exists a, tensor_to_numpy modules input = Ok a).
    { unfold normalize in Hn.
      destruct (tensor_to_numpy modules input); try discriminate.
      eexists. reflexivity. }
    destruct Hb as [a Ha].
    assert (Hd : arr_dtype b = arr_dtype a)
      by exact (normalize_dtype _ _ _ _ _ Ha Hn).
    pose proof (proj1 (tensor_to_numpy_ok_iff _ _ _) Ha) as (Hr & Hp & Hmax).
    destruct (encode_cases b) as [[Hsup [env ->]] | [Hnone ->]]; cbn [Py.bind].
    + split; [|split; [discriminate | intros ?; discriminate]]. split.
      * intros _. exists a. repeat split; try assumption.
        -- destruct permute as [p|]; [|exact I].
           apply (normalize_some_iff _ _ _ _ _ Ha) in Hn. apply Hn.
        -- rewrite <- Hd. exact Hsup.
      * intros _. eexists. reflexivity.
    + split; [|split; [discriminate | intros ?; discriminate]]. split.
      * intros [env Henv]. discriminate.
      * intros (a' & _ & Hp' & _ & _ & Hsup).
        assert (a' = a) by congruence. subst a'.
        rewrite <- Hd, Hnone in Hsup. destruct Hsup as [? ?]. discriminate.
  - split; [|split; [discriminate | intros ?; discriminate]]. split.
    + intros [env Henv]. discriminate.
    + intros (a & Hr & Hp & Hmax & Hacc & _). exfalso.
      pose proof (proj2 (tensor_to_numpy_ok_iff _ _ _)
                        (conj Hr (conj Hp Hmax))) as Ha.
      destruct permute as [p|].
      * assert (Hok : normalize modules input (Some p)
                      = Ok (permute_axes a (map (denoted (ndim a)) p)))
          by (apply (normalize_some_iff _ _ _ _ _ Ha); split;
              [exact Hacc | reflexivity]).
        congruence.
      * unfold normalize in Hn. rewrite Ha in Hn. discriminate.
  - split;
      [|split; [discriminate
               | intros ? _; exact (normalize_out_of_model _ _ _ _ Hn)]].
    split.
    + intros [env Henv]. discriminate.
    + intros (a & Hr & Hp & Hmax & Hacc & _). exfalso.
      pose proof (proj2 (tensor_to_numpy_ok_iff _ _ _)
                        (conj Hr (conj Hp Hmax))) as Ha.
      destruct permute as [p|].
      * assert (Hok : normalize modules input (Some p)
                      = Ok (permute_axes a (map (denoted (ndim a)) p)))
          by (apply (normalize_some_iff _ _ _ _ _ Ha); split;
              [exact Hacc | reflexivity]).
        congruence.
      * unfold normalize in Hn. rewrite Ha in Hn. discriminate.
Qed.

(** X2.  The checks come in a fixed order, each error hiding the later
    ones.  An input that is not recognised raises the input error
    whatever the permutation, and so does a tensor whose conversion gives
    a value that is no array; a conversion that raises passes its
    exception on.  Then a permutation of the wrong length raises the
    length error; then an axis number that is no [npy_intp] raises
    NumPy's conversion error, wherever it stands in the list; then an
    axis that, narrowed to a C [int], is out of range or names a
    dimension twice raises NumPy's error; only then does an element type
    outside the table raise the dtype error. *)
Theorem errors_in_order modules input permute :
  input <> PyNone ->
  let result := tensor_to_json native zlib_compress modules input permute in
  (recognized modules input = false ->
   result = Raise (ValueError
                     "expect input to be numpy array or torch tensor"))
  /\ (forall lib repr,
        input = LibraryTensor lib (Value repr) ->
        result = Raise (ValueError
                          "expect input to be numpy array or torch tensor"))
  /\ (forall lib e,
        input = LibraryTensor lib (Raises e) ->
        recognized modules input = true ->
        result = Raise e)
  /\ (forall a p,
        tensor_to_numpy modules input = Ok a -> permute = Some p ->
        (length p <> ndim a ->
         result = Raise (ValueError
                     "permute must be the same length as the tensor's shape"))
        /\ (length p = ndim a ->
            Exists (fun x => ~ - 2 ^ 63 <= x < 2 ^ 63) p ->
            result = Raise (ValueError "Maximum allowed dimension exceeded"))
        /\ (length p = ndim a ->
            Forall (fun x => - 2 ^ 63 <= x < 2 ^ 63) p ->
            ~ accepted (ndim a) p ->
            result = Raise (ValueError "repeated axis in transpose")
            \/ exists x, x ∈ p /\ ~ in_range (ndim a) (c_int x)
                         /\ result = Raise (AxisError (c_int x) (ndim a))))
  /\ (forall a b,
        tensor_to_numpy modules input = Ok a ->
        normalize modules input permute = Ok b ->
        dtype_mapping !! arr_dtype a = None ->
        result = Raise (ValueError
                          ("unsupported dtype " +:+ dtype_name (arr_dtype a)))).
Proof.
  intros Hin result. unfold result.
  rewrite (tensor_to_json_unfold _ _ _ _ _ Hin).
  split; [|split; [|split; [|split]]].
  - intros Hr. unfold normalize.
    rewrite (tensor_to_numpy_unrecognized _ _ Hr). reflexivity.
  - intros lib repr ->. unfold normalize. rewrite tensor_to_numpy_spec.
    destruct (recognized _ _); reflexivity.
  - intros lib e -> Hr. unfold normalize.
    rewrite tensor_to_numpy_spec, Hr. reflexivity.
  - intros a p Ha ->.
    pose proof (tensor_to_numpy_ndim _ _ _ Ha) as Hmax.
    split; [|split].
    + intros Hlen. rewrite (normalize_mismatch _ _ _ _ Ha Hlen). reflexivity.
    + intros Hlen Hex. unfold normalize. rewrite Ha. cbn [Py.bind].
      rewrite bool_decide_eq_false_2 by (intros Hne; exact (Hne Hlen)).
      unfold transpose. rewrite intp_converter_spec by lia.
      destruct (forallb fits_intp p) eqn:Hfits; [|reflexivity].
      exfalso. apply forallb_fits_intp in Hfits.
      apply Exists_exists in Hex as (x & Hx & Hnx).
      rewrite Forall_forall in Hfits. exact (Hnx (Hfits x Hx)).
    + intros Hlen Hfits Hnacc. unfold normalize. rewrite Ha. cbn [Py.bind].
      rewrite bool_decide_eq_false_2 by (intros Hne; exact (Hne Hlen)).
      unfold transpose. rewrite intp_converter_spec by lia.
      rewrite (proj2 (forallb_fits_intp p) Hfits). cbn [Py.bind].
      rewrite bool_decide_eq_true_2 by exact Hlen.
      destruct (adjust_axes_outcome (ndim a) p [])
        as [[q Hq] | [Hq | (x & Hx & Hnx & Hq)]]; rewrite Hq; cbn [Py.bind].
      * exfalso. apply Hnacc.
        apply adjust_axes_ok_iff in Hq as (Hall & Hnd & _).
        repeat split; assumption.
      * left. reflexivity.
      * right. exists x. repeat split; assumption.
  - intros a b Ha Hn Hnone. rewrite Hn. cbn [Py.bind].
    pose proof (normalize_dtype _ _ _ _ _ Ha Hn) as Hd.
    rewrite encode_unsupported by (rewrite Hd; exact Hnone).
    rewrite Hd. reflexivity.
Qed.

End Outcome.

End OutcomeFacts.

(** ** Normalisation *)

Module NormalizeMore.

Import Axes AxesFacts OutcomeFacts.

Lemma adjust_axes_normalized (nd : nat) (axes : list Z) (seen : list nat) :
  (nd <= NPY_MAXDIMS)%nat ->
  Forall (in_range nd) axes ->
  adjust_axes nd (map (fun x => Z.of_nat (axis_index nd x)) axes) seen
  = adjust_axes nd axes seen.
Proof.
  intros Hmax Hall. revert seen.
  induction Hall as [|x axes Hx _ IH]; intros seen; [reflexivity|].
  cbn [map adjust_axes].
  destruct (axis_index_normal nd x Hx) as [Hr Heq].
  rewrite !(c_int_axis nd) by assumption.
  rewrite !check_and_adjust_axis_spec.
  rewrite !bool_decide_eq_true_2 by assumption. rewrite Heq. cbn [Py.bind].
  destruct (bool_decide _); [reflexivity|]. rewrite IH. reflexivity.
Qed.

Lemma prod_permutation (l1 l2 : list nat) :
  Permutation l1 l2 -> prod l1 = prod l2.
Proof.
  unfold prod. induction 1; cbn [foldr]; lia.
Qed.

Lemma unravel_index_lt (dims : list nat) (f : nat) :
  (f < prod dims)%nat -> Forall2 lt (unravel_index dims f) dims.
Proof.
  revert f. induction dims as [|d ds IH]; intros f Hf; [constructor|].
  cbn [unravel_index]. unfold prod in Hf. cbn [foldr] in Hf. fold (prod ds) in Hf.
  assert (HP : (0 < prod ds)%nat) by (destruct (prod ds); lia).
  constructor.
  - apply Nat.Div0.div_lt_upper_bound. lia.
  - apply IH, Nat.mod_upper_bound. lia.
Qed.

Lemma offset_cons (i : nat) (idx : list nat) (d : nat) (dims : list nat) :
  offset (i :: idx) (c_strides (d :: dims))
  = (i * prod dims + offset idx (c_strides dims))%nat.
Proof. reflexivity. Qed.

Lemma offset_unravel (dims : list nat) (f : nat) :
  (f < prod dims)%nat -> offset (unravel_index dims f) (c_strides dims) = f.
Proof.
  revert f. induction dims as [|d ds IH]; intros f Hf.
  - unfold prod in Hf. cbn in Hf. cbn. lia.
  - cbn [unravel_index]. rewrite offset_cons.
    unfold prod in Hf. cbn [foldr] in Hf. fold (prod ds) in Hf.
    assert (HP : (0 < prod ds)%nat) by (destruct (prod ds); lia).
    rewrite IH by (apply Nat.mod_upper_bound; lia).
    pose proof (Nat.div_mod_eq f (prod ds)). lia.
Qed.

(** Listing the axes in their own order changes nothing. *)
Lemma permute_axes_identity (a : ndarray) :
  length (arr_items a) = prod (arr_shape a) ->
  permute_axes a (seq 0 (ndim a)) = a.
Proof.
  intros Hwf. destruct a as [d shp items]. unfold permute_axes, ndim.
  cbn [arr_dtype arr_shape arr_items] in *. cbv zeta.
  assert (Hs : map (fun p => nth p (c_strides shp) 0%nat) (seq 0 (length shp))
               = c_strides shp)
    by (rewrite <- (length_c_strides shp); apply map_nth_seq).
  rewrite Hs, map_nth_seq. f_equal. rewrite <- Hwf.
  rewrite <- (map_nth_seq items 0) at 2.
  apply map_ext_in. intros f Hf. apply in_seq in Hf.
  rewrite offset_unravel by lia. reflexivity.
Qed.

Section Normalize.

Variable native : byteorder.
Variable zlib_compress : Z -> list byte -> list byte.

(** X3.  A negative axis number means the axis counted from the end:
    replacing every axis of an in-range permutation by the dimension it
    denotes changes nothing in what [tensor_to_json] returns or raises. *)
Theorem negative_axes_count_from_end modules input (p : list Z) (a : ndarray) :
  tensor_to_numpy modules input = Ok a ->
  Forall (in_range (ndim a)) p ->
  tensor_to_json native zlib_compress modules input
    (Some (map (fun x => Z.of_nat (axis_index (ndim a) x)) p))
  = tensor_to_json native zlib_compress modules input (Some p).
Proof.
  intros Ha Hall.
  assert (Hin : input <> PyNone).
  { intros ->. rewrite (tensor_to_numpy_unrecognized modules PyNone eq_refl) in Ha.
    discriminate. }
  rewrite !(tensor_to_json_unfold _ _ _ _ _ Hin).
  enough (Hn : normalize modules input
                 (Some (map (fun x => Z.of_nat (axis_index (ndim a) x)) p))
               = normalize modules input (Some p)) by (rewrite Hn; reflexivity).
  pose proof (tensor_to_numpy_ndim _ _ _ Ha) as Hmax.
  unfold normalize. rewrite Ha. cbn [Py.bind]. rewrite length_map.
  destruct (bool_decide (length p ≠ length (arr_shape a))) eqn:Hlen;
    [reflexivity|].
  apply bool_decide_eq_false_1 in Hlen.
  assert (Hl : length p = ndim a)
    by (destruct (decide (length p = ndim a)) as [|Hne];
        [assumption | exfalso; exact (Hlen Hne)]).
  unfold transpose.
  rewrite (intp_converter_axes (ndim a) p) by assumption.
  rewrite (intp_converter_axes (ndim a));
    [| exact Hmax | rewrite length_map; exact Hl |].
  2:{ apply Forall_map. eapply Forall_impl; [exact Hall|].
      intros x Hx. cbn beta. apply (axis_index_normal _ _ Hx). }
  cbn [Py.bind]. rewrite length_map.
  destruct (bool_decide _); [|reflexivity].
  rewrite adjust_axes_normalized by assumption. reflexivity.
Qed.

(** X4.  The identity permutation [0, 1, .., rank-1] is the same as no
    permutation. *)
Theorem identity_permutation_is_none modules input (a : ndarray) :
  tensor_to_numpy modules input = Ok a ->
  length (arr_items a) = prod (arr_shape a) ->
  tensor_to_json native zlib_compress modules input
    (Some (map Z.of_nat (seq 0 (ndim a))))
  = tensor_to_json native zlib_compress modules input None.
Proof.
  intros Ha Hwf.
  assert (Hin : input <> PyNone).
  { intros ->. rewrite (tensor_to_numpy_unrecognized modules PyNone eq_refl) in Ha.
    discriminate. }
  rewrite !(tensor_to_json_unfold _ _ _ _ _ Hin).
  assert (Hp : is_permutation (map Z.of_nat (seq 0 (ndim a))) (ndim a))
    by (unfold is_permutation; reflexivity).
  rewrite (normalize_valid modules input (Some _) a Ha Hp).
  rewrite (normalize_valid modules input None a Ha I).
  cbn [permuted]. rewrite map_map.
  erewrite map_ext by (intros; apply Nat2Z.id). rewrite map_id.
  rewrite permute_axes_identity by exact Hwf. reflexivity.
Qed.

End Normalize.

(** Normalisation yields as many elements as the dimensions of its result
    say, each an element of the input or nothing worse than zero. *)
Lemma normalize_items modules input permute (a b : ndarray) :
  tensor_to_numpy modules input = Ok a ->
  wf_ndarray a ->
  normalize modules input permute = Ok b ->
  length (arr_items b) = prod (arr_shape b)
  /\ Forall (fun x => 0 <= x < 2 ^ (8 * Z.of_nat (itemsize (arr_dtype a))))
            (arr_items b).
Proof.
  intros Ha [Hlen Hrange] Hn. destruct permute as [p|].
  - apply (normalize_some_iff _ _ _ _ _ Ha) in Hn as [_ ->].
    cbn [permute_axes arr_items arr_shape].
    split; [rewrite length_map, length_seq; reflexivity|].
    apply Forall_map, Forall_forall. intros f _. cbn beta.
    set (k := offset _ _).
    destruct (Nat.lt_ge_cases k (length (arr_items a))) as [Hk|Hk].
    + rewrite Forall_forall in Hrange. apply Hrange.
      apply list_elem_of_In, nth_In. exact Hk.
    + rewrite nth_overflow by exact Hk.
      split; [lia | apply Z.pow_pos_nonneg; lia].
  - unfold normalize in Hn. rewrite Ha in Hn. injection Hn as <-.
    split; assumption.
Qed.

(** X5.  Normalisation keeps an array well formed: the result has the
    element type of the input, its dimensions are those of the input in
    another order, it has as many elements, and every element still fits
    the type. *)
Theorem normalize_keeps_well_formed modules input permute (a b : ndarray) :
  tensor_to_numpy modules input = Ok a ->
  wf_ndarray a ->
  normalize modules input permute = Ok b ->
  wf_ndarray b
  /\ arr_dtype b = arr_dtype a
  /\ Permutation (arr_shape b) (arr_shape a)
  /\ length (arr_items b) = length (arr_items a).
Proof.
  intros Ha [Hlen Hrange] Hn.
  destruct (normalize_selected _ _ _ _ _ Ha Hn) as (Hperm & Hshape & Hd).
  assert (Hdims : Permutation (arr_shape b) (arr_shape a)).
  { rewrite Hshape.
    etransitivity; [apply Permutation_map; exact Hperm|].
    unfold ndim. rewrite map_nth_seq. reflexivity. }
  pose proof (normalize_items _ _ _ _ _ Ha (conj Hlen Hrange) Hn) as Hitems.
  destruct Hitems as [Hlen' Hrange'].
  split; [split; [exact Hlen' | rewrite Hd; exact Hrange']|].
  split; [exact Hd|]. split; [exact Hdims|].
  rewrite Hlen', Hlen. apply prod_permutation, Hdims.
Qed.

End NormalizeMore.

(** ** Transposition moves elements, and only that *)

Module TransposeMore.

Import Axes AxesFacts OutcomeFacts NormalizeMore.

(** An index tuple of the transposed array comes from an index tuple of
    the array. *)
Lemma exists_unpermuted (perm j : list nat) (n : nat) :
  Permutation perm (seq 0 n) -> length j = n ->
  exists idx, length idx = n /\ map (fun p => nth p idx 0%nat) perm = j.
Proof.
  intros Hperm Hj.
  assert (Hlen : length perm = n)
    by (rewrite (Permutation_length Hperm), length_seq; reflexivity).
  assert (Hnd : NoDup perm) by (rewrite Hperm; apply NoDup_seq).
  pose proof Hperm as Hperm0.
  symmetry in Hperm. apply Permutation_inj in Hperm as (_ & pos & _ & Hpos).
  set (idx := map (fun m => nth (pos m) j 0%nat) (seq 0 n)).
  exists idx.
  split; [unfold idx; rewrite length_map, length_seq; reflexivity|].
  apply list_eq. intros k. rewrite list_lookup_fmap.
  destruct (perm !! k) as [m|] eqn:Hk; cbn [fmap option_fmap option_map].
  - assert (Hkn : (k < n)%nat) by (rewrite <- Hlen; eapply lookup_lt_Some, Hk).
    assert (Hm : (m < n)%nat).
    { apply list_elem_of_lookup_2 in Hk. rewrite Hperm0 in Hk.
      apply elem_of_seq in Hk. lia. }
    assert (Hposm : pos m = k).
    { specialize (Hpos m). rewrite lookup_seq_lt in Hpos by exact Hm.
      cbn [Nat.add] in Hpos. symmetry in Hpos.
      exact (NoDup_lookup _ _ _ _ Hnd Hpos Hk). }
    assert (Hidx : idx !! m = Some (nth k j 0%nat)).
    { unfold idx. rewrite list_lookup_fmap, lookup_seq_lt by exact Hm.
      cbn [fmap option_fmap option_map Nat.add]. rewrite Hposm. reflexivity. }
    rewrite (nth_lookup_Some _ _ 0%nat _ Hidx).
    destruct (lookup_lt_is_Some_2 j k ltac:(lia)) as [x Hx].
    rewrite Hx. f_equal. apply nth_lookup_Some with (d := 0%nat). exact Hx.
  - apply lookup_ge_None in Hk. symmetry. apply lookup_ge_None. lia.
Qed.

Section Reading.

Variable dims perm : list nat.
Hypothesis perm_axes : Permutation perm (seq 0 (length dims)).

Let dims' := map (fun p => nth p dims 0%nat) perm.
Let strides' := map (fun p => nth p (c_strides dims) 0%nat) perm.

(** The position of the array read for position [f] of the result. *)
Let source (f : nat) : nat := offset (unravel_index dims' f) strides'.

Lemma prod_dims' : prod dims' = prod dims.
Proof.
  apply prod_permutation. unfold dims'.
  etransitivity; [apply Permutation_map; exact perm_axes|].
  rewrite map_nth_seq. reflexivity.
Qed.

Lemma source_spec (f : nat) :
  (f < prod dims)%nat ->
  exists idx,
    Forall2 lt idx dims
    /\ source f = offset idx (c_strides dims)
    /\ f = offset (map (fun p => nth p idx 0%nat) perm) (c_strides dims').
Proof.
  intros Hf. rewrite <- prod_dims' in Hf.
  pose proof (unravel_index_lt dims' f Hf) as Hj.
  assert (Hlenj : length (unravel_index dims' f) = length dims).
  { rewrite (Forall2_length _ _ _ Hj). unfold dims'. rewrite length_map.
    rewrite (Permutation_length perm_axes), length_seq. reflexivity. }
  destruct (exists_unpermuted perm _ _ perm_axes Hlenj) as (idx & Hlen & Hidx).
  exists idx.
  assert (Hlt : Forall2 lt idx dims).
  { apply Forall2_same_length_lookup. split; [exact Hlen|].
    intros m x d Hx Hd.
    assert (Hm : m ∈ perm).
    { rewrite perm_axes. apply elem_of_seq.
      apply lookup_lt_Some in Hd. lia. }
    apply list_elem_of_lookup_1 in Hm as [k Hk].
    assert (Hjk : unravel_index dims' f !! k = Some x).
    { rewrite <- Hidx, list_lookup_fmap, Hk.
      cbn [fmap option_fmap option_map]. f_equal.
      apply nth_lookup_Some with (d := 0%nat). exact Hx. }
    assert (Hdk : dims' !! k = Some d).
    { unfold dims'. rewrite list_lookup_fmap, Hk.
      cbn [fmap option_fmap option_map]. f_equal.
      apply nth_lookup_Some with (d := 0%nat). exact Hd. }
    exact (Forall2_lookup_lr _ _ _ _ _ _ Hj Hjk Hdk). }
  split; [exact Hlt|]. split.
  - unfold source, strides'. rewrite <- Hidx.
    apply offset_permuted.
    + rewrite length_c_strides. exact Hlen.
    + rewrite Hlen. exact perm_axes.
  - rewrite Hidx. symmetry. apply offset_unravel. exact Hf.
Qed.

(** The positions read are the positions of the array, each once. *)
Lemma sources_permutation :
  Permutation (map source (seq 0 (prod dims))) (seq 0 (prod dims)).
Proof.
  apply nodup_below_permutation.
  - rewrite length_map, length_seq. reflexivity.
  - apply Forall_map, Forall_forall. intros f Hf. cbn beta.
    apply elem_of_seq in Hf.
    destruct (source_spec f ltac:(lia)) as (idx & Hlt & -> & _).
    apply offset_lt, Hlt.
  - apply NoDup_fmap_2_strong; [|apply NoDup_seq].
    intros f1 f2 H1 H2 Heq.
    apply elem_of_seq in H1. apply elem_of_seq in H2.
    destruct (source_spec f1 ltac:(lia)) as (idx1 & Hlt1 & Hs1 & Hf1).
    destruct (source_spec f2 ltac:(lia)) as (idx2 & Hlt2 & Hs2 & Hf2).
    assert (Hidx : idx1 = idx2).
    { rewrite <- (unravel_offset idx1 dims Hlt1),
              <- (unravel_offset idx2 dims Hlt2).
      rewrite <- Hs1, <- Hs2, Heq. reflexivity. }
    subst idx2. rewrite Hf1. exact (eq_sym Hf2).
Qed.

End Reading.

Lemma permute_axes_items (a : ndarray) (perm : list nat) :
  Permutation perm (seq 0 (ndim a)) ->
  length (arr_items a) = prod (arr_shape a) ->
  Permutation (arr_items (permute_axes a perm)) (arr_items a).
Proof.
  intros Hperm Hwf. unfold ndim in Hperm.
  cbn [permute_axes arr_items].
  rewrite (prod_dims' _ _ Hperm).
  set (src := fun f =>
         offset (unravel_index
                   (map (fun p => nth p (arr_shape a) 0%nat) perm) f)
                (map (fun p => nth p (c_strides (arr_shape a)) 0%nat) perm)).
  change (Permutation
            (map (fun f => nth (src f) (arr_items a) 0)
                 (seq 0 (prod (arr_shape a))))
            (arr_items a)).
  rewrite <- (map_map src (fun k => nth k (arr_items a) 0)).
  etransitivity;
    [apply Permutation_map; exact (sources_permutation _ _ Hperm)|].
  rewrite <- Hwf, map_nth_seq. reflexivity.
Qed.

(** X6.  Normalisation neither loses nor repeats an element: the elements
    of the normalised array are those of the input array in another
    order, whatever axis list NumPy accepted. *)
Theorem normalize_rearranges_elements modules input permute (a b : ndarray) :
  tensor_to_numpy modules input = Ok a ->
  length (arr_items a) = prod (arr_shape a) ->
  normalize modules input permute = Ok b ->
  Permutation (arr_items b) (arr_items a).
Proof.
  intros Ha Hwf Hn. destruct permute as [p|].
  - apply (normalize_some_iff _ _ _ _ _ Ha) in Hn as [Hacc ->].
    apply permute_axes_items; [apply accepted_permutation, Hacc | exact Hwf].
  - unfold normalize in Hn. rewrite Ha in Hn. injection Hn as <-. reflexivity.
Qed.

End TransposeMore.

(** ** The envelope *)

Module EnvelopeFacts.

Import Axes Notions AxesFacts OutcomeFacts NormalizeMore.

Lemma recognized_mono (m1 m2 : gset string) tensor :
  m1 ⊆ m2 -> recognized m1 tensor = true -> recognized m2 tensor = true.
Proof.
  intros Hsub. destruct tensor; cbn [recognized]; try discriminate;
    try reflexivity; intros H; apply bool_decide_eq_true_1 in H;
    apply bool_decide_eq_true_2; set_solver.
Qed.

Lemma half_zero : IEEE754.half_to_float_bits 0 = 0.
Proof. reflexivity. Qed.

Lemma permute_axes_map (f : Z -> Z) (a : ndarray) (d : dtype) (perm : list nat) :
  f 0 = 0 ->
  permute_axes {| arr_dtype := d; arr_shape := arr_shape a;
                  arr_items := map f (arr_items a) |} perm
  = {| arr_dtype := d;
       arr_shape := arr_shape (permute_axes a perm);
       arr_items := map f (arr_items (permute_axes a perm)) |}.
Proof.
  intros Hf. unfold permute_axes. cbn [arr_dtype arr_shape arr_items].
  f_equal. rewrite map_map. apply map_ext. intros k.
  rewrite <- Hf at 1. apply map_nth.
Qed.

Lemma b64encode_length (bs : list byte) :
  length (Base64.b64encode bs) = (4 * ((length bs + 2) / 3))%nat.
Proof.
  enough (H : length (Base64.b64encode bs) = (4 * ((length bs + 2) / 3))%nat
              /\ (forall a, length (Base64.b64encode (a :: bs))
                            = (4 * ((length (a :: bs) + 2) / 3))%nat)
              /\ (forall a b, length (Base64.b64encode (a :: b :: bs))
                              = (4 * ((length (a :: b :: bs) + 2) / 3))%nat))
    by apply H.
  induction bs as [|x bs (IH0 & IH1 & IH2)].
  - repeat split; reflexivity.
  - split; [apply IH1|]. split; [intros a; apply IH2|].
    intros a b. cbn [Base64.b64encode length]. rewrite IH0.
    replace (S (S (S (length bs))) + 2)%nat with (length bs + 2 + 1 * 3)%nat
      by lia.
    rewrite Nat.div_add by lia. lia.
Qed.

Lemma sextet_char_in (s : Z) : 0 <= s < 64 -> Base64.sextet_char s ∈ Base64.alphabet.
Proof.
  intros Hs. unfold Base64.sextet_char.
  apply list_elem_of_In, nth_In.
  change (length Base64.alphabet) with 64%nat. lia.
Qed.

Lemma b64encode_chars (bs : list byte) :
  Forall base64_char (Base64.b64encode bs).
Proof.
  enough (H : Forall base64_char (Base64.b64encode bs)
              /\ (forall a, Forall base64_char (Base64.b64encode (a :: bs)))
              /\ (forall a b, Forall base64_char
                                (Base64.b64encode (a :: b :: bs))))
    by apply H.
  assert (Hch : forall s, 0 <= s < 64 -> base64_char (Base64.sextet_char s))
    by (intros s Hs; left; apply sextet_char_in, Hs).
  assert (Hpad : base64_char Base64.pad) by (right; reflexivity).
  induction bs as [|x bs (IH0 & IH1 & IH2)].
  - split; [constructor|]. split.
    + intros a. pose proof (Z_of_byte_range a). cbn [Base64.b64encode].
      repeat (apply Forall_cons; split;
              [first [exact Hpad | apply Hch; Z.div_mod_to_equations; lia]|]).
      apply List.Forall_nil.
    + intros a b. pose proof (Z_of_byte_range a).
      pose proof (Z_of_byte_range b). cbn [Base64.b64encode].
      repeat (apply Forall_cons; split;
              [first [exact Hpad | apply Hch; Z.div_mod_to_equations; lia]|]).
      apply List.Forall_nil.
  - split; [apply IH1|]. split; [intros a; apply IH2|].
    intros a b. pose proof (Z_of_byte_range a).
    pose proof (Z_of_byte_range b). pose proof (Z_of_byte_range x).
    cbn [Base64.b64encode].
    repeat (apply Forall_cons; split;
            [apply Hch; Z.div_mod_to_equations; lia|]).
    exact IH0.
Qed.

Section Envelope.

Variable native : byteorder.
Variable zlib_compress : Z -> list byte -> list byte.

(** What an envelope that was returned was built from. *)
Lemma tensor_to_json_envelope modules input permute env :
  tensor_to_json native zlib_compress modules input permute = Ok (Some env) ->
  exists a b,
    tensor_to_numpy modules input = Ok a
    /\ normalize modules input permute = Ok b
    /\ is_Some (dtype_mapping !! arr_dtype b)
    /\ env = {| shape := map Z.of_nat (arr_shape b);
                compression := "zlib";
                shuffle := wire_stride (arr_dtype b);
                dtype_ := dtype_name (wire_dtype (arr_dtype b));
                data := string_of_list_byte
                          (Base64.b64encode
                             (zlib_compress Z_BEST_SPEED
                                (wire_bytes native b))) |}.
Proof.
  intros H.
  assert (Hin : input <> PyNone) by (intros ->; discriminate).
  rewrite (tensor_to_json_unfold _ _ _ _ _ Hin) in H.
  destruct (normalize modules input permute) as [b| |] eqn:Hn;
    cbn [Py.bind] in H; try discriminate.
  assert (Ha : exists a, tensor_to_numpy modules input = Ok a).
  { unfold normalize in Hn.
    destruct (tensor_to_numpy modules input); try discriminate.
    eexists. reflexivity. }
  destruct Ha as [a Ha]. exists a, b.
  destruct (encode_cases native zlib_compress b)
    as [[Hsup _] | [_ Hraise]].
  - rewrite (encode_spec _ _ _ Hsup) in H. cbn [Py.bind] in H.
    injection H as <-. repeat split; try assumption.
  - rewrite Hraise in H. discriminate.
Qed.

(** X7.  For a recognised input the answer depends on the array it stands
    for only: a tensor of a loaded library gives what its array gives,
    under any set of loaded modules; and loading further modules never
    changes an answer that was an envelope. *)
Theorem answer_depends_on_array_only modules input permute (a : ndarray) :
  recognized modules input = true ->
  payload input = Some a ->
  (forall modules',
      tensor_to_json native zlib_compress modules input permute
      = tensor_to_json native zlib_compress modules' (NdArray a) permute)
  /\ (forall modules',
        modules ⊆ modules' ->
        tensor_to_json native zlib_compress modules' input permute
        = tensor_to_json native zlib_compress modules input permute).
Proof.
  intros Hr Hp.
  assert (Hin : input <> PyNone) by (intros ->; discriminate).
  assert (Hnorm : forall m t,
            recognized m t = true -> payload t = Some a ->
            normalize m t permute = normalize modules input permute).
  { intros m t Hrt Hpt. unfold normalize.
    rewrite (tensor_to_numpy_payload _ _ _ Hrt Hpt),
            (tensor_to_numpy_payload _ _ _ Hr Hp).
    reflexivity. }
  split.
  - intros modules'.
    rewrite (tensor_to_json_unfold _ _ _ _ _ Hin).
    rewrite (tensor_to_json_unfold _ _ modules' (NdArray a))
      by discriminate.
    rewrite (Hnorm modules' (NdArray a)); reflexivity.
  - intros modules' Hsub.
    rewrite !(tensor_to_json_unfold _ _ _ _ _ Hin).
    rewrite (Hnorm modules' input);
      [reflexivity | exact (recognized_mono _ _ _ Hsub Hr) | exact Hp].
Qed.

(** X8.  A [float16] array and the [float32] array of its widened
    elements give the same answer, for every permutation: widening before
    the call or inside it makes no difference. *)
Theorem float16_same_as_widened modules permute (a : ndarray) :
  arr_dtype a = float16 ->
  tensor_to_json native zlib_compress modules (NdArray a) permute
  = tensor_to_json native zlib_compress modules
      (NdArray {| arr_dtype := float32;
                  arr_shape := arr_shape a;
                  arr_items := map IEEE754.half_to_float_bits (arr_items a) |})
      permute.
Proof.
  intros Hd.
  set (w := {| arr_dtype := float32; arr_shape := arr_shape a;
               arr_items := map IEEE754.half_to_float_bits (arr_items a) |}).
  rewrite !tensor_to_json_unfold by discriminate.
  assert (Ha : forall x : ndarray,
            tensor_to_numpy modules (NdArray x)
            = if bool_decide (ndim x <= NPY_MAXDIMS)%nat then Ok x
              else OutOfModel "ndim")
    by (intros x; apply tensor_to_numpy_payload; reflexivity).
  assert (Henc : forall b : ndarray,
            arr_dtype b = float16 ->
            encode native zlib_compress b
            = encode native zlib_compress
                {| arr_dtype := float32; arr_shape := arr_shape b;
                   arr_items := map IEEE754.half_to_float_bits (arr_items b) |}).
  { intros b Hb.
    rewrite !encode_spec
      by (cbn [arr_dtype]; rewrite ?Hb, dtype_mapping_lookup;
          eexists; reflexivity).
    unfold wire_bytes, wire_array. cbn [arr_dtype arr_shape arr_items].
    rewrite Hb. cbn [wire_dtype wire_stride itemsize].
    rewrite length_map. reflexivity. }
  unfold normalize. rewrite !Ha. change (ndim w) with (ndim a).
  destruct (bool_decide (ndim a <= NPY_MAXDIMS)%nat); [|reflexivity].
  cbn [Py.bind]. destruct permute as [p|].
  - change (length (arr_shape w)) with (length (arr_shape a)).
    destruct (bool_decide _); [reflexivity|].
    unfold transpose. change (ndim w) with (ndim a).
    destruct (intp_converter p) as [p'| |]; cbn [Py.bind]; try reflexivity.
    destruct (bool_decide _); [|reflexivity].
    destruct (adjust_axes (ndim a) p' []) as [q| |]; cbn [Py.bind];
      try reflexivity.
    unfold w. rewrite (permute_axes_map _ a float32 q half_zero).
    rewrite (Henc (permute_axes a q)) by exact Hd. reflexivity.
  - cbn [Py.bind]. rewrite (Henc a Hd). reflexivity.
Qed.

(** X9.  The fields of a returned envelope agree with each other: the
    compression is "zlib"; the dtype is one of the seven wire names; the
    shuffle stride is the byte width of that type, and is absent exactly
    for the one-byte types; the shape has as many entries as the array
    has dimensions, none of them negative. *)
Theorem envelope_fields_agree modules input permute env :
  tensor_to_json native zlib_compress modules input permute = Ok (Some env) ->
  compression env = "zlib"
  /\ (exists d,
        dtype_of_name (dtype_ env) = Some d
        /\ d ∈ [float32; float64; int8; uint8; int16; int32; int64]
        /\ shuffle env
           = if bool_decide (itemsize d = 1%nat) then None
             else Some (Z.of_nat (itemsize d)))
  /\ shuffle env ∈ [None; Some 2; Some 4; Some 8]
  /\ Forall (fun n => 0 <= n) (shape env).
Proof.
  intros H.
  destruct (tensor_to_json_envelope _ _ _ _ H) as (a & b & _ & _ & Hsup & ->).
  cbn [compression dtype_ shuffle shape].
  split; [reflexivity|].
  rewrite dtype_mapping_lookup in Hsup.
  split; [|split].
  - exists (wire_dtype (arr_dtype b)).
    destruct (arr_dtype b); destruct Hsup as [e He]; try discriminate;
      (split; [reflexivity|]); (split; [|reflexivity]);
      cbn [wire_dtype]; set_solver.
  - destruct (arr_dtype b); destruct Hsup as [e He]; try discriminate;
      cbn; set_solver.
  - apply Forall_map, Forall_forall. intros n _. cbn beta. lia.
Qed.

(** X10.  The data of a returned envelope is the base64 text of the
    compressed bytes of the tensor: the normalised array, cast to the
    transmission type of its table entry, flattened and serialised,
    shuffled with the stride of the entry if it has one, and compressed
    at the fastest level.  Decoding the text gives exactly those
    compressed bytes; the text has four characters for every three of
    them or part thereof, each a character of the base64 alphabet or the
    padding character. *)
Theorem envelope_data_is_base64 modules input permute env :
  tensor_to_json native zlib_compress modules input permute = Ok (Some env) ->
  exists (b cast : ndarray) target name kind stride (buffer : list byte),
    normalize modules input permute = Ok b
    /\ dtype_mapping !! arr_dtype b = Some (target, name, kind, stride)
    /\ astype b target = Ok cast
    /\ match stride with
       | Some s => byte_shuffle native s (tobytes native (flatten cast))
       | None => Ok (tobytes native (flatten cast))
       end = Ok buffer
    /\ shuffle env = stride
    /\ Base64.b64decode (list_byte_of_string (data env))
       = Some (zlib_compress Z_BEST_SPEED buffer)
    /\ length (list_byte_of_string (data env))
       = (4 * ((length (zlib_compress Z_BEST_SPEED buffer) + 2) / 3))%nat
    /\ Forall base64_char (list_byte_of_string (data env)).
Proof.
  intros H.
  assert (Hin : input <> PyNone) by (intros ->; discriminate).
  rewrite (tensor_to_json_unfold _ _ _ _ _ Hin) in H.
  destruct (normalize modules input permute) as [b| |] eqn:Hn;
    cbn [Py.bind] in H; try discriminate.
  unfold encode in H.
  destruct (dtype_mapping !! arr_dtype b) as [[[[target name] kind] stride]|]
    eqn:He; [|discriminate].
  pose proof (dtype_mapping_entry _ _ He) as Hentry.
  injection Hentry as Ht Hname Hkind Hstride.
  destruct (astype b target) as [cast| |] eqn:Hcast; cbn [Py.bind] in H;
    try discriminate.
  destruct (match stride with
            | Some s => byte_shuffle native s (tobytes native (flatten cast))
            | None => Ok (tobytes native (flatten cast))
            end) as [buffer| |] eqn:Hbuf; cbn [Py.bind] in H;
    try discriminate.
  rewrite bool_decide_eq_true_2 in H by exact Hkind.
  rewrite decode_ascii_b64encode in H. cbn [Py.bind] in H.
  injection H as <-. cbn [data shuffle].
  exists b, cast, target, name, kind, stride, buffer.
  split; [reflexivity|]. split; [exact He|]. split; [exact Hcast|].
  split; [exact Hbuf|]. split; [reflexivity|].
  split; [apply b64_text_roundtrip|].
  rewrite list_byte_of_string_of_list_byte.
  split; [apply b64encode_length | apply b64encode_chars].
Qed.

End Envelope.

End EnvelopeFacts.

(** ** The shuffled buffer *)

Module ShuffleMore.

Import Axes AxesFacts OutcomeFacts NormalizeMore EnvelopeFacts.

Lemma lookup_flat_map_uniform {A B} (f : A -> list B) (l : list A)
    (w r c : nat) (x : A) :
  (forall y, y ∈ l -> length (f y) = w) ->
  l !! r = Some x -> (c < w)%nat ->
  flat_map f l !! (r * w + c)%nat = f x !! c.
Proof.
  revert r. induction l as [|y l IH]; intros r Hlen Hr Hc; [discriminate|].
  cbn [flat_map]. destruct r as [|r].
  - injection Hr as ->. cbn [Nat.mul Nat.add].
    apply lookup_app_l. rewrite Hlen by left. exact Hc.
  - cbn [lookup list_lookup] in Hr.
    rewrite lookup_app_r by (rewrite Hlen by left; lia).
    rewrite Hlen by left.
    replace (S r * w + c - w)%nat with (r * w + c)%nat by lia.
    apply IH; [|exact Hr | exact Hc].
    intros z Hz. apply Hlen. right. exact Hz.
Qed.

Lemma length_flat_map_uniform {A B} (f : A -> list B) (l : list A) (w : nat) :
  (forall y, y ∈ l -> length (f y) = w) ->
  length (flat_map f l) = (length l * w)%nat.
Proof.
  induction l as [|y l IH]; intros Hlen; [reflexivity|].
  cbn [flat_map length]. rewrite length_app, Hlen by left.
  rewrite IH by (intros z Hz; apply Hlen; right; exact Hz). lia.
Qed.

Lemma le_bytes_lookup (w k : nat) (x : Z) :
  (k < w)%nat -> le_bytes w x !! k = Some (byte_of_Z (x / 256 ^ Z.of_nat k)).
Proof.
  revert k x. induction w as [|w IH]; intros k x Hk; [lia|].
  cbn [le_bytes]. destruct k as [|k].
  - cbn. rewrite Z.div_1_r. reflexivity.
  - cbn [lookup list_lookup]. rewrite IH by lia. f_equal. f_equal.
    rewrite Nat2Z.inj_succ, Z.pow_succ_r by lia.
    rewrite Z.div_div by lia. reflexivity.
Qed.

(** The buffer of [n] elements of [w] bytes each, shuffled: plane after
    plane, plane [k] holding byte [k] of every element. *)
Lemma grid_transpose_planes (ser : Z -> list byte) (w : nat) (xs : list Z) :
  (forall x, length (ser x) = w) ->
  grid_transpose (length xs) w (flat_map ser xs)
  = flat_map (fun k => map (fun x => nth k (ser x) "000"%byte) xs) (seq 0 w).
Proof.
  intros Hser. set (n := length xs).
  assert (Hbuf : length (flat_map ser xs) = (n * w)%nat)
    by (apply length_flat_map_uniform; intros; apply Hser).
  assert (Hplanes : forall k, k ∈ seq 0 w ->
            length (map (fun x => nth k (ser x) "000"%byte) xs) = n)
    by (intros; apply length_map).
  apply list_eq. intros i.
  destruct (Nat.lt_ge_cases i (w * n)) as [Hi|Hi].
  - assert (Hn : (0 < n)%nat) by (destruct n; lia).
    pose proof (Nat.div_mod_eq i n) as Hdm.
    pose proof (Nat.mod_upper_bound i n ltac:(lia)) as Hr.
    pose proof (Nat.Div0.div_lt_upper_bound i n w ltac:(lia)) as Hc.
    set (r := (i mod n)%nat) in *. set (c := (i / n)%nat) in *.
    replace i with (c * n + r)%nat by lia.
    rewrite grid_transpose_lookup by assumption.
    destruct (lookup_lt_is_Some_2 xs r Hr) as [x Hx].
    rewrite (lookup_flat_map_uniform ser xs w r c x)
      by (intros; apply Hser || assumption).
    rewrite (lookup_flat_map_uniform _ (seq 0 w) n c r c);
      [|exact Hplanes | apply lookup_seq_lt; exact Hc | exact Hr].
    rewrite list_lookup_fmap, Hx. cbn [fmap option_fmap option_map].
    destruct (lookup_lt_is_Some_2 (ser x) c ltac:(rewrite Hser; lia))
      as [b Hb].
    rewrite Hb. f_equal. symmetry.
    apply nth_lookup_Some with (d := "000"%byte). exact Hb.
  - rewrite !lookup_ge_None_2; [reflexivity | |].
    + rewrite (length_flat_map_uniform _ _ n), length_seq by exact Hplanes.
      lia.
    + rewrite length_grid_transpose. lia.
Qed.

(** The positions the shuffle reads are those of the buffer, each once. *)
Lemma grid_positions (rows cols : nat) :
  Permutation
    (map (fun f => (f mod rows) * cols + f / rows)%nat (seq 0 (cols * rows)))
    (seq 0 (cols * rows)).
Proof.
  apply nodup_below_permutation.
  - rewrite length_map, length_seq. reflexivity.
  - apply Forall_map, Forall_forall. intros f Hf. cbn beta.
    apply elem_of_seq in Hf.
    assert (Hr : (0 < rows)%nat) by (destruct rows; lia).
    pose proof (Nat.mod_upper_bound f rows ltac:(lia)).
    pose proof (Nat.Div0.div_lt_upper_bound f rows cols ltac:(lia)).
    pose proof (Nat.mul_le_mono_r (f mod rows + 1) rows cols ltac:(lia)).
    lia.
  - apply NoDup_fmap_2_strong; [|apply NoDup_seq].
    intros f1 f2 H1 H2 Heq.
    apply elem_of_seq in H1. apply elem_of_seq in H2.
    assert (Hr : (0 < rows)%nat) by (destruct rows; lia).
    assert (Hsplit : forall f, (f < cols * rows)%nat ->
              (((f mod rows) * cols + f / rows) / cols = f mod rows
               /\ ((f mod rows) * cols + f / rows) mod cols = f / rows)%nat).
    { intros f Hf.
      pose proof (Nat.Div0.div_lt_upper_bound f rows cols ltac:(lia)) as Hq.
      rewrite (Nat.add_comm ((f mod rows) * cols)).
      rewrite (Nat.div_add (f / rows) (f mod rows) cols) by lia.
      rewrite (Nat.Div0.mod_add (f / rows) (f mod rows) cols).
      rewrite (Nat.div_small (f / rows) cols) by exact Hq.
      rewrite (Nat.mod_small (f / rows) cols) by exact Hq. lia. }
    destruct (Hsplit f1 ltac:(lia)) as [Ha1 Hb1].
    destruct (Hsplit f2 ltac:(lia)) as [Ha2 Hb2].
    rewrite Heq in Ha1, Hb1.
    assert (Em : (f1 mod rows = f2 mod rows)%nat) by lia.
    assert (Ed : (f1 / rows = f2 / rows)%nat) by lia.
    transitivity (rows * (f1 / rows) + f1 mod rows)%nat;
      [apply Nat.div_mod_eq|].
    rewrite Em, Ed. symmetry. apply Nat.div_mod_eq.
Qed.

Section Shuffle.

Variable native : byteorder.

(** X11.  The shuffle of the serialised elements of an array groups the
    bytes by their place in the element: the result is one plane per byte
    of the element width, plane [k] holding byte [k] of the serialisation
    of every element in element order; on a little-endian machine that is
    byte [k] in order of significance, [x / 256^k mod 256]. *)
Theorem shuffle_groups_bytes_by_place (a : ndarray) :
  let w := itemsize (arr_dtype a) in
  byte_shuffle native (Z.of_nat w) (tobytes native (flatten a))
  = Ok (flat_map
          (fun k =>
             map (fun x => nth k (elem_to_bytes native w x) "000"%byte)
                 (arr_items a))
          (seq 0 w))
  /\ (forall (k : nat) (x : Z),
        (k < w)%nat ->
        nth k (elem_to_bytes LittleEndian w x) "000"%byte
        = byte_of_Z (x / 256 ^ Z.of_nat k)).
Proof.
  intros w. split.
  - unfold tobytes, flatten. cbn [arr_dtype arr_items]. fold w.
    rewrite (byte_shuffle_spec native (length (arr_items a)) w).
    + f_equal. apply grid_transpose_planes.
      intros x. apply length_elem_to_bytes.
    + apply itemsize_pos.
    + apply length_flat_map_bytes.
  - intros k x Hk. cbn [elem_to_bytes].
    apply nth_lookup_Some with (d := "000"%byte).
    apply le_bytes_lookup, Hk.
Qed.

(** X12.  The shuffle only moves bytes: whenever it succeeds, the shuffled
    buffer is a rearrangement of the buffer; and it succeeds exactly when
    the stride is positive and divides the length of the buffer, raising
    NumPy's reshape error otherwise. *)
Theorem shuffle_rearranges_bytes (s : Z) (buf : list byte) :
  (0 < s /\ Z.of_nat (length buf) mod s = 0 ->
   exists out, byte_shuffle native s buf = Ok out /\ Permutation out buf)
  /\ (~ (0 < s /\ Z.of_nat (length buf) mod s = 0) ->
      byte_shuffle native s buf = Raise (ValueError "cannot reshape array")).
Proof.
  split.
  - intros [Hs Hmod].
    set (cols := Z.to_nat s). set (rows := (length buf / cols)%nat).
    assert (Hc : (0 < cols)%nat) by (unfold cols; lia).
    assert (Hlen : length buf = (rows * cols)%nat).
    { unfold rows.
      assert (Hm : (length buf mod cols = 0)%nat).
      { apply Nat2Z.inj. rewrite Nat2Z.inj_mod. unfold cols.
        rewrite Z2Nat.id by lia. exact Hmod. }
      pose proof (Nat.div_mod_eq (length buf) cols). lia. }
    replace s with (Z.of_nat cols) by (unfold cols; lia).
    exists (grid_transpose rows cols buf).
    split; [apply byte_shuffle_spec; assumption|].
    unfold grid_transpose.
    rewrite <- (map_map (fun f => (f mod rows) * cols + f / rows)%nat
                        (fun k => nth k buf "000"%byte)).
    etransitivity; [apply Permutation_map, grid_positions|].
    replace (cols * rows)%nat with (length buf) by lia.
    rewrite map_nth_seq. reflexivity.
  - intros Hno. unfold byte_shuffle. rewrite frombuffer_bytes.
    cbn [Py.bind]. unfold reshape_rows. cbn [arr_items].
    rewrite length_map.
    destruct (Z.leb_spec s 0) as [Hle|Hgt]; [reflexivity|].
    destruct (Z.eqb_spec (Z.of_nat (length buf) mod s) 0) as [Hz|Hnz].
    + exfalso. apply Hno. split; [lia | exact Hz].
    + reflexivity.
Qed.

End Shuffle.

End ShuffleMore.

(** ** The size of the payload *)

Module PayloadFacts.

Import Axes AxesFacts OutcomeFacts NormalizeMore EnvelopeFacts.

Lemma product_of_nat (dims : list nat) :
  foldr Z.mul 1 (map Z.of_nat dims) = Z.of_nat (prod dims).
Proof.
  unfold prod. induction dims as [|d ds IH]; [reflexivity|].
  cbn [map foldr]. rewrite IH. lia.
Qed.

Lemma length_wire_bytes (order : byteorder) (a : ndarray) :
  length (wire_bytes order a)
  = (length (arr_items a) * itemsize (wire_dtype (arr_dtype a)))%nat.
Proof.
  unfold wire_bytes.
  destruct (wire_stride (arr_dtype a)).
  - rewrite length_grid_transpose. lia.
  - apply length_raw_bytes.
Qed.

Section Payload.

Variable native : byteorder.
Variable zlib_compress : Z -> list byte -> list byte.
Variable zlib_decompress : list byte -> option (list byte).
Hypothesis zlib_inflate_deflate :
  forall b, zlib_decompress (zlib_compress Z_BEST_SPEED b) = Some b.

(** X13.  The envelope of a well-formed array announces the size of its
    payload: decoded and inflated, the data has as many bytes as the
    product of the shape times the byte width of the dtype. *)
Theorem payload_size_matches_shape modules input permute (a : ndarray) env :
  tensor_to_numpy modules input = Ok a ->
  wf_ndarray a ->
  tensor_to_json native zlib_compress modules input permute = Ok (Some env) ->
  exists compressed buf d,
    Base64.b64decode (list_byte_of_string (data env)) = Some compressed
    /\ zlib_decompress compressed = Some buf
    /\ dtype_of_name (dtype_ env) = Some d
    /\ Z.of_nat (length buf)
       = foldr Z.mul 1 (shape env) * Z.of_nat (itemsize d).
Proof.
  intros Ha Hwf H.
  destruct (tensor_to_json_envelope _ _ _ _ _ _ H)
    as (a' & b & Ha' & Hn & Hsup & ->).
  assert (a' = a) by congruence. subst a'.
  destruct (normalize_items _ _ _ _ _ Ha Hwf Hn) as [Hlen _].
  cbn [data dtype_ shape].
  exists (zlib_compress Z_BEST_SPEED (wire_bytes native b)),
         (wire_bytes native b), (wire_dtype (arr_dtype b)).
  split; [apply b64_text_roundtrip|].
  split; [apply zlib_inflate_deflate|].
  split; [apply wire_dtype_name, Hsup|].
  rewrite length_wire_bytes, product_of_nat, Hlen. lia.
Qed.

End Payload.

End PayloadFacts.

(** ** Metadata *)

Module MetadataFacts.

Import Axes Notions AxesFacts OutcomeFacts NormalizeMore.

Lemma list_getitem_spec {A} (l : list A) (i : Z) :
  list_getitem l i
  = match l !! axis_index (length l) i with
    | Some x =>
        if - Z.of_nat (length l) <=? i then Ok x
        else Raise (IndexError "list index out of range")
    | None => Raise (IndexError "list index out of range")
    end.
Proof.
  unfold list_getitem, axis_index.
  destruct (Z.ltb_spec i 0) as [Hneg|Hpos].
  - destruct (Z.leb_spec 0 (i + Z.of_nat (length l))) as [Hin|Hout].
    + destruct (Z.leb_spec (- Z.of_nat (length l)) i); [|lia].
      destruct (l !! Z.to_nat (i + Z.of_nat (length l))); reflexivity.
    + destruct (Z.leb_spec (- Z.of_nat (length l)) i); [lia|].
      destruct (l !! Z.to_nat (i + Z.of_nat (length l))); reflexivity.
  - destruct (Z.leb_spec 0 i); [|lia].
    destruct (Z.leb_spec (- Z.of_nat (length l)) i); [|lia].
    destruct (l !! Z.to_nat i); reflexivity.
Qed.

Lemma entry_spec {A} (array : list A) (i : Z) :
  entry array i
  = if - Z.of_nat (length array) <=? i
    then Ok (array !! axis_index (length array) i)
    else Raise (IndexError "list index out of range").
Proof.
  unfold entry. rewrite list_getitem_spec.
  destruct (Z.ltb_spec i (Z.of_nat (length array))) as [Hlt|Hge].
  - destruct (Z.leb_spec (- Z.of_nat (length array)) i) as [Hin|Hout].
    + destruct (lookup_lt_is_Some_2 array (axis_index (length array) i))
        as [x Hx].
      { unfold axis_index. destruct (Z.ltb_spec i 0); lia. }
      rewrite Hx. reflexivity.
    + destruct (array !! axis_index (length array) i); reflexivity.
  - destruct (Z.leb_spec (- Z.of_nat (length array)) i); [|lia].
    rewrite lookup_ge_None_2; [reflexivity|].
    unfold axis_index. destruct (Z.ltb_spec i 0); lia.
Qed.

Lemma apply_permute_entries {A} (array : list A) (permute : list Z) :
  apply_permute (Some array) permute
  = (let! out := comprehension (entry array) permute in Ok (Some out)).
Proof. reflexivity. Qed.

Lemma apply_permute_in_range {A} (array : list A) (permute : list Z) :
  Forall (fun i => - Z.of_nat (length array) <= i) permute ->
  apply_permute (Some array) permute
  = Ok (Some (map (fun i => array !! axis_index (length array) i) permute)).
Proof.
  intros Hall. rewrite apply_permute_entries.
  enough (H : comprehension (entry array) permute
              = Ok (map (fun i => array !! axis_index (length array) i)
                        permute))
    by (rewrite H; reflexivity).
  induction Hall as [|i permute Hi _ IH]; [reflexivity|].
  cbn [comprehension map]. rewrite IH, entry_spec.
  destruct (Z.leb_spec (- Z.of_nat (length array)) i); [reflexivity | lia].
Qed.

Lemma apply_permute_below {A} (array : list A) (permute : list Z) :
  Exists (fun i => i < - Z.of_nat (length array)) permute ->
  apply_permute (Some array) permute
  = Raise (IndexError "list index out of range").
Proof.
  intros Hex. rewrite apply_permute_entries.
  enough (H : comprehension (entry array) permute
              = Raise (IndexError "list index out of range"))
    by (rewrite H; reflexivity).
  induction permute as [|i permute IH]; [inversion Hex|].
  cbn [comprehension]. rewrite entry_spec.
  destruct (Z.leb_spec (- Z.of_nat (length array)) i) as [Hin|Hout];
    [|reflexivity].
  cbn [Py.bind]. rewrite IH; [reflexivity|].
  apply Exists_cons in Hex as [Hbad|Hex]; [lia | exact Hex].
Qed.

(** X14.  [apply_permute] indexes the metadata as Python indexes a list.
    With every index at least minus the length of the metadata it returns
    one entry per index: the entry at that index, counted from the end
    when the index is negative, and [None] when the index is past the
    end.  With an index below minus the length it raises [IndexError].
    Without metadata it returns [None], whatever the permutation. *)
Theorem apply_permute_indexes_like_python {A} (array : list A)
    (permute : list Z) :
  (Forall (fun i => - Z.of_nat (length array) <= i) permute ->
   apply_permute (Some array) permute
   = Ok (Some (map (fun i => array !! axis_index (length array) i) permute)))
  /\ (Exists (fun i => i < - Z.of_nat (length array)) permute ->
      apply_permute (Some array) permute
      = Raise (IndexError "list index out of range"))
  /\ apply_permute (None : option (list A)) permute = Ok None.
Proof.
  split; [apply apply_permute_in_range|].
  split; [apply apply_permute_below | reflexivity].
Qed.

Lemma lookups_take {A} (l : list A) (n : nat) :
  (n <= length l)%nat ->
  map (fun k => l !! k) (seq 0 n) = map Some (take n l).
Proof.
  revert n. induction l as [|x l IH]; intros n Hn.
  - destruct n; [reflexivity | cbn in Hn; lia].
  - destruct n as [|n]; [reflexivity|].
    cbn [seq map take]. rewrite <- seq_shift, map_map. cbn [lookup list_lookup].
    f_equal. apply IH. cbn in Hn. lia.
Qed.

(** X15.  With a permutation of [0 .. n-1] and metadata of at least [n]
    entries, [apply_permute] returns the first [n] entries in another
    order: none is lost, none repeated, none is [None]; entries past the
    [n]-th are left out. *)
Theorem apply_permute_rearranges {A} (array : list A) (permute : list Z)
    (n : nat) :
  is_permutation permute n ->
  (n <= length array)%nat ->
  exists out,
    apply_permute (Some array) permute = Ok (Some out)
    /\ Permutation out (map Some (take n array)).
Proof.
  intros Hp Hn. eexists. split.
  - apply apply_permute_in_range.
    eapply Forall_impl; [apply is_permutation_range, Hp|].
    intros i Hi. cbn beta in Hi. lia.
  - rewrite <- lookups_take by exact Hn.
    erewrite map_ext_Forall.
    + rewrite <- (map_map Z.to_nat (fun k => array !! k)).
      apply Permutation_map, is_permutation_to_nat, Hp.
    + eapply Forall_impl; [apply is_permutation_range, Hp|].
      intros i Hi. cbn beta in *. rewrite axis_index_nonneg by lia.
      reflexivity.
Qed.

(** X16.  Metadata with one entry per axis stays aligned with the axes:
    for every axis list NumPy accepts whose axis numbers lie in
    [-rank, rank), negative ones included, the entry and the dimension at
    each position of the results come from one and the same axis of the
    input. *)
Theorem metadata_follows_axes {A} modules input (p : list Z) (a b : ndarray)
    (meta : list A) :
  tensor_to_numpy modules input = Ok a ->
  normalize modules input (Some p) = Ok b ->
  Forall (in_range (ndim a)) p ->
  length meta = ndim a ->
  exists out,
    apply_permute (Some meta) p = Ok (Some out)
    /\ length out = length (arr_shape b)
    /\ forall (k : nat) (i : Z),
         p !! k = Some i ->
         exists (j : nat) (x : A) (d : nat),
           j = axis_index (ndim a) i
           /\ meta !! j = Some x /\ arr_shape a !! j = Some d
           /\ out !! k = Some (Some x) /\ arr_shape b !! k = Some d.
Proof.
  intros Ha Hn Hall Hlen.
  pose proof (tensor_to_numpy_ndim _ _ _ Ha) as Hmax.
  apply (normalize_some_iff _ _ _ _ _ Ha) in Hn as [_ ->].
  eexists. split.
  - apply apply_permute_in_range. rewrite Hlen.
    eapply Forall_impl; [exact Hall|]. intros i Hi. apply Hi.
  - split; [cbn [permute_axes arr_shape]; rewrite !length_map; reflexivity|].
    intros k i Hk. rewrite Hlen.
    assert (Hi : in_range (ndim a) i).
    { rewrite Forall_forall in Hall. apply Hall.
      eapply list_elem_of_lookup_2, Hk. }
    pose proof (axis_index_lt _ _ Hi) as Hj.
    destruct (lookup_lt_is_Some_2 meta (axis_index (ndim a) i) ltac:(lia))
      as [x Hx].
    destruct (lookup_lt_is_Some_2 (arr_shape a) (axis_index (ndim a) i) Hj)
      as [d Hd].
    exists (axis_index (ndim a) i), x, d.
    split; [reflexivity|]. split; [exact Hx|]. split; [exact Hd|].
    split.
    + rewrite list_lookup_fmap, Hk. cbn [fmap option_fmap option_map].
      rewrite Hx. reflexivity.
    + cbn [permute_axes arr_shape]. rewrite !list_lookup_fmap, Hk.
      cbn [fmap option_fmap option_map].
      rewrite (denoted_in_range _ _ Hmax Hi). f_equal.
      apply nth_lookup_Some with (d := 0%nat). exact Hd.
Qed.

(** Beyond that range the two part ways: NumPy narrows an axis number to a
    C [int], Python's list indexing does not.  The axis list
    [4294967297, 0] transposes a 2x3 array as [1, 0] does, and picks from
    the names as an index past their end and the index 0. *)
Example metadata_beyond_range :
  normalize ∅ (NdArray example_2x3) (Some [4294967297; 0])
  = normalize ∅ (NdArray example_2x3) (Some [1; 0])
  /\ apply_permute (Some ["row"; "column"]) [4294967297; 0]
     = Ok (Some [None; Some "row"]).
Proof. split; vm_compute; reflexivity. Qed.

End MetadataFacts.

(** ** The widget *)

Module WidgetFacts.

Import Axes Session AxesFacts OutcomeFacts NormalizeMore MetadataFacts Widget.

Lemma assign_scale_frame (self : widget) (scale : gmap string json) :
  let r := assign_scale self scale in
  names (state r) = names self
  /\ labels (state r) = labels self
  /\ scale_domain (state r) = scale_domain self
  /\ scale_type (state r) = scale_type self
  /\ scale_scheme (state r) = scale_scheme self
  /\ default_views (state r) = default_views self
  /\ tensor_data (state r) = tensor_data self
  /\ outbox r = [].
Proof.
  unfold assign_scale.
  destruct (validate_list _); [|cbn; repeat split; reflexivity].
  destruct (validate_unicode _); [|cbn; repeat split; reflexivity].
  destruct (validate_unicode _); cbn; repeat split; reflexivity.
Qed.

Lemma handle_tensor_data (self : widget) (content : gmap string json) :
  tensor_data (state (handle_custom_msg self content)) = tensor_data self.
Proof.
  unfold handle_custom_msg.
  destruct (content !! "type") as [type|]; [|reflexivity].
  destruct (if is_str type "prop" then _ else _) as [[|]|]; try reflexivity.
  destruct (is_str type "scale"); [|reflexivity].
  destruct (dict_get content "scale"); try reflexivity.
  apply (assign_scale_frame self fields).
Qed.

Lemma after_tensor_data (self : widget) (messages : list (gmap string json)) :
  tensor_data (after self messages) = tensor_data self.
Proof.
  unfold after. revert self.
  induction messages as [|m ms IH]; intros self; [reflexivity|].
  cbn [foldl]. rewrite IH. apply handle_tensor_data.
Qed.

(** X19.  Handling a message never touches what the constructor stored:
    the metadata, the scale arguments and [tensor_data] are the same
    afterwards, whatever the message and whether or not handling it
    raised; and the only thing ever passed to [self.send] is one "prop"
    message for the tensor, carrying [tensor_data]. *)
Theorem handler_keeps_constructor_state (self : widget)
    (content : gmap string json) :
  let r := handle_custom_msg self content in
  names (state r) = names self
  /\ labels (state r) = labels self
  /\ scale_domain (state r) = scale_domain self
  /\ scale_type (state r) = scale_type self
  /\ scale_scheme (state r) = scale_scheme self
  /\ default_views (state r) = default_views self
  /\ tensor_data (state r) = tensor_data self
  /\ (outbox r = []
      \/ outbox r = [ {| msg_type := "prop"; msg_valueType := "Tensor";
                         msg_name := "tensor";
                         msg_value := tensor_data self |} ]).
Proof.
  unfold handle_custom_msg.
  destruct (content !! "type") as [type|];
    [|cbn; repeat split; try reflexivity; left; reflexivity].
  destruct (if is_str type "prop" then _ else _) as [[|]|];
    [cbn; repeat split; try reflexivity; right; reflexivity
    | | cbn; repeat split; try reflexivity; left; reflexivity].
  destruct (is_str type "scale");
    [|cbn; repeat split; try reflexivity; left; reflexivity].
  destruct (dict_get content "scale");
    try (cbn; repeat split; try reflexivity; left; reflexivity).
  pose proof (assign_scale_frame self fields) as H. cbv zeta in H.
  destruct H as (? & ? & ? & ? & ? & ? & ? & ?).
  repeat split; try assumption. left. assumption.
Qed.

(** X20.  Whatever messages arrive after construction, and in whatever
    order, a request for the tensor is answered with exactly one message,
    which carries the [tensor_data] the constructor stored; answering
    raises nothing and changes nothing. *)
Theorem tensor_request_answered_with_constructed_data (self : widget)
    (messages : list (gmap string json)) (content : gmap string json) :
  content !! "type" = Some (JStr "prop") ->
  content !! "name" = Some (JStr "tensor") ->
  handle_custom_msg (after self messages) content
  = {| state := after self messages;
       outbox := [ {| msg_type := "prop"; msg_valueType := "Tensor";
                      msg_name := "tensor";
                      msg_value := tensor_data self |} ];
       raised := None |}.
Proof.
  intros Ht Hn.
  unfold handle_custom_msg. rewrite Ht, Hn. cbn.
  rewrite after_tensor_data. reflexivity.
Qed.

(** X21.  A "scale" message whose scale is an object sets the three
    current-scale traits from its "domain", "type" and "scheme", a key
    that is absent or null clearing the trait; it sends nothing.  The
    domain must be one the [List] trait accepts (a list, null, or a
    string, which is stored as the list of that one string) and the other
    two strings or null. *)
Theorem scale_message_sets_current_scale (self : widget)
    (content scale : gmap string json) domain type scheme :
  content !! "type" = Some (JStr "scale") ->
  content !! "scale" = Some (JObj scale) ->
  validate_list (dict_get scale "domain") = Some domain ->
  validate_unicode (dict_get scale "type") = Some type ->
  validate_unicode (dict_get scale "scheme") = Some scheme ->
  let r := handle_custom_msg self content in
  raised r = None
  /\ outbox r = []
  /\ current_scale_domain (state r) = domain
  /\ current_scale_type (state r) = type
  /\ current_scale_scheme (state r) = scheme
  /\ (scale = ∅ ->
      current_scale_domain (state r) = None
      /\ current_scale_type (state r) = None
      /\ current_scale_scheme (state r) = None).
Proof.
  intros Ht Hs Hd Hty Hsch r. subst r.
  unfold handle_custom_msg. rewrite Ht. cbn [is_str].
  rewrite bool_decide_eq_false_2 by discriminate.
  rewrite bool_decide_eq_true_2 by reflexivity.
  assert (Hget : dict_get content "scale" = JObj scale)
    by (unfold dict_get; rewrite Hs; reflexivity).
  rewrite Hget.
  unfold assign_scale. rewrite Hd, Hty, Hsch. cbn.
  do 5 (split; [reflexivity|]).
  intros ->. unfold dict_get in Hd, Hty, Hsch.
  rewrite lookup_empty in Hd, Hty, Hsch. cbn in Hd, Hty, Hsch.
  repeat split; congruence.
Qed.

(** X22.  The handler raises on a malformed message and then leaves the
    widget untouched: [KeyError] when the message has no "type", or is a
    "prop" message without "name"; [AttributeError] when a "scale" message
    has no scale object.  A message of any other type, and a "prop"
    message for another name, is ignored. *)
Theorem malformed_message_changes_nothing (self : widget)
    (content : gmap string json) :
  (content !! "type" = None ->
   handle_custom_msg self content = raises self (KeyError "type"))
  /\ (content !! "type" = Some (JStr "prop") -> content !! "name" = None ->
      handle_custom_msg self content = raises self (KeyError "name"))
  /\ (content !! "type" = Some (JStr "scale") ->
      (forall scale, content !! "scale" <> Some (JObj scale)) ->
      handle_custom_msg self content = raises self (AttributeError "get"))
  /\ (forall type,
        content !! "type" = Some type ->
        type <> JStr "prop" -> type <> JStr "scale" ->
        handle_custom_msg self content = returns self [])
  /\ (forall name,
        content !! "type" = Some (JStr "prop") ->
        content !! "name" = Some name -> name <> JStr "tensor" ->
        handle_custom_msg self content = returns self []).
Proof.
  unfold handle_custom_msg. repeat split.
  - intros ->. reflexivity.
  - intros -> ->. reflexivity.
  - intros -> Hno. cbn.
    unfold dict_get. destruct (content !! "scale") as [[]|] eqn:Hs;
      try reflexivity.
    exfalso. exact (Hno _ eq_refl).
  - intros type -> Hp Hs.
    assert (H1 : is_str type "prop" = false).
    { destruct type; try reflexivity. cbn.
      apply bool_decide_eq_false_2. congruence. }
    assert (H2 : is_str type "scale" = false).
    { destruct type; try reflexivity. cbn.
      apply bool_decide_eq_false_2. congruence. }
    rewrite H1, H2. reflexivity.
  - intros name -> -> Hn. cbn.
    assert (H1 : is_str name "tensor" = false).
    { destruct name; try reflexivity. cbn.
      apply bool_decide_eq_false_2. congruence. }
    rewrite H1. reflexivity.
Qed.

(** X23.  A "scale" message is not applied as a whole: when the domain is
    acceptable and the type is not (a number, say), the handler raises
    [TraitError] after it has replaced the current domain, and leaves the
    current type and scheme as they were. *)
Theorem scale_message_applied_in_part (self : widget)
    (content scale : gmap string json) domain :
  content !! "type" = Some (JStr "scale") ->
  content !! "scale" = Some (JObj scale) ->
  validate_list (dict_get scale "domain") = Some domain ->
  validate_unicode (dict_get scale "type") = None ->
  let r := handle_custom_msg self content in
  raised r = Some (TraitError "current_scale_type")
  /\ current_scale_domain (state r) = domain
  /\ current_scale_type (state r) = current_scale_type self
  /\ current_scale_scheme (state r) = current_scale_scheme self.
Proof.
  intros Ht Hs Hd Hty r. subst r.
  unfold handle_custom_msg. rewrite Ht. cbn [is_str].
  rewrite bool_decide_eq_false_2 by discriminate.
  rewrite bool_decide_eq_true_2 by reflexivity.
  assert (Hget : dict_get content "scale" = JObj scale)
    by (unfold dict_get; rewrite Hs; reflexivity).
  rewrite Hget.
  unfold assign_scale. rewrite Hd, Hty. cbn. repeat split.
Qed.

(** A domain that is a string is not refused: it is stored as a list of
    one element, and the type and the scheme are assigned after it. *)
Example string_domain_is_wrapped :
  let scale : gmap string json :=
    {[ "domain" := JStr "ab"; "type" := JStr "log" ]} in
  let r := handle_custom_msg example_widget
             {[ "type" := JStr "scale"; "scale" := JObj scale ]} in
  raised r = None
  /\ current_scale_domain (state r) = Some [JStr "ab"]
  /\ current_scale_type (state r) = Some "log"
  /\ current_scale_scheme (state r) = None.
Proof. repeat split; vm_compute; reflexivity. Qed.

(** X24.  Handling the same message a second time changes nothing more:
    the widget, what is sent and what is raised are the same as the first
    time. *)
Theorem handling_twice_is_handling_once (self : widget)
    (content : gmap string json) :
  handle_custom_msg (state (handle_custom_msg self content)) content
  = handle_custom_msg self content.
Proof.
  unfold handle_custom_msg.
  destruct (content !! "type") as [type|]; [|reflexivity].
  destruct (if is_str type "prop" then _ else _) as [[|]|]; try reflexivity.
  destruct (is_str type "scale"); [|reflexivity].
  destruct (dict_get content "scale"); try reflexivity.
  unfold assign_scale.
  destruct (validate_list _); [|reflexivity].
  destruct (validate_unicode (dict_get fields "type")); [|reflexivity].
  destruct (validate_unicode (dict_get fields "scheme")); reflexivity.
Qed.

Section Construction.

Variable native : byteorder.
Variable zlib_compress : Z -> list byte -> list byte.

(** X17.  Construction fails with the error of [tensor_to_json] when that
    fails, before any metadata is looked at.  When it succeeds and the
    permutation (if any) has no negative index, construction succeeds:
    the widget holds the result of [tensor_to_json], the scale arguments
    as given, no current scale, and each metadata list either as given
    (no permutation) or with the entry at index [permute[k]] at position
    [k], [None] past the end of the list. *)
Theorem construction modules tensor names labels default_views
    scale_domain scale_type scale_scheme permute :
  let build :=
    init native zlib_compress modules tensor names labels default_views
         scale_domain scale_type scale_scheme permute in
  let pick {A} (meta : option (list A)) : option (list (option A)) :=
    match permute with
    | None => map Some <$> meta
    | Some p => (fun l => map (fun i => l !! Z.to_nat i) p) <$> meta
    end in
  (forall e,
      tensor_to_json native zlib_compress modules tensor permute = Raise e ->
      build = Raise e)
  /\ (forall envelope,
        tensor_to_json native zlib_compress modules tensor permute
        = Ok envelope ->
        match permute with
        | None => True
        | Some p => Forall (fun i => 0 <= i) p
        end ->
        build
        = Ok {| Widget.names := pick names;
                Widget.labels := pick labels;
                Widget.scale_domain := scale_domain;
                Widget.scale_type := scale_type;
                Widget.scale_scheme := scale_scheme;
                Widget.default_views := pick default_views;
                current_scale_domain := None;
                current_scale_type := None;
                current_scale_scheme := None;
                tensor_data := envelope |}).
Proof.
  intros build pick. unfold build, init. split.
  - intros e ->. reflexivity.
  - intros envelope -> Hp. cbn [Py.bind].
    destruct permute as [p|]; [|reflexivity].
    assert (Hmeta : forall A (meta : option (list A)),
              apply_permute meta p = Ok (pick A meta)).
    { intros A [l|]; [|reflexivity]. cbn [pick fmap option_fmap option_map].
      rewrite (apply_permute_in_range l p)
        by (eapply Forall_impl; [exact Hp|]; intros i Hi; cbn beta in *; lia).
      f_equal. f_equal. apply map_ext_Forall.
      eapply Forall_impl; [exact Hp|]. intros i Hi. cbn beta in *.
      rewrite axis_index_nonneg by exact Hi. reflexivity. }
    rewrite !Hmeta. reflexivity.
Qed.

(** X18.  Metadata shorter than the permutation reaches can bring the
    constructor down after [tensor_to_json] has returned: when an index of
    the permutation is below minus the number of names, which NumPy allows
    as long as it is not below minus the rank (and anything is allowed when
    the tensor is [None]), the constructor raises [IndexError]. *)
Theorem construction_fails_on_short_names modules tensor (names : list string)
    labels default_views scale_domain scale_type scale_scheme
    (permute : list Z) envelope :
  tensor_to_json native zlib_compress modules tensor (Some permute)
  = Ok envelope ->
  Exists (fun i => i < - Z.of_nat (length names)) permute ->
  init native zlib_compress modules tensor (Some names) labels
       default_views scale_domain scale_type scale_scheme (Some permute)
  = Raise (IndexError "list index out of range").
Proof.
  intros Hjson Hex. unfold init. rewrite Hjson. cbn [Py.bind].
  rewrite (apply_permute_below names permute Hex). reflexivity.
Qed.

Variable zlib_decompress : list byte -> option (list byte).
Hypothesis zlib_inflate_deflate :
  forall b, zlib_decompress (zlib_compress Z_BEST_SPEED b) = Some b.

(** X25.  From construction to the renderer: when a widget is built on an
    input that normalises to a well-formed array of a supported element
    type, a later request for the tensor, after any messages, is answered
    with an envelope that decodes to the elements and shape of that
    array. *)
Theorem constructed_tensor_reaches_renderer modules tensor names labels
    default_views scale_domain scale_type scale_scheme permute
    (a : ndarray) (w : widget) (messages : list (gmap string json)) :
  normalize modules tensor permute = Ok a ->
  wf_ndarray a ->
  is_Some (dtype_mapping !! arr_dtype a) ->
  init native zlib_compress modules tensor names labels default_views
       scale_domain scale_type scale_scheme permute = Ok w ->
  exists env out,
    outbox (handle_custom_msg (after w messages) tensor_request)
    = [ {| msg_type := "prop"; msg_valueType := "Tensor";
           msg_name := "tensor"; msg_value := Some env |} ]
    /\ decode native zlib_decompress env = Some out
    /\ arr_shape out = arr_shape a
    /\ length (arr_items out) = length (arr_items a)
    /\ (arr_dtype a <> float16 -> out = a).
Proof.
  intros Hn Hwf Hsup Hinit.
  destruct (tensor_to_json_normalized native zlib_compress _ _ _ _ Hn Hsup)
    as (env & Hjson & Henc).
  assert (Htd : tensor_data w = Some env).
  { unfold init in Hinit. rewrite Hjson in Hinit. cbn [Py.bind] in Hinit.
    destruct (match permute with Some _ => _ | None => _ end)
      as [[[n l] d]| |]; cbn [Py.bind] in Hinit; try discriminate.
    injection Hinit as <-. reflexivity. }
  exists env, (wire_array a).
  assert (Hout : outbox (handle_custom_msg (after w messages) tensor_request)
                 = [ {| msg_type := "prop"; msg_valueType := "Tensor";
                        msg_name := "tensor";
                        msg_value := tensor_data (after w messages) |} ])
    by reflexivity.
  rewrite Hout, after_tensor_data, Htd.
  split; [reflexivity|].
  split; [eapply decode_encode; eassumption|].
  split; [reflexivity|].
  split; [apply length_wire_items | apply wire_array_same].
Qed.

End Construction.

End WidgetFacts.

(** ** The further properties at concrete inputs *)

Lemma envelope_iff_witness :
  NdArray example_2x3 <> PyNone
  /\ Axes.accepted (ndim example_2x3) [4294967297; 0]
  /\ exists env,
       tensor_to_json BigEndian StoredZlib.compress ∅ (NdArray example_2x3)
         (Some [4294967297; 0]) = Ok (Some env).
Proof.
  assert (H : NdArray example_2x3 <> PyNone) by discriminate.
  assert (Hacc : Axes.accepted (ndim example_2x3) [4294967297; 0]).
  { split; [reflexivity|]. split; [|split].
    - repeat (apply List.Forall_cons; [lia|]). apply List.Forall_nil.
    - apply List.Forall_cons.
      { change (c_int 4294967297) with 1.
        unfold Axes.in_range, ndim, example_2x3. simpl. lia. }
      apply List.Forall_cons; [|apply List.Forall_nil].
      change (c_int 0) with 0.
      unfold Axes.in_range, ndim, example_2x3. simpl. lia.
    - change (NoDup [1; 0]%nat). apply NoDup_cons.
      split; [|apply NoDup_singleton].
      intros Hin. apply list_elem_of_singleton in Hin. discriminate. }
  split; [exact H|]. split; [exact Hacc|].
  apply (proj2 (proj1 (OutcomeFacts.envelope_iff BigEndian StoredZlib.compress
                         ∅ (NdArray example_2x3) (Some [4294967297; 0]) H))).
  exists example_2x3.
  split; [reflexivity|]. split; [reflexivity|].
  split; [unfold ndim, NPY_MAXDIMS; simpl; lia|].
  split; [exact Hacc|]. eexists. vm_compute. reflexivity.
Defined.

Lemma errors_in_order_witness :
  let huge := 2 ^ 70 in
  PyOther "a list" <> PyNone
  /\ recognized {["torch"]} (PyOther "a list") = false
  /\ tensor_to_json LittleEndian StoredZlib.compress {["torch"]}
       (PyOther "a list") (Some [5; 5; 5])
     = Raise (ValueError "expect input to be numpy array or torch tensor")
  /\ NdArray example_2x3 <> PyNone
  /\ tensor_to_numpy ∅ (NdArray example_2x3) = Ok example_2x3
  /\ length [7; huge] = ndim example_2x3
  /\ Exists (fun x => ~ - 2 ^ 63 <= x < 2 ^ 63) [7; huge]
  /\ tensor_to_json LittleEndian StoredZlib.compress ∅
       (NdArray example_2x3) (Some [7; huge])
     = Raise (ValueError "Maximum allowed dimension exceeded").
Proof.
  cbv zeta.
  assert (H : PyOther "a list" <> PyNone) by discriminate.
  assert (Hr : recognized {["torch"]} (PyOther "a list") = false)
    by reflexivity.
  assert (H' : NdArray example_2x3 <> PyNone) by discriminate.
  assert (Ha : tensor_to_numpy ∅ (NdArray example_2x3) = Ok example_2x3)
    by (vm_compute; reflexivity).
  assert (Hlen : length [7; 2 ^ 70] = ndim example_2x3) by reflexivity.
  assert (Hex : Exists (fun x => ~ - 2 ^ 63 <= x < 2 ^ 63) [7; 2 ^ 70])
    by (apply Exists_cons_tl, Exists_cons_hd; lia).
  split; [exact H|]. split; [exact Hr|].
  split; [exact (proj1 (OutcomeFacts.errors_in_order LittleEndian
                          StoredZlib.compress {["torch"]} (PyOther "a list")
                          (Some [5; 5; 5]) H) Hr)|].
  split; [exact H'|]. split; [exact Ha|]. split; [exact Hlen|].
  split; [exact Hex|].
  pose proof (OutcomeFacts.errors_in_order LittleEndian StoredZlib.compress
                ∅ (NdArray example_2x3) (Some [7; 2 ^ 70]) H')
    as (_ & _ & _ & Hp & _).
  exact (proj1 (proj2 (Hp example_2x3 [7; 2 ^ 70] Ha eq_refl)) Hlen Hex).
Defined.

Lemma negative_axes_count_from_end_witness :
  tensor_to_numpy ∅ (NdArray example_rank3) = Ok example_rank3
  /\ Forall (Axes.in_range (ndim example_rank3)) [-1; 0; -2]
  /\ tensor_to_json LittleEndian StoredZlib.compress ∅ (NdArray example_rank3)
       (Some (map (fun x => Z.of_nat (Axes.axis_index (ndim example_rank3) x))
                  [-1; 0; -2]))
     = tensor_to_json LittleEndian StoredZlib.compress ∅
         (NdArray example_rank3) (Some [-1; 0; -2]).
Proof.
  assert (Ha : tensor_to_numpy ∅ (NdArray example_rank3) = Ok example_rank3)
    by (vm_compute; reflexivity).
  assert (Hr : Forall (Axes.in_range (ndim example_rank3)) [-1; 0; -2])
    by (repeat (apply List.Forall_cons;
                [unfold Axes.in_range, ndim, example_rank3; simpl; lia|]);
        apply List.Forall_nil).
  split; [exact Ha|]. split; [exact Hr|].
  exact (NormalizeMore.negative_axes_count_from_end LittleEndian
           StoredZlib.compress ∅ (NdArray example_rank3) [-1; 0; -2]
           example_rank3 Ha Hr).
Defined.

Lemma identity_permutation_is_none_witness :
  tensor_to_numpy ∅ (NdArray example_rank3) = Ok example_rank3
  /\ length (arr_items example_rank3) = prod (arr_shape example_rank3)
  /\ tensor_to_json LittleEndian StoredZlib.compress ∅ (NdArray example_rank3)
       (Some (map Z.of_nat (seq 0 (ndim example_rank3))))
     = tensor_to_json LittleEndian StoredZlib.compress ∅
         (NdArray example_rank3) None.
Proof.
  assert (Ha : tensor_to_numpy ∅ (NdArray example_rank3) = Ok example_rank3)
    by (vm_compute; reflexivity).
  assert (Hl : length (arr_items example_rank3)
               = prod (arr_shape example_rank3)) by reflexivity.
  split; [exact Ha|]. split; [exact Hl|].
  exact (NormalizeMore.identity_permutation_is_none LittleEndian
           StoredZlib.compress ∅ (NdArray example_rank3) example_rank3 Ha Hl).
Defined.

Lemma example_2x3_wf : wf_ndarray example_2x3.
Proof. split; [reflexivity | repeat constructor; simpl; lia]. Defined.

Lemma example_2x3_transposed :
  normalize ∅ (NdArray example_2x3) (Some [1; 0])
  = Ok {| arr_dtype := float32; arr_shape := [3; 2]%nat;
          arr_items := [0x3F800000; 0x40800000; 0x40000000;
                        0x40A00000; 0x40400000; 0x40C00000] |}.
Proof. vm_compute. reflexivity. Defined.

Lemma normalize_keeps_well_formed_witness :
  let b := {| arr_dtype := float32; arr_shape := [3; 2]%nat;
              arr_items := [0x3F800000; 0x40800000; 0x40000000;
                            0x40A00000; 0x40400000; 0x40C00000] |} in
  tensor_to_numpy ∅ (NdArray example_2x3) = Ok example_2x3
  /\ wf_ndarray example_2x3
  /\ normalize ∅ (NdArray example_2x3) (Some [1; 0]) = Ok b
  /\ wf_ndarray b
  /\ arr_dtype b = arr_dtype example_2x3
  /\ Permutation (arr_shape b) (arr_shape example_2x3)
  /\ length (arr_items b) = length (arr_items example_2x3).
Proof.
  cbv zeta.
  assert (Ha : tensor_to_numpy ∅ (NdArray example_2x3) = Ok example_2x3)
    by (vm_compute; reflexivity).
  split; [exact Ha|]. split; [exact example_2x3_wf|].
  split; [exact example_2x3_transposed|].
  exact (NormalizeMore.normalize_keeps_well_formed ∅ (NdArray example_2x3)
           (Some [1; 0]) example_2x3 _ Ha example_2x3_wf
           example_2x3_transposed).
Defined.

Lemma normalize_rearranges_elements_witness :
  let b := {| arr_dtype := float32; arr_shape := [3; 2]%nat;
              arr_items := [0x3F800000; 0x40800000; 0x40000000;
                            0x40A00000; 0x40400000; 0x40C00000] |} in
  tensor_to_numpy ∅ (NdArray example_2x3) = Ok example_2x3
  /\ length (arr_items example_2x3) = prod (arr_shape example_2x3)
  /\ normalize ∅ (NdArray example_2x3) (Some [1; 0]) = Ok b
  /\ Permutation (arr_items b) (arr_items example_2x3).
Proof.
  cbv zeta.
  assert (Ha : tensor_to_numpy ∅ (NdArray example_2x3) = Ok example_2x3)
    by (vm_compute; reflexivity).
  assert (Hl : length (arr_items example_2x3) = prod (arr_shape example_2x3))
    by reflexivity.
  split; [exact Ha|]. split; [exact Hl|].
  split; [exact example_2x3_transposed|].
  exact (TransposeMore.normalize_rearranges_elements ∅ (NdArray example_2x3)
           (Some [1; 0]) example_2x3 _ Ha Hl example_2x3_transposed).
Defined.

Lemma answer_depends_on_array_only_witness :
  recognized {["torch"]} (TorchTensor example_2x3) = true
  /\ payload (TorchTensor example_2x3) = Some example_2x3
  /\ tensor_to_json LittleEndian StoredZlib.compress {["torch"]}
       (TorchTensor example_2x3) (Some [1; 0])
     = tensor_to_json LittleEndian StoredZlib.compress ∅
         (NdArray example_2x3) (Some [1; 0]).
Proof.
  assert (Hr : recognized {["torch"]} (TorchTensor example_2x3) = true)
    by (vm_compute; reflexivity).
  assert (Hp : payload (TorchTensor example_2x3) = Some example_2x3)
    by reflexivity.
  split; [exact Hr|]. split; [exact Hp|].
  exact (proj1 (EnvelopeFacts.answer_depends_on_array_only LittleEndian
                  StoredZlib.compress {["torch"]} (TorchTensor example_2x3)
                  (Some [1; 0]) example_2x3 Hr Hp) ∅).
Defined.

Lemma float16_same_as_widened_witness :
  arr_dtype example_half_2x2 = float16
  /\ tensor_to_json LittleEndian StoredZlib.compress ∅
       (NdArray example_half_2x2) (Some [1; 0])
     = tensor_to_json LittleEndian StoredZlib.compress ∅
         (NdArray {| arr_dtype := float32;
                     arr_shape := arr_shape example_half_2x2;
                     arr_items := map IEEE754.half_to_float_bits
                                      (arr_items example_half_2x2) |})
         (Some [1; 0]).
Proof.
  split; [reflexivity|].
  exact (EnvelopeFacts.float16_same_as_widened LittleEndian
           StoredZlib.compress ∅ (Some [1; 0]) example_half_2x2 eq_refl).
Defined.

Lemma example_envelope_returned :
  tensor_to_json LittleEndian StoredZlib.compress ∅ (NdArray example_uint8)
    None = Ok (Some example_envelope).
Proof. vm_compute. reflexivity. Defined.

Lemma envelope_fields_agree_witness :
  tensor_to_json LittleEndian StoredZlib.compress ∅ (NdArray example_uint8)
    None = Ok (Some example_envelope)
  /\ compression example_envelope = "zlib"
  /\ (exists d,
        dtype_of_name (dtype_ example_envelope) = Some d
        /\ d ∈ [float32; float64; int8; uint8; int16; int32; int64]
        /\ shuffle example_envelope
           = if bool_decide (itemsize d = 1%nat) then None
             else Some (Z.of_nat (itemsize d)))
  /\ shuffle example_envelope ∈ [None; Some 2; Some 4; Some 8]
  /\ Forall (fun n => 0 <= n) (shape example_envelope).
Proof.
  split; [exact example_envelope_returned|].
  exact (EnvelopeFacts.envelope_fields_agree LittleEndian StoredZlib.compress
           ∅ (NdArray example_uint8) None example_envelope
           example_envelope_returned).
Defined.

Lemma envelope_data_is_base64_witness :
  tensor_to_json LittleEndian StoredZlib.compress ∅ (NdArray example_uint8)
    None = Ok (Some example_envelope)
  /\ exists (b cast : ndarray) target name kind stride (buffer : list byte),
       normalize ∅ (NdArray example_uint8) None = Ok b
       /\ dtype_mapping !! arr_dtype b = Some (target, name, kind, stride)
       /\ astype b target = Ok cast
       /\ match stride with
          | Some s =>
              byte_shuffle LittleEndian s (tobytes LittleEndian (flatten cast))
          | None => Ok (tobytes LittleEndian (flatten cast))
          end = Ok buffer
       /\ shuffle example_envelope = stride
       /\ Base64.b64decode (list_byte_of_string (data example_envelope))
          = Some (StoredZlib.compress Z_BEST_SPEED buffer)
       /\ length (list_byte_of_string (data example_envelope))
          = (4 * ((length (StoredZlib.compress Z_BEST_SPEED buffer) + 2) / 3))%nat
       /\ Forall Notions.base64_char
                 (list_byte_of_string (data example_envelope)).
Proof.
  split; [exact example_envelope_returned|].
  exact (EnvelopeFacts.envelope_data_is_base64 LittleEndian
           StoredZlib.compress ∅ (NdArray example_uint8) None example_envelope
           example_envelope_returned).
Defined.

Lemma shuffle_groups_bytes_by_place_witness :
  (1 < itemsize (arr_dtype example_rank3))%nat
  /\ nth 1 (elem_to_bytes LittleEndian (itemsize (arr_dtype example_rank3))
              0x1234) "000"%byte
     = byte_of_Z (0x1234 / 256 ^ Z.of_nat 1).
Proof.
  assert (H : (1 < itemsize (arr_dtype example_rank3))%nat) by (simpl; lia).
  split; [exact H|].
  exact (proj2 (ShuffleMore.shuffle_groups_bytes_by_place LittleEndian
                  example_rank3) 1%nat 0x1234 H).
Defined.

Lemma shuffle_rearranges_bytes_witness :
  let buf := list_byte_of_string "a1b2c3d4" in
  (0 < 2 /\ Z.of_nat (length buf) mod 2 = 0)
  /\ exists out,
       byte_shuffle LittleEndian 2 buf = Ok out /\ Permutation out buf.
Proof.
  cbv zeta.
  assert (H : 0 < 2
              /\ Z.of_nat (length (list_byte_of_string "a1b2c3d4")) mod 2 = 0)
    by (split; [lia | reflexivity]).
  split; [exact H|].
  exact (proj1 (ShuffleMore.shuffle_rearranges_bytes LittleEndian 2
                  (list_byte_of_string "a1b2c3d4")) H).
Defined.

Lemma example_uint8_wf : wf_ndarray example_uint8.
Proof. split; [reflexivity | repeat constructor; simpl; lia]. Defined.

Lemma payload_size_matches_shape_witness :
  (forall b, StoredZlib.decompress (StoredZlib.compress Z_BEST_SPEED b) = Some b)
  /\ tensor_to_numpy ∅ (NdArray example_uint8) = Ok example_uint8
  /\ wf_ndarray example_uint8
  /\ tensor_to_json LittleEndian StoredZlib.compress ∅ (NdArray example_uint8)
       None = Ok (Some example_envelope)
  /\ exists compressed buf d,
       Base64.b64decode (list_byte_of_string (data example_envelope))
       = Some compressed
       /\ StoredZlib.decompress compressed = Some buf
       /\ dtype_of_name (dtype_ example_envelope) = Some d
       /\ Z.of_nat (length buf)
          = foldr Z.mul 1 (shape example_envelope) * Z.of_nat (itemsize d).
Proof.
  assert (Hlaw : forall b,
             StoredZlib.decompress (StoredZlib.compress Z_BEST_SPEED b) = Some b)
    by exact (StoredZlibFacts.decompress_compress Z_BEST_SPEED).
  assert (Ha : tensor_to_numpy ∅ (NdArray example_uint8) = Ok example_uint8)
    by (vm_compute; reflexivity).
  split; [exact Hlaw|]. split; [exact Ha|]. split; [exact example_uint8_wf|].
  split; [exact example_envelope_returned|].
  exact (PayloadFacts.payload_size_matches_shape LittleEndian
           StoredZlib.compress StoredZlib.decompress Hlaw ∅
           (NdArray example_uint8) None example_uint8 example_envelope
           Ha example_uint8_wf example_envelope_returned).
Defined.

Lemma apply_permute_indexes_like_python_witness :
  Forall (fun i => - Z.of_nat (length ["row"; "column"]) <= i) [-1; 2; 0]
  /\ apply_permute (Some ["row"; "column"]) [-1; 2; 0]
     = Ok (Some [Some "column"; None; Some "row"])
  /\ Exists (fun i => i < - Z.of_nat (length ["row"; "column"])) [0; -3]
  /\ apply_permute (Some ["row"; "column"]) [0; -3]
     = Raise (IndexError "list index out of range").
Proof.
  assert (H1 : Forall (fun i => - Z.of_nat (length ["row"; "column"]) <= i)
                      [-1; 2; 0])
    by (repeat constructor; simpl; lia).
  assert (H2 : Exists (fun i => i < - Z.of_nat (length ["row"; "column"]))
                      [0; -3])
    by (right; left; simpl; lia).
  split; [exact H1|].
  split; [exact (proj1 (MetadataFacts.apply_permute_indexes_like_python
                          ["row"; "column"] [-1; 2; 0]) H1)|].
  split; [exact H2|].
  exact (proj1 (proj2 (MetadataFacts.apply_permute_indexes_like_python
                         ["row"; "column"] [0; -3])) H2).
Defined.

Lemma apply_permute_rearranges_witness :
  is_permutation [1; 0] 2
  /\ (2 <= length ["row"; "column"; "spare"])%nat
  /\ exists out,
       apply_permute (Some ["row"; "column"; "spare"]) [1; 0] = Ok (Some out)
       /\ Permutation out (map Some (take 2 ["row"; "column"; "spare"])).
Proof.
  assert (Hp : is_permutation [1; 0] 2) by (apply perm_swap).
  assert (Hn : (2 <= length ["row"; "column"; "spare"])%nat) by (simpl; lia).
  split; [exact Hp|]. split; [exact Hn|].
  exact (MetadataFacts.apply_permute_rearranges ["row"; "column"; "spare"]
           [1; 0] 2 Hp Hn).
Defined.

Lemma metadata_follows_axes_witness :
  tensor_to_numpy ∅ (NdArray example_2x3) = Ok example_2x3
  /\ normalize ∅ (NdArray example_2x3) (Some [1; 0])
     = Ok {| arr_dtype := float32; arr_shape := [3; 2]%nat;
             arr_items := [0x3F800000; 0x40800000; 0x40000000;
                           0x40A00000; 0x40400000; 0x40C00000] |}
  /\ Forall (Axes.in_range (ndim example_2x3)) [1; 0]
  /\ length ["row"; "column"] = ndim example_2x3
  /\ exists out,
       apply_permute (Some ["row"; "column"]) [1; 0] = Ok (Some out)
       /\ length out = 2%nat
       /\ forall (k : nat) (i : Z),
            [1; 0] !! k = Some i ->
            exists (j : nat) (x : string) (d : nat),
              j = Axes.axis_index (ndim example_2x3) i
              /\ ["row"; "column"] !! j = Some x
              /\ arr_shape example_2x3 !! j = Some d
              /\ out !! k = Some (Some x)
              /\ [3; 2]%nat !! k = Some d.
Proof.
  assert (Ha : tensor_to_numpy ∅ (NdArray example_2x3) = Ok example_2x3)
    by (vm_compute; reflexivity).
  assert (Hl : length ["row"; "column"] = ndim example_2x3) by reflexivity.
  assert (Hr : Forall (Axes.in_range (ndim example_2x3)) [1; 0])
    by (repeat (apply List.Forall_cons;
                [unfold Axes.in_range, ndim, example_2x3; simpl; lia|]);
        apply List.Forall_nil).
  split; [exact Ha|]. split; [exact example_2x3_transposed|].
  split; [exact Hr|]. split; [exact Hl|].
  exact (MetadataFacts.metadata_follows_axes ∅ (NdArray example_2x3) [1; 0]
           example_2x3 _ ["row"; "column"] Ha example_2x3_transposed Hr Hl).
Defined.

Lemma construction_witness :
  tensor_to_json LittleEndian StoredZlib.compress ∅ (NdArray example_uint8)
    None = Ok (Some example_envelope)
  /\ Widget.init LittleEndian StoredZlib.compress ∅ (NdArray example_uint8)
       (Some ["x"]) None None None (Some "log") None None
     = Ok {| Widget.names := Some [Some "x"];
             Widget.labels := None;
             Widget.scale_domain := None;
             Widget.scale_type := Some "log";
             Widget.scale_scheme := None;
             Widget.default_views := None;
             Widget.current_scale_domain := None;
             Widget.current_scale_type := None;
             Widget.current_scale_scheme := None;
             Widget.tensor_data := Some example_envelope |}.
Proof.
  split; [exact example_envelope_returned|].
  exact (proj2 (WidgetFacts.construction LittleEndian StoredZlib.compress ∅
                  (NdArray example_uint8) (Some ["x"]) None None None
                  (Some "log") None None)
               (Some example_envelope) example_envelope_returned I).
Defined.

Lemma construction_fails_on_short_names_witness :
  (exists envelope,
      tensor_to_json LittleEndian StoredZlib.compress ∅ (NdArray example_2x3)
        (Some [-2; 1]) = Ok (Some envelope))
  /\ Exists (fun i => i < - Z.of_nat (length ["row"])) [-2; 1]
  /\ Widget.init LittleEndian StoredZlib.compress ∅ (NdArray example_2x3)
       (Some ["row"]) None None None None None (Some [-2; 1])
     = Raise (IndexError "list index out of range").
Proof.
  assert (Hj : tensor_to_json LittleEndian StoredZlib.compress ∅
                 (NdArray example_2x3) (Some [-2; 1])
               = Ok (Some
                   {| shape := [2; 3];
                      compression := "zlib";
                      shuffle := Some 4;
                      dtype_ := "float32";
                      data := string_of_list_byte
                                (Base64.b64encode
                                   (StoredZlib.compress Z_BEST_SPEED
                                      (wire_bytes LittleEndian example_2x3))) |}))
    by (vm_compute; reflexivity).
  assert (Hex : Exists (fun i => i < - Z.of_nat (length ["row"])) [-2; 1])
    by (left; simpl; lia).
  split; [eexists; exact Hj|]. split; [exact Hex|].
  exact (WidgetFacts.construction_fails_on_short_names LittleEndian
           StoredZlib.compress ∅ (NdArray example_2x3) ["row"] None None None
           None None [-2; 1] _ Hj Hex).
Defined.

Lemma tensor_request_answered_with_constructed_data_witness :
  Session.tensor_request !! "type" = Some (Widget.JStr "prop")
  /\ Session.tensor_request !! "name" = Some (Widget.JStr "tensor")
  /\ Widget.handle_custom_msg
       (Session.after example_widget [example_scale_message; ∅])
       Session.tensor_request
     = {| Widget.state :=
            Session.after example_widget [example_scale_message; ∅];
          Widget.outbox :=
            [ {| Widget.msg_type := "prop"; Widget.msg_valueType := "Tensor";
                 Widget.msg_name := "tensor";
                 Widget.msg_value := Some example_envelope |} ];
          Widget.raised := None |}.
Proof.
  split; [reflexivity|]. split; [reflexivity|].
  exact (WidgetFacts.tensor_request_answered_with_constructed_data
           example_widget [example_scale_message; ∅] Session.tensor_request
           eq_refl eq_refl).
Defined.

Lemma scale_message_sets_current_scale_witness :
  let r := Widget.handle_custom_msg example_widget example_scale_message in
  example_scale_message !! "type" = Some (Widget.JStr "scale")
  /\ example_scale_message !! "scale" = Some (Widget.JObj example_scale)
  /\ Widget.raised r = None
  /\ Widget.outbox r = []
  /\ Widget.current_scale_domain (Widget.state r)
     = Some [Widget.JInt 0; Widget.JInt 1]
  /\ Widget.current_scale_type (Widget.state r) = Some "linear"
  /\ Widget.current_scale_scheme (Widget.state r) = None.
Proof.
  cbv zeta.
  assert (Ht : example_scale_message !! "type" = Some (Widget.JStr "scale"))
    by reflexivity.
  assert (Hs : example_scale_message !! "scale"
               = Some (Widget.JObj example_scale)) by reflexivity.
  split; [exact Ht|]. split; [exact Hs|].
  pose proof (WidgetFacts.scale_message_sets_current_scale example_widget
                example_scale_message example_scale
                (Some [Widget.JInt 0; Widget.JInt 1]) (Some "linear") None
                Ht Hs eq_refl eq_refl eq_refl) as H.
  cbv zeta in H. destruct H as (H1 & H2 & H3 & H4 & H5 & _).
  repeat split; assumption.
Defined.

Lemma malformed_message_changes_nothing_witness :
  (∅ : gmap string Widget.json) !! "type" = None
  /\ Widget.handle_custom_msg example_widget ∅
     = Widget.raises example_widget (Widget.KeyError "type").
Proof.
  split; [reflexivity|].
  exact (proj1 (WidgetFacts.malformed_message_changes_nothing example_widget ∅)
               eq_refl).
Defined.

Lemma scale_message_applied_in_part_witness :
  let r := Widget.handle_custom_msg example_widget example_bad_scale_message in
  Widget.raised r = Some (Widget.TraitError "current_scale_type")
  /\ Widget.current_scale_domain (Widget.state r) = Some [Widget.JInt 0]
  /\ Widget.current_scale_type (Widget.state r)
     = Widget.current_scale_type example_widget
  /\ Widget.current_scale_scheme (Widget.state r)
     = Widget.current_scale_scheme example_widget.
Proof.
  exact (WidgetFacts.scale_message_applied_in_part example_widget
           example_bad_scale_message
           {[ "domain" := Widget.JList [Widget.JInt 0];
              "type" := Widget.JInt 7 ]}
           (Some [Widget.JInt 0]) eq_refl eq_refl eq_refl eq_refl).
Defined.

Lemma constructed_tensor_reaches_renderer_witness :
  (forall b, StoredZlib.decompress (StoredZlib.compress Z_BEST_SPEED b) = Some b)
  /\ normalize ∅ (NdArray example_uint8) None = Ok example_uint8
  /\ wf_ndarray example_uint8
  /\ is_Some (dtype_mapping !! arr_dtype example_uint8)
  /\ Widget.init LittleEndian StoredZlib.compress ∅ (NdArray example_uint8)
       (Some ["x"]) None None None (Some "log") None None
     = Ok example_widget
  /\ exists env out,
       Widget.outbox
         (Widget.handle_custom_msg
            (Session.after example_widget [example_scale_message])
            Session.tensor_request)
       = [ {| Widget.msg_type := "prop"; Widget.msg_valueType := "Tensor";
              Widget.msg_name := "tensor"; Widget.msg_value := Some env |} ]
       /\ decode LittleEndian StoredZlib.decompress env = Some out
       /\ arr_shape out = arr_shape example_uint8
       /\ length (arr_items out) = length (arr_items example_uint8)
       /\ (arr_dtype example_uint8 <> float16 -> out = example_uint8).
Proof.
  assert (Hlaw : forall b,
             StoredZlib.decompress (StoredZlib.compress Z_BEST_SPEED b) = Some b)
    by exact (StoredZlibFacts.decompress_compress Z_BEST_SPEED).
  assert (Hn : normalize ∅ (NdArray example_uint8) None = Ok example_uint8)
    by (vm_compute; reflexivity).
  assert (Hsup : is_Some (dtype_mapping !! arr_dtype example_uint8))
    by (eexists; vm_compute; reflexivity).
  assert (Hinit : Widget.init LittleEndian StoredZlib.compress ∅
                    (NdArray example_uint8) (Some ["x"]) None None None
                    (Some "log") None None = Ok example_widget)
    by (vm_compute; reflexivity).
  split; [exact Hlaw|]. split; [exact Hn|]. split; [exact example_uint8_wf|].
  split; [exact Hsup|]. split; [exact Hinit|].
  exact (WidgetFacts.constructed_tensor_reaches_renderer LittleEndian
           StoredZlib.compress StoredZlib.decompress Hlaw ∅
           (NdArray example_uint8) (Some ["x"]) None None None (Some "log")
           None None example_uint8 example_widget [example_scale_message]
           Hn example_uint8_wf Hsup Hinit).
Defined.
